(** * EnergyHub: the Pyomo energy hub model of [EnergyHub.py]

    The development embeds the class [EnergyHub] ([__init__], [createModel],
    [solve]) together with the part of the Pyomo modelling layer that the
    class calls ([pe.Set], [pe.Param], [pe.Var], [pe.Constraint]).  Numbers
    are exact rationals, index values are Python ints or strings, a Pyomo
    model is the ordered list of its named components, and Python
    exceptions are the [Raise] branch of an error monad. *)

From Stdlib Require Import List Ascii String ZArith QArith Bool Lia.
Import ListNotations.

Open Scope string_scope.
Open Scope Z_scope.
Open Scope list_scope.

(* ================================================================== *)
(** ** Python values used as indices *)

(** An element of a Pyomo set: a Python [int] or [str]. *)
Inductive atom : Type :=
| Int (z : Z)
| Str (s : string).

Definition atom_eqb (a b : atom) : bool :=
  match a, b with
  | Int x, Int y => Z.eqb x y
  | Str x, Str y => String.eqb x y
  | _, _ => false
  end.

(** An index of an indexed component: the tuple [t, out] is [[t; out]],
    the index of a scalar component is the empty tuple. *)
Definition index : Type := list atom.

Fixpoint index_eqb (i j : index) : bool :=
  match i, j with
  | [], [] => true
  | a :: i', b :: j' => atom_eqb a b && index_eqb i' j'
  | _, _ => false
  end.

Definition mem (a : atom) (l : list atom) : bool := existsb (atom_eqb a) l.
Definition memi (i : index) (l : list index) : bool := existsb (index_eqb i) l.

(** A Python [dict] from indices to numbers, by its items. *)
Definition dict : Type := list (index * Q).

Fixpoint lookup (i : index) (d : dict) : option Q :=
  match d with
  | [] => None
  | (k, v) :: d' => if index_eqb i k then Some v else lookup i d'
  end.

(* ================================================================== *)
(** ** Exceptions *)

Inductive exn : Type :=
| ValueError (component : string)
| KeyError (component : string)
| AttributeError (name : string)
| TypeError (name : string)
| ModuleNotFoundError (name : string).

Inductive result (A : Type) : Type :=
| Ok (a : A)
| Raise (e : exn).
Arguments Ok {A} a.
Arguments Raise {A} e.

Definition bind {A B : Type} (r : result A) (k : A -> result B) : result B :=
  match r with
  | Ok a => k a
  | Raise e => Raise e
  end.

Notation "x <- e ;; k" := (bind e (fun x => k))
  (at level 61, e at next level, right associativity).

Definition is_ok {A : Type} (r : result A) : bool :=
  match r with Ok _ => true | Raise _ => false end.

Definition fmap {A B : Type} (f : A -> B) (r : result A) : result B :=
  match r with Ok a => Ok (f a) | Raise e => Raise e end.

(** Evaluation of a comprehension whose body may raise: the first
    exception, in iteration order, is the one that propagates. *)
Fixpoint mapM {A B : Type} (f : A -> result B) (l : list A) : result (list B) :=
  match l with
  | [] => Ok []
  | a :: l' => b <- f a ;; bs <- mapM f l' ;; Ok (b :: bs)
  end.

(* ================================================================== *)
(** ** Pyomo expressions *)

(** Parameters are not mutable, so a parameter enters an expression by
    its numeric value. *)
Inductive expr : Type :=
| Num (q : Q)
| VarRef (name : string) (i : index)
| Add (a b : expr)
| Sub (a b : expr)
| Mul (a b : expr).

(** The result of [==] and [<=] on expressions. *)
Inductive relexpr : Type :=
| EqExpr (l r : expr)
| LeExpr (l r : expr).

(** Python's [sum]: starts from [0] and adds the items from the left. *)
Definition py_sum (items : list expr) : expr := fold_left Add items (Num 0).

(** Value of every variable, by component name and index. *)
Definition assignment : Type := string -> index -> Q.

Fixpoint eval (a : assignment) (e : expr) : Q :=
  match e with
  | Num q => q
  | VarRef name i => a name i
  | Add x y => (eval a x + eval a y)%Q
  | Sub x y => (eval a x - eval a y)%Q
  | Mul x y => (eval a x * eval a y)%Q
  end.

Definition holds (a : assignment) (r : relexpr) : Prop :=
  match r with
  | EqExpr l r => (eval a l == eval a r)%Q
  | LeExpr l r => (eval a l <= eval a r)%Q
  end.

Definition holdsb (a : assignment) (r : relexpr) : bool :=
  match r with
  | EqExpr l r => Qeq_bool (eval a l) (eval a r)
  | LeExpr l r => Qle_bool (eval a l) (eval a r)
  end.

(** Names of the variable components an expression refers to. *)
Fixpoint expr_vars (e : expr) : list string :=
  match e with
  | Num _ => []
  | VarRef name _ => [name]
  | Add x y | Sub x y | Mul x y => expr_vars x ++ expr_vars y
  end.

Definition relexpr_vars (r : relexpr) : list string :=
  match r with
  | EqExpr l r | LeExpr l r => expr_vars l ++ expr_vars r
  end.

(* ================================================================== *)
(** ** Pyomo components and models *)

Inductive domain : Type :=
| NonNegativeReals
| Binary.

Definition in_domain (d : domain) (v : Q) : Prop :=
  match d with
  | NonNegativeReals => (0 <= v)%Q
  | Binary => (v == 0)%Q \/ (v == 1)%Q
  end.

Definition in_domainb (d : domain) (v : Q) : bool :=
  match d with
  | NonNegativeReals => Qle_bool 0 v
  | Binary => Qeq_bool v 0 || Qeq_bool v 1
  end.

Inductive component : Type :=
| SetC (members : list atom)
| ParamC (idx : list index) (vals : dict) (default : option Q)
| VarC (idx : list index) (within : domain)
| ConstraintC (body : list (index * relexpr)).

(** [pe.ConcreteModel()]: the components in the order in which they were
    attached.  Every attribute of the model is assigned once. *)
Definition ConcreteModel : Type := list (string * component).

Fixpoint getattr (m : ConcreteModel) (name : string) : result component :=
  match m with
  | [] => Raise (AttributeError name)
  | (n, c) :: m' => if String.eqb name n then Ok c else getattr m' name
  end.

(** [m.name = <component>]: the component is constructed at once (the
    model is concrete), and an exception raised by its construction
    leaves the statement without effect. *)
Definition setattr (m : ConcreteModel) (name : string)
    (c : result component) : result ConcreteModel :=
  c' <- c ;; Ok (m ++ [(name, c')]).

Definition get_set (m : ConcreteModel) (name : string) : result (list atom) :=
  c <- getattr m name ;;
  match c with
  | SetC l => Ok l
  | _ => Raise (TypeError name)
  end.

(** Cross product of index sets, first set outermost. *)
Fixpoint product (sets : list (list atom)) : list index :=
  match sets with
  | [] => [[]]
  | s :: sets' => flat_map (fun a => map (cons a) (product sets')) s
  end.

Definition index_set (m : ConcreteModel) (sets : list string) : result (list index) :=
  ls <- mapM (get_set m) sets ;; Ok (product ls).

(** What [pe.Constraint] does with a rule that returns [None].  Pyomo
    rejects it: the construction raises [ValueError] ([NoneRaises]), and
    that is how the program runs.  [NoneSkips], where the index is
    skipped and no constraint is emitted for it, is the reading under
    which a rule without [return] is a no-op; it is not what Pyomo does,
    and is kept to show what does not depend on the reaction.  A
    statement made for every [on_none] holds for [NoneRaises]. *)
Inductive none_rule : Type :=
| NoneRaises
| NoneSkips.

(** How a [pe.Param] is initialised. *)
Inductive initializer : Type :=
| NoInit
| InitDict (d : dict)
| InitValue (q : Q).

Module pe.

(** Insertion of the initial elements one by one; an element already
    present is not added again. *)
Definition add (s : list atom) (a : atom) : list atom :=
  if mem a s then s else s ++ [a].

Definition ordered (l : list atom) : list atom := fold_left add l [].

(** [pe.Set(initialize = l, within = parent)]: every element must be a
    member of [parent], otherwise [ValueError]. *)
Definition Set_ (m : ConcreteModel) (name : string) (initialize : list atom)
    (within : option string) : result component :=
  match within with
  | None => Ok (SetC (ordered initialize))
  | Some parent =>
      p <- get_set m parent ;;
      if forallb (fun a => mem a p) initialize
      then Ok (SetC (ordered initialize))
      else Raise (ValueError name)
  end.

(** [pe.Param(sets..., initialize = ..., default = ...)]: a key of the
    initialising dict outside the index set is a [KeyError]; indices
    without a key stay without a value. *)
Definition Param (m : ConcreteModel) (name : string) (sets : list string)
    (initialize : initializer) (default : option Q) : result component :=
  idx <- index_set m sets ;;
  match initialize with
  | NoInit => Ok (ParamC idx [] default)
  | InitDict d =>
      if forallb (fun kv => memi (fst kv) idx) d
      then Ok (ParamC idx d default)
      else Raise (KeyError name)
  | InitValue q => Ok (ParamC idx (map (fun i => (i, q)) idx) default)
  end.

(** [pe.Var(sets..., within = dom)]: one variable per index. *)
Definition Var (m : ConcreteModel) (name : string) (sets : list string)
    (within : domain) : result component :=
  idx <- index_set m sets ;; Ok (VarC idx within).

(** [pe.Constraint(sets..., rule = rule)]: the rule is called once per
    index, in order. *)
Fixpoint build (on_none : none_rule) (name : string)
    (rule : index -> result (option relexpr)) (idx : list index)
    : result (list (index * relexpr)) :=
  match idx with
  | [] => Ok []
  | i :: idx' =>
      r <- rule i ;;
      match r with
      | Some e => rest <- build on_none name rule idx' ;; Ok ((i, e) :: rest)
      | None =>
          match on_none with
          | NoneRaises => Raise (ValueError name)
          | NoneSkips => build on_none name rule idx'
          end
      end
  end.

Definition Constraint (on_none : none_rule) (m : ConcreteModel) (name : string)
    (sets : list string) (rule : index -> result (option relexpr))
    : result component :=
  idx <- index_set m sets ;;
  body <- build on_none name rule idx ;;
  Ok (ConstraintC body).

End pe.

(** [m.name[i]] for a parameter: its number. *)
Definition getitem_param (m : ConcreteModel) (name : string) (i : index) : result Q :=
  c <- getattr m name ;;
  match c with
  | ParamC idx vals default =>
      if memi i idx then
        match lookup i vals with
        | Some q => Ok q
        | None =>
            match default with
            | Some q => Ok q
            | None => Raise (ValueError name)
            end
        end
      else Raise (KeyError name)
  | _ => Raise (TypeError name)
  end.

(** [m.name[i]] for a variable: a reference to it. *)
Definition getitem_var (m : ConcreteModel) (name : string) (i : index) : result expr :=
  c <- getattr m name ;;
  match c with
  | VarC idx _ => if memi i idx then Ok (VarRef name i) else Raise (KeyError name)
  | _ => Raise (TypeError name)
  end.

(** An assignment is feasible for a model when every variable lies in
    its domain and every constraint holds. *)
Definition component_ok (a : assignment) (name : string) (c : component) : Prop :=
  match c with
  | VarC idx dom => forall i, In i idx -> in_domain dom (a name i)
  | ConstraintC body => forall i r, In (i, r) body -> holds a r
  | _ => True
  end.

Definition feasible (m : ConcreteModel) (a : assignment) : Prop :=
  forall name c, In (name, c) m -> component_ok a name c.

Definition component_okb (a : assignment) (name : string) (c : component) : bool :=
  match c with
  | VarC idx dom => forallb (fun i => in_domainb dom (a name i)) idx
  | ConstraintC body => forallb (fun ir => holdsb a (snd ir)) body
  | _ => true
  end.

Definition feasibleb (m : ConcreteModel) (a : assignment) : bool :=
  forallb (fun nc => component_okb a (fst nc) (snd nc)) m.

Definition component_vars (c : component) : list string :=
  match c with
  | ConstraintC body => flat_map (fun ir => relexpr_vars (snd ir)) body
  | _ => []
  end.

(** Names of the variables that occur in some constraint of the model. *)
Definition constraint_vars (m : ConcreteModel) : list string :=
  flat_map (fun nc => component_vars (snd nc)) m.

Definition component_size (vars : bool) (c : component) : nat :=
  match c with
  | VarC idx _ => if vars then List.length idx else 0%nat
  | ConstraintC body => if vars then 0%nat else List.length body
  | _ => 0%nat
  end.

Definition num_variables (m : ConcreteModel) : nat :=
  list_sum (map (fun nc => component_size true (snd nc)) m).

Definition num_constraints (m : ConcreteModel) : nat :=
  list_sum (map (fun nc => component_size false (snd nc)) m).

(* ================================================================== *)
(** ** The input data module *)

(** The module named by [input_file], by the attributes that
    [createModel] reads from it: the sets as lists, the indexed
    parameters as dicts, the scalar parameters as numbers. *)
Record InputModule : Type := {
  Time : list atom;
  First_hour : list atom;
  Inputs : list atom;
  Solar_inputs : list atom;
  Inputs_wo_grid : list atom;
  Dispatchable_Tech : list atom;
  CHP_Tech : list atom;
  Outputs : list atom;
  Loads : dict;
  Number_of_days : dict;
  Cmatrix : dict;
  Storage_max_charge : dict;
  Storage_max_discharge : dict;
  Storage_standing_losses : dict;
  Storage_charging_eff : dict;
  Storage_discharging_eff : dict;
  Storage_max_cap : dict;
  Lifetime_tech : dict;
  Lifetime_stor : dict;
  Network_efficiency : dict;
  Network_length : dict;
  Network_lifetime : Q;
  Operating_costs : dict;
  Linear_inv_costs : dict;
  Fixed_inv_costs : dict;
  Linear_stor_costs : dict;
  Fixed_stor_costs : dict;
  Net_inv_cost_per_m : Q;
  FiT : dict;
  Interest_rate : Q;
  Roof_area : Q;
  P_solar : dict
}.

(** The modules that [importlib.import_module] can find, by absolute
    name. *)
Definition module_path : Type := string -> option InputModule.

(** [name.startswith('.')]: a relative name. *)
Definition is_relative (name : string) : bool :=
  match name with
  | String c _ => Ascii.eqb c "."
  | EmptyString => false
  end.

(** A dotted name after [pre], with the parents it is imported through,
    outermost first: for [a.b.c] these are [a], [a.b] and [a.b.c]. *)
Fixpoint dotted_prefixes (pre name : string) : list string :=
  match name with
  | EmptyString => [pre]
  | String c rest =>
      if Ascii.eqb c "."
      then pre :: dotted_prefixes (String.append pre ".") rest
      else dotted_prefixes (String.append pre (String c EmptyString)) rest
  end.

Definition not_found (path : module_path) (name : string) : bool :=
  match path name with
  | Some _ => false
  | None => true
  end.

(** [importlib.import_module(name)], without a package: a relative name
    is a [TypeError], the empty name a [ValueError]; otherwise the
    parents are imported first, and the first name that is not found
    raises [ModuleNotFoundError]. *)
Definition import_module (path : module_path) (name : string) : result InputModule :=
  if is_relative name then Raise (TypeError name)
  else if String.eqb name "" then Raise (ValueError name)
  else
    match find (not_found path) (dotted_prefixes "" name) with
    | Some missing => Raise (ModuleNotFoundError missing)
    | None =>
        match path name with
        | Some md => Ok md
        | None => Raise (ModuleNotFoundError name)
        end
    end.

(* ================================================================== *)
(** ** The class [EnergyHub] *)

(** An instance; [m] is absent until [createModel] has assigned it. *)
Record EnergyHub : Type := {
  InputFile : string;
  inp : InputModule;
  num_of_pfp : Z;
  m : option ConcreteModel
}.

(** What [solve] hands back to its caller: [None]. *)
Inductive pyreturn : Type :=
| PyNone.

(** Calling a rule on an index of one, two or three members. *)
Definition rule1 {A : Type} (name : string) (f : atom -> result A)
    (i : index) : result A :=
  match i with
  | [a] => f a
  | _ => Raise (TypeError name)
  end.

Definition rule2 {A : Type} (name : string) (f : atom -> atom -> result A)
    (i : index) : result A :=
  match i with
  | [a; b] => f a b
  | _ => Raise (TypeError name)
  end.

Definition rule3 {A : Type} (name : string) (f : atom -> atom -> atom -> result A)
    (i : index) : result A :=
  match i with
  | [a; b; c] => f a b c
  | _ => Raise (TypeError name)
  end.

(** [10^5] in Python is the bitwise exclusive or of [10] and [5]. *)
Definition BigM_default : Z := Z.lxor 10 5.

Definition Load_balance_rule (m : ConcreteModel) (t out : atom)
    : result (option relexpr) :=
  inputs <- get_set m "Inputs" ;;
  items <- mapM (fun inp =>
             p <- getitem_var m "P" [t; inp] ;;
             c <- getitem_param m "Cmatrix" [out; inp] ;;
             Ok (Mul p (Num c))) inputs ;;
  qout <- getitem_var m "Qout" [t; out] ;;
  qin <- getitem_var m "Qin" [t; out] ;;
  loads <- getitem_param m "Loads" [t; out] ;;
  pexp <- getitem_var m "P_export" [t; out] ;;
  Ok (Some (EqExpr (Sub (Add (py_sum items) qout) qin) (Add (Num loads) pexp))).

Definition Capacity_constraint_rule (m : ConcreteModel) (t disp out : atom)
    : result (option relexpr) :=
  p <- getitem_var m "P" [t; disp] ;;
  c <- getitem_param m "Cmatrix" [out; disp] ;;
  cap <- getitem_var m "Capacity" [disp] ;;
  Ok (Some (LeExpr (Mul p (Num c)) cap)).

Definition Solar_input_rule (m : ConcreteModel) (t sol out : atom)
    : result (option relexpr) :=
  p <- getitem_var m "P" [t; sol] ;;
  ps <- getitem_param m "P_solar" [t; sol] ;;
  cap <- getitem_var m "Capacity" [sol] ;;
  Ok (Some (EqExpr p (Mul (Num ps) cap))).

(** The comparison is evaluated and dropped: the body has no [return]. *)
Definition Fixed_cost_constr_rule (m : ConcreteModel) (inp : atom)
    : result (option relexpr) :=
  cap <- getitem_var m "Capacity" [inp] ;;
  bigm <- getitem_param m "BigM" [] ;;
  y <- getitem_var m "y" [inp] ;;
  let _ := LeExpr cap (Mul (Num bigm) y) in
  Ok None.

Module EnergyHub.

Definition createModel (on_none : none_rule) (self : EnergyHub) : result EnergyHub :=
  let d := self.(inp) in
  let m : ConcreteModel := [] in
  (* Model sets *)
  m <- setattr m "Time" (pe.Set_ m "Time" d.(Time) None) ;;
  m <- setattr m "First_hour" (pe.Set_ m "First_hour" d.(First_hour) (Some "Time")) ;;
  m <- setattr m "Inputs" (pe.Set_ m "Inputs" d.(Inputs) None) ;;
  m <- setattr m "Solar_inputs" (pe.Set_ m "Solar_inputs" d.(Solar_inputs) (Some "Inputs")) ;;
  m <- setattr m "Inputs_wo_grid" (pe.Set_ m "Inputs_wo_grid" d.(Inputs_wo_grid) None) ;;
  m <- setattr m "Dispatchable_Tech" (pe.Set_ m "Dispatchable_Tech" d.(Dispatchable_Tech) (Some "Inputs")) ;;
  m <- setattr m "CHP_Tech" (pe.Set_ m "CHP_Tech" d.(CHP_Tech) (Some "Inputs")) ;;
  m <- setattr m "Outputs" (pe.Set_ m "Outputs" d.(Outputs) None) ;;
  (* Load parameters *)
  m <- setattr m "Loads" (pe.Param m "Loads" ["Time"; "Outputs"] (InitDict d.(Loads)) None) ;;
  m <- setattr m "Number_of_days" (pe.Param m "Number_of_days" ["Time"] (InitDict d.(Number_of_days)) None) ;;
  (* Technical parameters *)
  m <- setattr m "Cmatrix" (pe.Param m "Cmatrix" ["Outputs"; "Inputs"] (InitDict d.(Cmatrix)) None) ;;
  m <- setattr m "Storage_max_charge" (pe.Param m "Storage_max_charge" ["Outputs"] (InitDict d.(Storage_max_charge)) None) ;;
  m <- setattr m "Storage_max_discharge" (pe.Param m "Storage_max_discharge" ["Outputs"] (InitDict d.(Storage_max_discharge)) None) ;;
  m <- setattr m "Storage_standing_losses" (pe.Param m "Storage_standing_losses" ["Outputs"] (InitDict d.(Storage_standing_losses)) None) ;;
  m <- setattr m "Storage_charging_eff" (pe.Param m "Storage_charging_eff" ["Outputs"] (InitDict d.(Storage_charging_eff)) None) ;;
  m <- setattr m "Storage_discharging_eff" (pe.Param m "Storage_discharging_eff" ["Outputs"] (InitDict d.(Storage_discharging_eff)) None) ;;
  m <- setattr m "Storage_max_cap" (pe.Param m "Storage_max_cap" ["Outputs"] (InitDict d.(Storage_max_cap)) None) ;;
  m <- setattr m "Lifetime_tech" (pe.Param m "Lifetime_tech" ["Inputs"] (InitDict d.(Lifetime_tech)) None) ;;
  m <- setattr m "Lifetime_stor" (pe.Param m "Lifetime_stor" ["Outputs"] (InitDict d.(Lifetime_stor)) None) ;;
  m <- setattr m "Network_efficiency" (pe.Param m "Network_efficiency" ["Outputs"] (InitDict d.(Network_efficiency)) None) ;;
  m <- setattr m "Network_length" (pe.Param m "Network_length" ["Outputs"] (InitDict d.(Network_length)) None) ;;
  m <- setattr m "Network_lifetime" (pe.Param m "Network_lifetime" [] (InitValue d.(Network_lifetime)) None) ;;
  (* Cost parameters *)
  m <- setattr m "Operating_costs" (pe.Param m "Operating_costs" ["Inputs"] (InitDict d.(Operating_costs)) None) ;;
  m <- setattr m "Linear_inv_costs" (pe.Param m "Linear_inv_costs" ["Inputs"] (InitDict d.(Linear_inv_costs)) None) ;;
  m <- setattr m "Fixed_inv_costs" (pe.Param m "Fixed_inv_costs" ["Inputs"] (InitDict d.(Fixed_inv_costs)) None) ;;
  m <- setattr m "Linear_stor_costs" (pe.Param m "Linear_stor_costs" ["Outputs"] (InitDict d.(Linear_stor_costs)) None) ;;
  m <- setattr m "Fixed_stor_costs" (pe.Param m "Fixed_stor_costs" ["Outputs"] (InitDict d.(Fixed_stor_costs)) None) ;;
  m <- setattr m "Net_inv_cost_per_m" (pe.Param m "Net_inv_cost_per_m" [] (InitValue d.(Net_inv_cost_per_m)) None) ;;
  m <- setattr m "FiT" (pe.Param m "FiT" ["Outputs"] (InitDict d.(FiT)) None) ;;
  m <- setattr m "Interest_rate" (pe.Param m "Interest_rate" [] (InitValue d.(Interest_rate)) None) ;;
  m <- setattr m "CRF_tech" (pe.Param m "CRF_tech" ["Inputs"] NoInit None) ;;
  m <- setattr m "CRF_stor" (pe.Param m "CRF_stor" ["Inputs"] NoInit None) ;;
  m <- setattr m "CRF_network" (pe.Param m "CRF_network" [] NoInit None) ;;
  (* Environmental parameters *)
  m <- setattr m "Carbon_factors" (pe.Param m "Carbon_factors" ["Inputs"] NoInit None) ;;
  (* Misc parameters *)
  m <- setattr m "Roof_area" (pe.Param m "Roof_area" [] (InitValue d.(Roof_area)) None) ;;
  m <- setattr m "P_solar" (pe.Param m "P_solar" ["Time"; "Solar_inputs"] (InitDict d.(P_solar)) None) ;;
  m <- setattr m "BigM" (pe.Param m "BigM" [] NoInit (Some (inject_Z BigM_default))) ;;
  (* Generation technologies *)
  m <- setattr m "P" (pe.Var m "P" ["Time"; "Inputs"] NonNegativeReals) ;;
  m <- setattr m "P_export" (pe.Var m "P_export" ["Time"; "Outputs"] NonNegativeReals) ;;
  m <- setattr m "y" (pe.Var m "y" ["Inputs"] Binary) ;;
  m <- setattr m "Capacity" (pe.Var m "Capacity" ["Inputs"] NonNegativeReals) ;;
  (* Storage technologies *)
  m <- setattr m "Qin" (pe.Var m "Qin" ["Time"; "Outputs"] NonNegativeReals) ;;
  m <- setattr m "Qout" (pe.Var m "Qout" ["Time"; "Outputs"] NonNegativeReals) ;;
  m <- setattr m "E" (pe.Var m "E" ["Time"; "Outputs"] NonNegativeReals) ;;
  m <- setattr m "y_stor" (pe.Var m "y_stor" ["Outputs"] NonNegativeReals) ;;
  m <- setattr m "Storage_cap" (pe.Var m "Storage_cap" ["Outputs"] NonNegativeReals) ;;
  (* Objective function components *)
  m <- setattr m "Operating_cost" (pe.Var m "Operating_cost" [] NonNegativeReals) ;;
  m <- setattr m "Income_via_exports" (pe.Var m "Income_via_exports" [] NonNegativeReals) ;;
  m <- setattr m "investment_cost" (pe.Var m "investment_cost" [] NonNegativeReals) ;;
  m <- setattr m "Total_cost" (pe.Var m "Total_cost" [] NonNegativeReals) ;;
  m <- setattr m "Total_carbon" (pe.Var m "Total_carbon" [] NonNegativeReals) ;;
  (* Energy balances *)
  m <- setattr m "Load_balance"
         (pe.Constraint on_none m "Load_balance" ["Time"; "Outputs"]
            (rule2 "Load_balance" (Load_balance_rule m))) ;;
  m <- setattr m "Capacity_constraint"
         (pe.Constraint on_none m "Capacity_constraint" ["Time"; "Dispatchable_Tech"; "Outputs"]
            (rule3 "Capacity_constraint" (Capacity_constraint_rule m))) ;;
  m <- setattr m "Solar_input"
         (pe.Constraint on_none m "Solar_input" ["Time"; "Solar_inputs"; "Outputs"]
            (rule3 "Solar_input" (Solar_input_rule m))) ;;
  m <- setattr m "Fixed_cost_constr"
         (pe.Constraint on_none m "Fixed_cost_constr" ["Inputs"]
            (rule1 "Fixed_cost_constr" (Fixed_cost_constr_rule m))) ;;
  Ok {| InputFile := self.(InputFile); inp := self.(inp);
        num_of_pfp := self.(num_of_pfp); m := Some m |}.

(** [EnergyHub(input_file, num_of_pareto_points)]. *)
Definition __init__ (on_none : none_rule) (path : module_path)
    (input_file : string) (num_of_pareto_points : Z) : result EnergyHub :=
  md <- import_module path input_file ;;
  let self := {| InputFile := input_file; inp := md;
                 num_of_pfp := num_of_pareto_points; m := None |} in
  createModel on_none self.

(** The body of [solve] is a docstring and comments. *)
Definition solve (self : EnergyHub) : result (EnergyHub * pyreturn) :=
  Ok (self, PyNone).

End EnergyHub.

(* ================================================================== *)
(** ** The model that [createModel] declares *)

(** The sets, parameters and variables of the model, in declaration
    order, as they stand once every declaration has succeeded. *)
Definition declared (d : InputModule) : ConcreteModel :=
  let T := pe.ordered d.(Time) in
  let I := pe.ordered d.(Inputs) in
  let S := pe.ordered d.(Solar_inputs) in
  let O := pe.ordered d.(Outputs) in
  [ ("Time", SetC T);
    ("First_hour", SetC (pe.ordered d.(First_hour)));
    ("Inputs", SetC I);
    ("Solar_inputs", SetC S);
    ("Inputs_wo_grid", SetC (pe.ordered d.(Inputs_wo_grid)));
    ("Dispatchable_Tech", SetC (pe.ordered d.(Dispatchable_Tech)));
    ("CHP_Tech", SetC (pe.ordered d.(CHP_Tech)));
    ("Outputs", SetC O);
    ("Loads", ParamC (product [T; O]) d.(Loads) None);
    ("Number_of_days", ParamC (product [T]) d.(Number_of_days) None);
    ("Cmatrix", ParamC (product [O; I]) d.(Cmatrix) None);
    ("Storage_max_charge", ParamC (product [O]) d.(Storage_max_charge) None);
    ("Storage_max_discharge", ParamC (product [O]) d.(Storage_max_discharge) None);
    ("Storage_standing_losses", ParamC (product [O]) d.(Storage_standing_losses) None);
    ("Storage_charging_eff", ParamC (product [O]) d.(Storage_charging_eff) None);
    ("Storage_discharging_eff", ParamC (product [O]) d.(Storage_discharging_eff) None);
    ("Storage_max_cap", ParamC (product [O]) d.(Storage_max_cap) None);
    ("Lifetime_tech", ParamC (product [I]) d.(Lifetime_tech) None);
    ("Lifetime_stor", ParamC (product [O]) d.(Lifetime_stor) None);
    ("Network_efficiency", ParamC (product [O]) d.(Network_efficiency) None);
    ("Network_length", ParamC (product [O]) d.(Network_length) None);
    ("Network_lifetime", ParamC [[]] [([], d.(Network_lifetime))] None);
    ("Operating_costs", ParamC (product [I]) d.(Operating_costs) None);
    ("Linear_inv_costs", ParamC (product [I]) d.(Linear_inv_costs) None);
    ("Fixed_inv_costs", ParamC (product [I]) d.(Fixed_inv_costs) None);
    ("Linear_stor_costs", ParamC (product [O]) d.(Linear_stor_costs) None);
    ("Fixed_stor_costs", ParamC (product [O]) d.(Fixed_stor_costs) None);
    ("Net_inv_cost_per_m", ParamC [[]] [([], d.(Net_inv_cost_per_m))] None);
    ("FiT", ParamC (product [O]) d.(FiT) None);
    ("Interest_rate", ParamC [[]] [([], d.(Interest_rate))] None);
    ("CRF_tech", ParamC (product [I]) [] None);
    ("CRF_stor", ParamC (product [I]) [] None);
    ("CRF_network", ParamC [[]] [] None);
    ("Carbon_factors", ParamC (product [I]) [] None);
    ("Roof_area", ParamC [[]] [([], d.(Roof_area))] None);
    ("P_solar", ParamC (product [T; S]) d.(P_solar) None);
    ("BigM", ParamC [[]] [] (Some (inject_Z BigM_default)));
    ("P", VarC (product [T; I]) NonNegativeReals);
    ("P_export", VarC (product [T; O]) NonNegativeReals);
    ("y", VarC (product [I]) Binary);
    ("Capacity", VarC (product [I]) NonNegativeReals);
    ("Qin", VarC (product [T; O]) NonNegativeReals);
    ("Qout", VarC (product [T; O]) NonNegativeReals);
    ("E", VarC (product [T; O]) NonNegativeReals);
    ("y_stor", VarC (product [O]) NonNegativeReals);
    ("Storage_cap", VarC (product [O]) NonNegativeReals);
    ("Operating_cost", VarC [[]] NonNegativeReals);
    ("Income_via_exports", VarC [[]] NonNegativeReals);
    ("investment_cost", VarC [[]] NonNegativeReals);
    ("Total_cost", VarC [[]] NonNegativeReals);
    ("Total_carbon", VarC [[]] NonNegativeReals) ].

Definition require (c : bool) (e : exn) : result unit :=
  if c then Ok tt else Raise e.

Definition within_ok (l parent : list atom) : bool :=
  forallb (fun a => mem a (pe.ordered parent)) l.

Definition keys_ok (dd : dict) (sets : list (list atom)) : bool :=
  forallb (fun kv => memi (fst kv) (product (map pe.ordered sets))) dd.

(** The checks that the declarations make on the input data, in the
    order in which they are made, each with the exception it raises. *)
Definition declaration_checks (d : InputModule) : list (bool * exn) :=
  let T := d.(Time) in
  let I := d.(Inputs) in
  let S := d.(Solar_inputs) in
  let O := d.(Outputs) in
  [ (within_ok d.(First_hour) T, ValueError "First_hour");
    (within_ok d.(Solar_inputs) I, ValueError "Solar_inputs");
    (within_ok d.(Dispatchable_Tech) I, ValueError "Dispatchable_Tech");
    (within_ok d.(CHP_Tech) I, ValueError "CHP_Tech");
    (keys_ok d.(Loads) [T; O], KeyError "Loads");
    (keys_ok d.(Number_of_days) [T], KeyError "Number_of_days");
    (keys_ok d.(Cmatrix) [O; I], KeyError "Cmatrix");
    (keys_ok d.(Storage_max_charge) [O], KeyError "Storage_max_charge");
    (keys_ok d.(Storage_max_discharge) [O], KeyError "Storage_max_discharge");
    (keys_ok d.(Storage_standing_losses) [O], KeyError "Storage_standing_losses");
    (keys_ok d.(Storage_charging_eff) [O], KeyError "Storage_charging_eff");
    (keys_ok d.(Storage_discharging_eff) [O], KeyError "Storage_discharging_eff");
    (keys_ok d.(Storage_max_cap) [O], KeyError "Storage_max_cap");
    (keys_ok d.(Lifetime_tech) [I], KeyError "Lifetime_tech");
    (keys_ok d.(Lifetime_stor) [O], KeyError "Lifetime_stor");
    (keys_ok d.(Network_efficiency) [O], KeyError "Network_efficiency");
    (keys_ok d.(Network_length) [O], KeyError "Network_length");
    (keys_ok d.(Operating_costs) [I], KeyError "Operating_costs");
    (keys_ok d.(Linear_inv_costs) [I], KeyError "Linear_inv_costs");
    (keys_ok d.(Fixed_inv_costs) [I], KeyError "Fixed_inv_costs");
    (keys_ok d.(Linear_stor_costs) [O], KeyError "Linear_stor_costs");
    (keys_ok d.(Fixed_stor_costs) [O], KeyError "Fixed_stor_costs");
    (keys_ok d.(FiT) [O], KeyError "FiT");
    (keys_ok d.(P_solar) [T; S], KeyError "P_solar") ].

Fixpoint require_all (checks : list (bool * exn)) : result unit :=
  match checks with
  | [] => Ok tt
  | (c, e) :: checks' => _ <- require c e ;; require_all checks'
  end.

(** The four constraint blocks, each built over the model as it stands
    when its rule is called. *)
Definition constraint_blocks (on_none : none_rule) (d : InputModule)
    : result ConcreteModel :=
  let T := pe.ordered d.(Time) in
  let I := pe.ordered d.(Inputs) in
  let S := pe.ordered d.(Solar_inputs) in
  let D := pe.ordered d.(Dispatchable_Tech) in
  let O := pe.ordered d.(Outputs) in
  let m := declared d in
  lb <- pe.build on_none "Load_balance"
          (rule2 "Load_balance" (Load_balance_rule m)) (product [T; O]) ;;
  let m := m ++ [("Load_balance", ConstraintC lb)] in
  cc <- pe.build on_none "Capacity_constraint"
          (rule3 "Capacity_constraint" (Capacity_constraint_rule m)) (product [T; D; O]) ;;
  let m := m ++ [("Capacity_constraint", ConstraintC cc)] in
  si <- pe.build on_none "Solar_input"
          (rule3 "Solar_input" (Solar_input_rule m)) (product [T; S; O]) ;;
  let m := m ++ [("Solar_input", ConstraintC si)] in
  fc <- pe.build on_none "Fixed_cost_constr"
          (rule1 "Fixed_cost_constr" (Fixed_cost_constr_rule m)) (product [I]) ;;
  Ok [ ("Load_balance", ConstraintC lb);
       ("Capacity_constraint", ConstraintC cc);
       ("Solar_input", ConstraintC si);
       ("Fixed_cost_constr", ConstraintC fc) ].

(** The model [self.m] as it stands when the last statement of
    [createModel], the one for [Fixed_cost_constr], begins: the
    declarations and the first three blocks.  When that statement
    raises, this is the model that the instance is left with. *)
Definition before_Fixed_cost_constr (on_none : none_rule) (d : InputModule)
    : result ConcreteModel :=
  let T := pe.ordered d.(Time) in
  let S := pe.ordered d.(Solar_inputs) in
  let D := pe.ordered d.(Dispatchable_Tech) in
  let O := pe.ordered d.(Outputs) in
  _ <- require_all (declaration_checks d) ;;
  let m := declared d in
  lb <- pe.build on_none "Load_balance"
          (rule2 "Load_balance" (Load_balance_rule m)) (product [T; O]) ;;
  let m := m ++ [("Load_balance", ConstraintC lb)] in
  cc <- pe.build on_none "Capacity_constraint"
          (rule3 "Capacity_constraint" (Capacity_constraint_rule m)) (product [T; D; O]) ;;
  let m := m ++ [("Capacity_constraint", ConstraintC cc)] in
  si <- pe.build on_none "Solar_input"
          (rule3 "Solar_input" (Solar_input_rule m)) (product [T; S; O]) ;;
  Ok (m ++ [("Solar_input", ConstraintC si)]).

(** [createModel] in closed form: the checks, then the blocks. *)
Definition createModel_closed (on_none : none_rule) (self : EnergyHub)
    : result EnergyHub :=
  _ <- require_all (declaration_checks self.(inp)) ;;
  cs <- constraint_blocks on_none self.(inp) ;;
  Ok {| InputFile := self.(InputFile); inp := self.(inp);
        num_of_pfp := self.(num_of_pfp); m := Some (declared self.(inp) ++ cs) |}.

(** [mdl] is the model of the instance that [createModel] returns. *)
Definition built (on_none : none_rule) (self : EnergyHub) (mdl : ConcreteModel) : Prop :=
  exists h, EnergyHub.createModel on_none self = Ok h /\ h.(m) = Some mdl.

(** The model of a run of [createModel], empty when the run raised. *)
Definition the_model (r : result EnergyHub) : ConcreteModel :=
  match r with
  | Ok h => match h.(m) with Some mdl => mdl | None => [] end
  | Raise _ => []
  end.

(* ================================================================== *)
(** ** Quantities used to state the properties *)

Definition sumQ (l : list Q) : Q := fold_right Qplus 0%Q l.

(** Number of a parameter of a model, [0] where reading it raises. *)
Definition param (mdl : ConcreteModel) (name : string) (i : index) : Q :=
  match getitem_param mdl name i with
  | Ok q => q
  | Raise _ => 0%Q
  end.

(** An assignment changed at one variable. *)
Definition override (a : assignment) (name : string) (i : index) (v : Q) : assignment :=
  fun n j => if String.eqb n name && index_eqb j i then v else a n j.

(** The variables that occur in the rules. *)
Definition constrained : list string := ["P"; "Qout"; "Qin"; "P_export"; "Capacity"].

(** Whether a run returned, or the exception it raised. *)
Definition outcome {A : Type} (r : result A) : result unit :=
  fmap (fun _ => tt) r.

(** The numbers of variables and of constraints that the index sets of
    the input data account for. *)
Definition expected_variables (d : InputModule) : nat :=
  let T := List.length (pe.ordered d.(Time)) in
  let I := List.length (pe.ordered d.(Inputs)) in
  let O := List.length (pe.ordered d.(Outputs)) in
  (T * I + T * O + I + I + T * O + T * O + T * O + O + O + 5)%nat.

Definition expected_constraints (d : InputModule) : nat :=
  let T := List.length (pe.ordered d.(Time)) in
  let S := List.length (pe.ordered d.(Solar_inputs)) in
  let D := List.length (pe.ordered d.(Dispatchable_Tech)) in
  let O := List.length (pe.ordered d.(Outputs)) in
  (T * O + T * (D * O) + T * (S * O))%nat.

(** The five scalar variables of the objective function components. *)
Definition objective_components : list string :=
  ["Operating_cost"; "Income_via_exports"; "investment_cost"; "Total_cost"; "Total_carbon"].

(** The capital recovery factor in the words of the specification,
    with the limit [1/n] at interest rate zero.  The source has no
    counterpart; the definition serves to state what the specification
    expects of [CRF_tech], [CRF_stor] and [CRF_network]. *)
Definition CRF_spec (i : Q) (n : Z) : Q :=
  if Qeq_bool i 0 then (1 / inject_Z n)%Q
  else (i * (1 + i) ^ n / ((1 + i) ^ n - 1))%Q.

(** The input data with another [Inputs_wo_grid]. *)
Definition set_Inputs_wo_grid (s : list atom) (d : InputModule) : InputModule := {|
  Time := d.(Time);
  First_hour := d.(First_hour);
  Inputs := d.(Inputs);
  Solar_inputs := d.(Solar_inputs);
  Inputs_wo_grid := s;
  Dispatchable_Tech := d.(Dispatchable_Tech);
  CHP_Tech := d.(CHP_Tech);
  Outputs := d.(Outputs);
  Loads := d.(Loads);
  Number_of_days := d.(Number_of_days);
  Cmatrix := d.(Cmatrix);
  Storage_max_charge := d.(Storage_max_charge);
  Storage_max_discharge := d.(Storage_max_discharge);
  Storage_standing_losses := d.(Storage_standing_losses);
  Storage_charging_eff := d.(Storage_charging_eff);
  Storage_discharging_eff := d.(Storage_discharging_eff);
  Storage_max_cap := d.(Storage_max_cap);
  Lifetime_tech := d.(Lifetime_tech);
  Lifetime_stor := d.(Lifetime_stor);
  Network_efficiency := d.(Network_efficiency);
  Network_length := d.(Network_length);
  Network_lifetime := d.(Network_lifetime);
  Operating_costs := d.(Operating_costs);
  Linear_inv_costs := d.(Linear_inv_costs);
  Fixed_inv_costs := d.(Fixed_inv_costs);
  Linear_stor_costs := d.(Linear_stor_costs);
  Fixed_stor_costs := d.(Fixed_stor_costs);
  Net_inv_cost_per_m := d.(Net_inv_cost_per_m);
  FiT := d.(FiT);
  Interest_rate := d.(Interest_rate);
  Roof_area := d.(Roof_area);
  P_solar := d.(P_solar)
|}.

Definition map_values (f : Q -> Q) (dd : dict) : dict :=
  map (fun kv => (fst kv, f (snd kv))) dd.

(** The input data with other numbers, under the same keys, for the
    efficiencies, the loss rates, the lifetimes and the interest rate. *)
Definition map_physical (f : Q -> Q) (d : InputModule) : InputModule := {|
  Time := d.(Time);
  First_hour := d.(First_hour);
  Inputs := d.(Inputs);
  Solar_inputs := d.(Solar_inputs);
  Inputs_wo_grid := d.(Inputs_wo_grid);
  Dispatchable_Tech := d.(Dispatchable_Tech);
  CHP_Tech := d.(CHP_Tech);
  Outputs := d.(Outputs);
  Loads := d.(Loads);
  Number_of_days := d.(Number_of_days);
  Cmatrix := d.(Cmatrix);
  Storage_max_charge := d.(Storage_max_charge);
  Storage_max_discharge := d.(Storage_max_discharge);
  Storage_standing_losses := map_values f d.(Storage_standing_losses);
  Storage_charging_eff := map_values f d.(Storage_charging_eff);
  Storage_discharging_eff := map_values f d.(Storage_discharging_eff);
  Storage_max_cap := d.(Storage_max_cap);
  Lifetime_tech := map_values f d.(Lifetime_tech);
  Lifetime_stor := map_values f d.(Lifetime_stor);
  Network_efficiency := map_values f d.(Network_efficiency);
  Network_length := d.(Network_length);
  Network_lifetime := f d.(Network_lifetime);
  Operating_costs := d.(Operating_costs);
  Linear_inv_costs := d.(Linear_inv_costs);
  Fixed_inv_costs := d.(Fixed_inv_costs);
  Linear_stor_costs := d.(Linear_stor_costs);
  Fixed_stor_costs := d.(Fixed_stor_costs);
  Net_inv_cost_per_m := d.(Net_inv_cost_per_m);
  FiT := d.(FiT);
  Interest_rate := f d.(Interest_rate);
  Roof_area := d.(Roof_area);
  P_solar := d.(P_solar)
|}.

(** A dict with other numbers under the same keys: the number at key
    [k] of the parameter [n] becomes [g n k] when [n] is one of
    [names]. *)
Definition revalue (names : list string) (g : string -> index -> Q)
    (n : string) (dd : dict) : dict :=
  if existsb (String.eqb n) names
  then map (fun kv => (fst kv, g n (fst kv))) dd
  else dd.

Definition revalue_scalar (names : list string) (g : string -> index -> Q)
    (n : string) (q : Q) : Q :=
  if existsb (String.eqb n) names then g n [] else q.

(** The input data with the numbers [g] for the parameters [names]. *)
Definition with_values (names : list string) (g : string -> index -> Q)
    (d : InputModule) : InputModule := {|
  Time := d.(Time);
  First_hour := d.(First_hour);
  Inputs := d.(Inputs);
  Solar_inputs := d.(Solar_inputs);
  Inputs_wo_grid := d.(Inputs_wo_grid);
  Dispatchable_Tech := d.(Dispatchable_Tech);
  CHP_Tech := d.(CHP_Tech);
  Outputs := d.(Outputs);
  Loads := revalue names g "Loads" d.(Loads);
  Number_of_days := revalue names g "Number_of_days" d.(Number_of_days);
  Cmatrix := revalue names g "Cmatrix" d.(Cmatrix);
  Storage_max_charge := revalue names g "Storage_max_charge" d.(Storage_max_charge);
  Storage_max_discharge :=
    revalue names g "Storage_max_discharge" d.(Storage_max_discharge);
  Storage_standing_losses :=
    revalue names g "Storage_standing_losses" d.(Storage_standing_losses);
  Storage_charging_eff :=
    revalue names g "Storage_charging_eff" d.(Storage_charging_eff);
  Storage_discharging_eff :=
    revalue names g "Storage_discharging_eff" d.(Storage_discharging_eff);
  Storage_max_cap := revalue names g "Storage_max_cap" d.(Storage_max_cap);
  Lifetime_tech := revalue names g "Lifetime_tech" d.(Lifetime_tech);
  Lifetime_stor := revalue names g "Lifetime_stor" d.(Lifetime_stor);
  Network_efficiency := revalue names g "Network_efficiency" d.(Network_efficiency);
  Network_length := revalue names g "Network_length" d.(Network_length);
  Network_lifetime := revalue_scalar names g "Network_lifetime" d.(Network_lifetime);
  Operating_costs := revalue names g "Operating_costs" d.(Operating_costs);
  Linear_inv_costs := revalue names g "Linear_inv_costs" d.(Linear_inv_costs);
  Fixed_inv_costs := revalue names g "Fixed_inv_costs" d.(Fixed_inv_costs);
  Linear_stor_costs := revalue names g "Linear_stor_costs" d.(Linear_stor_costs);
  Fixed_stor_costs := revalue names g "Fixed_stor_costs" d.(Fixed_stor_costs);
  Net_inv_cost_per_m :=
    revalue_scalar names g "Net_inv_cost_per_m" d.(Net_inv_cost_per_m);
  FiT := revalue names g "FiT" d.(FiT);
  Interest_rate := revalue_scalar names g "Interest_rate" d.(Interest_rate);
  Roof_area := revalue_scalar names g "Roof_area" d.(Roof_area);
  P_solar := revalue names g "P_solar" d.(P_solar)
|}.

(** The efficiencies, the loss rates, the lifetimes and the interest
    rate. *)
Definition physical_parameters : list string :=
  ["Storage_standing_losses"; "Storage_charging_eff"; "Storage_discharging_eff";
   "Network_efficiency"; "Lifetime_tech"; "Lifetime_stor"; "Network_lifetime";
   "Interest_rate"].

(** What a capital recovery factor would be computed from. *)
Definition rate_and_lifetimes : list string :=
  ["Interest_rate"; "Network_lifetime"; "Lifetime_tech"; "Lifetime_stor"].

(** The three parameters declared for the capital recovery factors. *)
Definition CRF_parameters : list string := ["CRF_tech"; "CRF_stor"; "CRF_network"].

(** A parameter that holds no number: reading it raises, [ValueError]
    at an index of the parameter and [KeyError] elsewhere. *)
Definition no_value (mdl : ConcreteModel) (n : string) : Prop :=
  exists idx,
    getattr mdl n = Ok (ParamC idx [] None) /\
    forall i, getitem_param mdl n i
              = Raise (if memi i idx then ValueError n else KeyError n).

Definition with_inp (d : InputModule) (self : EnergyHub) : EnergyHub :=
  {| InputFile := self.(InputFile); inp := d;
     num_of_pfp := self.(num_of_pfp); m := self.(m) |}.

(* ================================================================== *)
(** ** Sample data *)

Definition grid : atom := Str "grid".
Definition pv : atom := Str "pv".
Definition boiler : atom := Str "boiler".
Definition wind : atom := Str "wind".
Definition elec : atom := Str "elec".
Definition heat : atom := Str "heat".

(** The dict with value [q] at every key of [keys]. *)
Definition const_dict (keys : list atom) (q : Q) : dict :=
  map (fun k => ([k], q)) keys.

(** Two time steps of one typical day, a grid connection, a photovoltaic
    panel and a gas boiler serving electricity and heat. *)
Definition Firstscript : InputModule := {|
  Time := [Int 1; Int 2];
  First_hour := [Int 1];
  Inputs := [grid; pv; boiler];
  Solar_inputs := [pv];
  Inputs_wo_grid := [pv; boiler];
  Dispatchable_Tech := [grid; boiler];
  CHP_Tech := [];
  Outputs := [elec; heat];
  Loads := [([Int 1; elec], 10); ([Int 1; heat], 4);
            ([Int 2; elec], 6); ([Int 2; heat], 8)]%Q;
  Number_of_days := const_dict [Int 1; Int 2] 365%Q;
  Cmatrix := [([elec; grid], 1); ([elec; pv], 3 # 20); ([elec; boiler], 0);
              ([heat; grid], 0); ([heat; pv], 0); ([heat; boiler], 9 # 10)]%Q;
  Storage_max_charge := const_dict [elec; heat] (1 # 4)%Q;
  Storage_max_discharge := const_dict [elec; heat] (1 # 4)%Q;
  Storage_standing_losses := const_dict [elec; heat] (1 # 100)%Q;
  Storage_charging_eff := const_dict [elec; heat] (9 # 10)%Q;
  Storage_discharging_eff := const_dict [elec; heat] (9 # 10)%Q;
  Storage_max_cap := const_dict [elec; heat] 100%Q;
  Lifetime_tech := const_dict [grid; pv; boiler] 20%Q;
  Lifetime_stor := const_dict [elec; heat] 20%Q;
  Network_efficiency := const_dict [elec; heat] 1%Q;
  Network_length := const_dict [elec; heat] 200%Q;
  Network_lifetime := 40%Q;
  Operating_costs := [([grid], 1 # 5); ([pv], 0); ([boiler], 1 # 10)]%Q;
  Linear_inv_costs := const_dict [grid; pv; boiler] 100%Q;
  Fixed_inv_costs := const_dict [grid; pv; boiler] 1000%Q;
  Linear_stor_costs := const_dict [elec; heat] 50%Q;
  Fixed_stor_costs := const_dict [elec; heat] 500%Q;
  Net_inv_cost_per_m := 800%Q;
  FiT := const_dict [elec; heat] (1 # 10)%Q;
  Interest_rate := (1 # 20)%Q;
  Roof_area := 50%Q;
  P_solar := [([Int 1; pv], 1 # 2); ([Int 2; pv], 0)]%Q
|}.

(** A hub without any conversion technology: heat is served from the
    storage alone. *)
Definition Storage_only : InputModule := {|
  Time := [Int 1; Int 2];
  First_hour := [Int 1];
  Inputs := [];
  Solar_inputs := [];
  Inputs_wo_grid := [wind];
  Dispatchable_Tech := [];
  CHP_Tech := [];
  Outputs := [heat];
  Loads := [([Int 1; heat], 4); ([Int 2; heat], 8)]%Q;
  Number_of_days := const_dict [Int 1; Int 2] 365%Q;
  Cmatrix := [];
  Storage_max_charge := const_dict [heat] (1 # 4)%Q;
  Storage_max_discharge := const_dict [heat] (1 # 4)%Q;
  Storage_standing_losses := const_dict [heat] (1 # 100)%Q;
  Storage_charging_eff := const_dict [heat] (9 # 10)%Q;
  Storage_discharging_eff := const_dict [heat] (9 # 10)%Q;
  Storage_max_cap := const_dict [heat] 100%Q;
  Lifetime_tech := [];
  Lifetime_stor := const_dict [heat] 20%Q;
  Network_efficiency := const_dict [heat] 1%Q;
  Network_length := const_dict [heat] 200%Q;
  Network_lifetime := 40%Q;
  Operating_costs := [];
  Linear_inv_costs := [];
  Fixed_inv_costs := [];
  Linear_stor_costs := const_dict [heat] 50%Q;
  Fixed_stor_costs := const_dict [heat] 500%Q;
  Net_inv_cost_per_m := 800%Q;
  FiT := const_dict [heat] (1 # 10)%Q;
  Interest_rate := (1 # 20)%Q;
  Roof_area := 50%Q;
  P_solar := []
|}.

(** [Firstscript] and [Storage_only] with every efficiency, loss rate
    and lifetime and the interest rate at [-3]. *)
Definition Unphysical : InputModule :=
  map_physical (fun _ => (-3)%Q) Firstscript.

Definition Unphysical_storage_only : InputModule :=
  map_physical (fun _ => (-3)%Q) Storage_only.

(** Input data that lists a solar technology that is not an input. *)
Definition Misdeclared : InputModule := {|
  Time := [Int 1];
  First_hour := [Int 1];
  Inputs := [grid];
  Solar_inputs := [pv];
  Inputs_wo_grid := [];
  Dispatchable_Tech := [grid];
  CHP_Tech := [];
  Outputs := [elec];
  Loads := [([Int 1; elec], 10%Q)];
  Number_of_days := const_dict [Int 1] 365%Q;
  Cmatrix := [([elec; grid], 1%Q)];
  Storage_max_charge := const_dict [elec] (1 # 4)%Q;
  Storage_max_discharge := const_dict [elec] (1 # 4)%Q;
  Storage_standing_losses := const_dict [elec] (1 # 100)%Q;
  Storage_charging_eff := const_dict [elec] (9 # 10)%Q;
  Storage_discharging_eff := const_dict [elec] (9 # 10)%Q;
  Storage_max_cap := const_dict [elec] 100%Q;
  Lifetime_tech := const_dict [grid] 20%Q;
  Lifetime_stor := const_dict [elec] 20%Q;
  Network_efficiency := const_dict [elec] 1%Q;
  Network_length := const_dict [elec] 200%Q;
  Network_lifetime := 40%Q;
  Operating_costs := const_dict [grid] (1 # 5)%Q;
  Linear_inv_costs := const_dict [grid] 100%Q;
  Fixed_inv_costs := const_dict [grid] 1000%Q;
  Linear_stor_costs := const_dict [elec] 50%Q;
  Fixed_stor_costs := const_dict [elec] 500%Q;
  Net_inv_cost_per_m := 800%Q;
  FiT := const_dict [elec] (1 # 10)%Q;
  Interest_rate := (1 # 20)%Q;
  Roof_area := 50%Q;
  P_solar := []
|}.

(** The modules on the path of the sample runs. *)
Definition sample_path : module_path :=
  fun name =>
    if String.eqb name "Firstscript" then Some Firstscript
    else if String.eqb name "Storage_only" then Some Storage_only
    else if String.eqb name "Unphysical" then Some Unphysical
    else if String.eqb name "Unphysical_storage_only" then Some Unphysical_storage_only
    else if String.eqb name "Misdeclared" then Some Misdeclared
    else None.

(** The instance on which [createModel] runs inside
    [EnergyHub(name, 10)]. *)
Definition fresh (name : string) (d : InputModule) : EnergyHub :=
  {| InputFile := name; inp := d; num_of_pfp := 10; m := None |}.

(** The model that [Firstscript] would give if a rule that returns
    [None] were skipped.  The program itself stops at
    [Fixed_cost_constr] on these data; [Firstscript_partial] below is
    the model it has attached by then, which lacks that block only. *)
Definition Firstscript_model : ConcreteModel :=
  the_model (EnergyHub.createModel NoneSkips (fresh "Firstscript" Firstscript)).

Definition Firstscript_partial : ConcreteModel :=
  match before_Fixed_cost_constr NoneRaises Firstscript with
  | Ok mdl => mdl
  | Raise _ => []
  end.

Definition Storage_only_model : ConcreteModel :=
  the_model (EnergyHub.createModel NoneRaises (fresh "Storage_only" Storage_only)).

(** Numbers outside every physical range: a charging efficiency of
    [7], and [-3] for everything else. *)
Definition unphysical_numbers (n : string) (k : index) : Q :=
  if String.eqb n "Storage_charging_eff" then 7%Q else (-3)%Q.

(** An assignment for the model of [Firstscript]: the grid and the
    boiler serve the loads, nothing is flagged as installed, and the
    storage and cost variables take unrelated values. *)
Definition dispatch (name : string) (i : index) : Q :=
  if String.eqb name "P" then
    if index_eqb i [Int 1; grid] then 10
    else if index_eqb i [Int 2; grid] then 6
    else if index_eqb i [Int 1; boiler] then 40 # 9
    else if index_eqb i [Int 2; boiler] then 80 # 9
    else 0
  else if String.eqb name "Capacity" then
    if index_eqb i [grid] then 10
    else if index_eqb i [boiler] then 8
    else 0
  else if String.eqb name "E" then
    if index_eqb i [Int 2; heat] then 500 else 0
  else if String.eqb name "Storage_cap" then
    if index_eqb i [heat] then 200 else 0
  else if String.eqb name "investment_cost" then 7
  else if String.eqb name "Operating_cost" then 5
  else if String.eqb name "Income_via_exports" then 1
  else 0.

(** An assignment for the model of [Storage_only]: the storage
    discharges the load at every time step. *)
Definition discharge (name : string) (i : index) : Q :=
  if String.eqb name "Qout" then
    if index_eqb i [Int 1; heat] then 4
    else if index_eqb i [Int 2; heat] then 8
    else 0
  else if String.eqb name "E" then
    if index_eqb i [Int 2; heat] then 500 else 0
  else if String.eqb name "Storage_cap" then
    if index_eqb i [heat] then 200 else 0
  else if String.eqb name "investment_cost" then 7
  else if String.eqb name "Operating_cost" then 5
  else if String.eqb name "Income_via_exports" then 1
  else 0.

(* ================================================================== *)
(** ** The script and further quantities *)

(** The script at the end of the file: [sp = EnergyHub('Firstscript', 10)]
    and then [sp.solve()]. *)
Definition main (on_none : none_rule) (path : module_path)
    : result (EnergyHub * pyreturn) :=
  sp <- EnergyHub.__init__ on_none path "Firstscript" 10 ;;
  EnergyHub.solve sp.

(** The parameters that [createModel] initialises from a dict of the
    input data, in declaration order: name, index sets, dict. *)
Definition dict_params (d : InputModule) : list (string * (list (list atom) * dict)) :=
  let T := d.(Time) in
  let I := d.(Inputs) in
  let S := d.(Solar_inputs) in
  let O := d.(Outputs) in
  [ ("Loads", ([T; O], d.(Loads)));
    ("Number_of_days", ([T], d.(Number_of_days)));
    ("Cmatrix", ([O; I], d.(Cmatrix)));
    ("Storage_max_charge", ([O], d.(Storage_max_charge)));
    ("Storage_max_discharge", ([O], d.(Storage_max_discharge)));
    ("Storage_standing_losses", ([O], d.(Storage_standing_losses)));
    ("Storage_charging_eff", ([O], d.(Storage_charging_eff)));
    ("Storage_discharging_eff", ([O], d.(Storage_discharging_eff)));
    ("Storage_max_cap", ([O], d.(Storage_max_cap)));
    ("Lifetime_tech", ([I], d.(Lifetime_tech)));
    ("Lifetime_stor", ([O], d.(Lifetime_stor)));
    ("Network_efficiency", ([O], d.(Network_efficiency)));
    ("Network_length", ([O], d.(Network_length)));
    ("Operating_costs", ([I], d.(Operating_costs)));
    ("Linear_inv_costs", ([I], d.(Linear_inv_costs)));
    ("Fixed_inv_costs", ([I], d.(Fixed_inv_costs)));
    ("Linear_stor_costs", ([O], d.(Linear_stor_costs)));
    ("Fixed_stor_costs", ([O], d.(Fixed_stor_costs)));
    ("FiT", ([O], d.(FiT)));
    ("P_solar", ([T; S], d.(P_solar))) ].

(** The parameters that [createModel] initialises from a number of the
    input data. *)
Definition scalar_params (d : InputModule) : list (string * Q) :=
  [ ("Network_lifetime", d.(Network_lifetime));
    ("Net_inv_cost_per_m", d.(Net_inv_cost_per_m));
    ("Interest_rate", d.(Interest_rate));
    ("Roof_area", d.(Roof_area)) ].


Definition block_names : list string :=
  ["Load_balance"; "Capacity_constraint"; "Solar_input"; "Fixed_cost_constr"].

(** The attributes of the input data that the constraint rules and
    their index sets read. *)
Definition same_constraint_data (d d' : InputModule) : Prop :=
  d.(Time) = d'.(Time) /\
  d.(Inputs) = d'.(Inputs) /\
  d.(Solar_inputs) = d'.(Solar_inputs) /\
  d.(Dispatchable_Tech) = d'.(Dispatchable_Tech) /\
  d.(Outputs) = d'.(Outputs) /\
  d.(Loads) = d'.(Loads) /\
  d.(Cmatrix) = d'.(Cmatrix) /\
  d.(P_solar) = d'.(P_solar).

(** [d'] with those attributes taken from [d]. *)
Definition with_constraint_data (d d' : InputModule) : InputModule := {|
  Time := d.(Time);
  First_hour := d'.(First_hour);
  Inputs := d.(Inputs);
  Solar_inputs := d.(Solar_inputs);
  Inputs_wo_grid := d'.(Inputs_wo_grid);
  Dispatchable_Tech := d.(Dispatchable_Tech);
  CHP_Tech := d'.(CHP_Tech);
  Outputs := d.(Outputs);
  Loads := d.(Loads);
  Number_of_days := d'.(Number_of_days);
  Cmatrix := d.(Cmatrix);
  Storage_max_charge := d'.(Storage_max_charge);
  Storage_max_discharge := d'.(Storage_max_discharge);
  Storage_standing_losses := d'.(Storage_standing_losses);
  Storage_charging_eff := d'.(Storage_charging_eff);
  Storage_discharging_eff := d'.(Storage_discharging_eff);
  Storage_max_cap := d'.(Storage_max_cap);
  Lifetime_tech := d'.(Lifetime_tech);
  Lifetime_stor := d'.(Lifetime_stor);
  Network_efficiency := d'.(Network_efficiency);
  Network_length := d'.(Network_length);
  Network_lifetime := d'.(Network_lifetime);
  Operating_costs := d'.(Operating_costs);
  Linear_inv_costs := d'.(Linear_inv_costs);
  Fixed_inv_costs := d'.(Fixed_inv_costs);
  Linear_stor_costs := d'.(Linear_stor_costs);
  Fixed_stor_costs := d'.(Fixed_stor_costs);
  Net_inv_cost_per_m := d'.(Net_inv_cost_per_m);
  FiT := d'.(FiT);
  Interest_rate := d'.(Interest_rate);
  Roof_area := d'.(Roof_area);
  P_solar := d.(P_solar)
|}.

(** The larger of a number and zero. *)
Definition Qpos_part (q : Q) : Q := if Qle_bool 0 q then q else 0%Q.

(** The assignment without any generation: the storage discharges every
    positive load and takes up every negative one, and every other
    variable is zero. *)
Definition storage_serves_all (mdl : ConcreteModel) : assignment :=
  fun n i =>
    if String.eqb n "Qout" then Qpos_part (param mdl "Loads" i)
    else if String.eqb n "Qin" then Qpos_part (- param mdl "Loads" i)
    else 0%Q.

(** Input data whose [Cmatrix] has a key outside [Outputs x Inputs]. *)
Definition Stray_key : InputModule := {|
  Time := [Int 1];
  First_hour := [Int 1];
  Inputs := [grid];
  Solar_inputs := [];
  Inputs_wo_grid := [];
  Dispatchable_Tech := [grid];
  CHP_Tech := [];
  Outputs := [elec];
  Loads := [([Int 1; elec], 10%Q)];
  Number_of_days := const_dict [Int 1] 365%Q;
  Cmatrix := [([elec; grid], 1%Q); ([heat; wind], 1%Q)];
  Storage_max_charge := [];
  Storage_max_discharge := [];
  Storage_standing_losses := [];
  Storage_charging_eff := [];
  Storage_discharging_eff := [];
  Storage_max_cap := [];
  Lifetime_tech := [];
  Lifetime_stor := [];
  Network_efficiency := [];
  Network_length := [];
  Network_lifetime := 40%Q;
  Operating_costs := [];
  Linear_inv_costs := [];
  Fixed_inv_costs := [];
  Linear_stor_costs := [];
  Fixed_stor_costs := [];
  Net_inv_cost_per_m := 800%Q;
  FiT := [];
  Interest_rate := (1 # 20)%Q;
  Roof_area := 50%Q;
  P_solar := []
|}.

(** Input data without a load for [heat] at time step [2]. *)
Definition Missing_load : InputModule := {|
  Time := [Int 1; Int 2];
  First_hour := [Int 1];
  Inputs := [];
  Solar_inputs := [];
  Inputs_wo_grid := [];
  Dispatchable_Tech := [];
  CHP_Tech := [];
  Outputs := [heat];
  Loads := [([Int 1; heat], 4%Q)];
  Number_of_days := [];
  Cmatrix := [];
  Storage_max_charge := [];
  Storage_max_discharge := [];
  Storage_standing_losses := [];
  Storage_charging_eff := [];
  Storage_discharging_eff := [];
  Storage_max_cap := [];
  Lifetime_tech := [];
  Lifetime_stor := [];
  Network_efficiency := [];
  Network_length := [];
  Network_lifetime := 40%Q;
  Operating_costs := [];
  Linear_inv_costs := [];
  Fixed_inv_costs := [];
  Linear_stor_costs := [];
  Fixed_stor_costs := [];
  Net_inv_cost_per_m := 800%Q;
  FiT := [];
  Interest_rate := (1 # 20)%Q;
  Roof_area := 50%Q;
  P_solar := []
|}.

(* ================================================================== *)
(** ** Basic facts about indices, sets and the error monad *)

Lemma atom_eqb_eq (a b : atom) : atom_eqb a b = true <-> a = b.
Proof.
  destruct a as [x|x], b as [y|y]; simpl; split; intro H;
    try discriminate; try congruence.
  - apply Z.eqb_eq in H. congruence.
  - inversion H. apply Z.eqb_refl.
  - apply String.eqb_eq in H. congruence.
  - inversion H. apply String.eqb_refl.
Qed.

Lemma index_eqb_eq (i j : index) : index_eqb i j = true <-> i = j.
Proof.
  revert j. induction i as [|a i IH]; intros [|b j]; simpl; split; intro H;
    try discriminate; try reflexivity.
  - apply andb_true_iff in H. destruct H as [Ha Hi].
    apply atom_eqb_eq in Ha. apply IH in Hi. congruence.
  - inversion H; subst. apply andb_true_iff. split.
    + now apply atom_eqb_eq.
    + now apply IH.
Qed.

Lemma mem_In (a : atom) (l : list atom) : mem a l = true <-> In a l.
Proof.
  unfold mem. rewrite existsb_exists. split.
  - intros [x [Hx He]]. apply atom_eqb_eq in He. now subst.
  - intro H. exists a. split; [assumption | now apply atom_eqb_eq].
Qed.

Lemma memi_In (i : index) (l : list index) : memi i l = true <-> In i l.
Proof.
  unfold memi. rewrite existsb_exists. split.
  - intros [x [Hx He]]. apply index_eqb_eq in He. now subst.
  - intro H. exists i. split; [assumption | now apply index_eqb_eq].
Qed.

Lemma In_fold_add (l acc : list atom) (a : atom) :
  In a (fold_left pe.add l acc) <-> In a acc \/ In a l.
Proof.
  revert acc. induction l as [|b l IH]; intro acc; simpl.
  - tauto.
  - rewrite IH. unfold pe.add. destruct (mem b acc) eqn:Hb.
    + apply mem_In in Hb. split; intros [H|H]; auto.
      destruct H as [H|H]; subst; auto.
    + rewrite in_app_iff. simpl. tauto.
Qed.

Lemma In_ordered (l : list atom) (a : atom) : In a (pe.ordered l) <-> In a l.
Proof.
  unfold pe.ordered. rewrite In_fold_add. simpl. tauto.
Qed.

Lemma In_product (sets : list (list atom)) (i : index) :
  In i (product sets) <-> Forall2 (fun a s => In a s) i sets.
Proof.
  revert i. induction sets as [|s sets IH]; intro i; simpl.
  - split.
    + intros [H|[]]. subst. constructor.
    + intro H. inversion H. now left.
  - rewrite in_flat_map. split.
    + intros [a [Ha Hi]]. apply in_map_iff in Hi. destruct Hi as [j [Hj Hin]].
      subst. constructor; [assumption | now apply IH].
    + intro H. inversion H as [|a s' j sets' Ha Hj]; subst.
      exists a. split; [assumption|]. apply in_map. now apply IH.
Qed.

Lemma In_product2 (s1 s2 : list atom) (a b : atom) :
  In [a; b] (product [s1; s2]) <-> In a s1 /\ In b s2.
Proof.
  rewrite In_product. split.
  - intro H. inversion H as [|? ? ? ? Ha H']; subst.
    inversion H' as [|? ? ? ? Hb H'']; subst. tauto.
  - intros [Ha Hb]. repeat constructor; assumption.
Qed.

Lemma In_product1 (s1 : list atom) (a : atom) :
  In [a] (product [s1]) <-> In a s1.
Proof.
  rewrite In_product. split.
  - intro H. inversion H; subst. assumption.
  - intro Ha. repeat constructor; assumption.
Qed.

Lemma bind_Ok {A B : Type} (r : result A) (k : A -> result B) (b : B) :
  bind r k = Ok b -> exists a, r = Ok a /\ k a = Ok b.
Proof.
  destruct r as [a|e]; simpl; intro H; [eauto | discriminate].
Qed.

(** A constraint block that was built holds, for every index, what the
    rule returned there, and nothing else. *)
Lemma build_sound (on_none : none_rule) (name : string)
    (rule : index -> result (option relexpr)) (idx : list index)
    (body : list (index * relexpr)) :
  pe.build on_none name rule idx = Ok body ->
  forall i, In i idx ->
    (exists r, rule i = Ok (Some r) /\ In (i, r) body) \/
    (rule i = Ok None /\ on_none = NoneSkips).
Proof.
  revert body. induction idx as [|j idx IH]; simpl; intros body H i Hi.
  - contradiction.
  - apply bind_Ok in H. destruct H as [r [Hr H]].
    destruct r as [e|].
    + apply bind_Ok in H. destruct H as [rest [Hrest H]].
      inversion H; subst. destruct Hi as [Hi|Hi].
      * subst. left. exists e. split; [assumption | now left].
      * destruct (IH _ Hrest _ Hi) as [[r [Hri Hin]]|Hn].
        -- left. exists r. split; [assumption | now right].
        -- now right.
    + destruct on_none; [discriminate|].
      destruct Hi as [Hi|Hi].
      * subst. right. split; [assumption | reflexivity].
      * apply (IH _ H _ Hi).
Qed.

Lemma build_complete (on_none : none_rule) (name : string)
    (rule : index -> result (option relexpr)) (idx : list index)
    (body : list (index * relexpr)) :
  pe.build on_none name rule idx = Ok body ->
  forall i r, In (i, r) body -> In i idx /\ rule i = Ok (Some r).
Proof.
  revert body. induction idx as [|j idx IH]; simpl; intros body H i r Hin.
  - inversion H; subst. contradiction.
  - apply bind_Ok in H. destruct H as [r' [Hr H]].
    destruct r' as [e|].
    + apply bind_Ok in H. destruct H as [rest [Hrest H]].
      inversion H; subst. destruct Hin as [Hin|Hin].
      * inversion Hin; subst. split; [now left | assumption].
      * destruct (IH _ Hrest _ _ Hin). split; [now right | assumption].
    + destruct on_none; [discriminate|].
      destruct (IH _ H _ _ Hin). split; [now right | assumption].
Qed.

(** A rule that never returns an expression leaves the block empty. *)
Lemma build_none (on_none : none_rule) (name : string)
    (rule : index -> result (option relexpr)) (idx : list index)
    (body : list (index * relexpr)) :
  (forall i r, rule i <> Ok (Some r)) ->
  pe.build on_none name rule idx = Ok body -> body = [].
Proof.
  intros Hrule H. destruct body as [|[i r] body]; [reflexivity|].
  exfalso. destruct (build_complete _ _ _ _ _ H i r (or_introl eq_refl)) as [_ Hr].
  exact (Hrule _ _ Hr).
Qed.

Lemma holdsb_holds (a : assignment) (r : relexpr) :
  holdsb a r = true -> holds a r.
Proof.
  destruct r; simpl; intro H.
  - now apply Qeq_bool_iff.
  - now apply Qle_bool_iff.
Qed.

Lemma in_domainb_in_domain (d : domain) (v : Q) :
  in_domainb d v = true -> in_domain d v.
Proof.
  destruct d; simpl; intro H.
  - now apply Qle_bool_iff.
  - apply orb_true_iff in H. destruct H as [H|H]; [left|right];
      now apply Qeq_bool_iff.
Qed.

Lemma feasibleb_feasible (m : ConcreteModel) (a : assignment) :
  feasibleb m a = true -> feasible m a.
Proof.
  unfold feasibleb, feasible. rewrite forallb_forall. intros H name c Hin.
  specialize (H _ Hin). simpl in H. destruct c; simpl in *; auto.
  - rewrite forallb_forall in H. intros i Hi.
    apply in_domainb_in_domain. now apply H.
  - rewrite forallb_forall in H. intros i r Hi.
    apply holdsb_holds. apply (H _ Hi).
Qed.

(* ================================================================== *)
(** ** [createModel] in closed form *)

Lemma bind_require_assoc {A B : Type} (c : bool) (e : exn)
    (k1 : unit -> result B) (r : unit -> result A) (k2 : A -> result B) :
  (c = true -> k1 tt = bind (r tt) k2) ->
  bind (require c e) k1 = bind (bind (require c e) r) k2.
Proof. destruct c; simpl; auto. Qed.

Lemma bind_Ok_eq {A B : Type} (x : A) (k : A -> result B) :
  bind (Ok x) k = k x.
Proof. reflexivity. Qed.

Lemma bind_assoc_ext {A B C : Type} (r : result A) (k1 : A -> result C)
    (f : A -> result B) (k2 : B -> result C) :
  (forall a, k1 a = bind (f a) k2) -> bind r k1 = bind (bind r f) k2.
Proof. destruct r; simpl; auto. Qed.

Lemma setattr_Set_None {B : Type} (m : ConcreteModel) (name : string)
    (l : list atom) (k : ConcreteModel -> result B) :
  bind (setattr m name (pe.Set_ m name l None)) k =
  k (m ++ [(name, SetC (pe.ordered l))]).
Proof. reflexivity. Qed.

Lemma setattr_Set_within {B : Type} (m : ConcreteModel) (name parent : string)
    (l p : list atom) (k : ConcreteModel -> result B) :
  get_set m parent = Ok p ->
  bind (setattr m name (pe.Set_ m name l (Some parent))) k =
  bind (require (forallb (fun a => mem a p) l) (ValueError name))
       (fun _ => k (m ++ [(name, SetC (pe.ordered l))])).
Proof.
  intro H. unfold setattr, pe.Set_. rewrite H. simpl.
  destruct (forallb _ l); reflexivity.
Qed.

Lemma setattr_Param_dict {B : Type} (m : ConcreteModel) (name : string)
    (sets : list string) (idx : list index) (dd : dict) (default : option Q)
    (k : ConcreteModel -> result B) :
  index_set m sets = Ok idx ->
  bind (setattr m name (pe.Param m name sets (InitDict dd) default)) k =
  bind (require (forallb (fun kv => memi (fst kv) idx) dd) (KeyError name))
       (fun _ => k (m ++ [(name, ParamC idx dd default)])).
Proof.
  intro H. unfold setattr, pe.Param. rewrite H. simpl.
  destruct (forallb _ dd); reflexivity.
Qed.

Lemma setattr_Param_value {B : Type} (m : ConcreteModel) (name : string)
    (q : Q) (default : option Q) (k : ConcreteModel -> result B) :
  bind (setattr m name (pe.Param m name [] (InitValue q) default)) k =
  k (m ++ [(name, ParamC [[]] [([], q)] default)]).
Proof. reflexivity. Qed.

Lemma setattr_Param_noinit {B : Type} (m : ConcreteModel) (name : string)
    (sets : list string) (idx : list index) (default : option Q)
    (k : ConcreteModel -> result B) :
  index_set m sets = Ok idx ->
  bind (setattr m name (pe.Param m name sets NoInit default)) k =
  k (m ++ [(name, ParamC idx [] default)]).
Proof. intro H. unfold setattr, pe.Param. rewrite H. reflexivity. Qed.

Lemma setattr_Var {B : Type} (m : ConcreteModel) (name : string)
    (sets : list string) (idx : list index) (dom : domain)
    (k : ConcreteModel -> result B) :
  index_set m sets = Ok idx ->
  bind (setattr m name (pe.Var m name sets dom)) k =
  k (m ++ [(name, VarC idx dom)]).
Proof. intro H. unfold setattr, pe.Var. rewrite H. reflexivity. Qed.

Lemma setattr_Constraint {B : Type} (on_none : none_rule) (m : ConcreteModel)
    (name : string) (sets : list string) (idx : list index)
    (rule : index -> result (option relexpr)) (k : ConcreteModel -> result B) :
  index_set m sets = Ok idx ->
  bind (setattr m name (pe.Constraint on_none m name sets rule)) k =
  bind (pe.build on_none name rule idx)
       (fun body => k (m ++ [(name, ConstraintC body)])).
Proof.
  intro H. unfold setattr, pe.Constraint. rewrite H. simpl.
  destruct (pe.build on_none name rule idx); reflexivity.
Qed.

(** One declaration that cannot fail. *)
Ltac step_ok :=
  first
    [ rewrite setattr_Set_None
    | rewrite setattr_Param_value
    | erewrite setattr_Param_noinit by reflexivity
    | erewrite setattr_Var by reflexivity ].

(** One declaration that checks its initial data. *)
Ltac step_check :=
  first
    [ erewrite setattr_Set_within by reflexivity
    | erewrite setattr_Param_dict by reflexivity ];
  apply bind_require_assoc; intros _.

(** One constraint block. *)
Ltac step_block :=
  erewrite setattr_Constraint by reflexivity;
  apply bind_assoc_ext; intro.

Lemma createModel_closed_eq (on_none : none_rule) (self : EnergyHub) :
  EnergyHub.createModel on_none self = createModel_closed on_none self.
Proof.
  unfold EnergyHub.createModel, createModel_closed, constraint_blocks.
  cbv zeta. unfold declaration_checks. cbv zeta. cbn [require_all].
  repeat (first [step_ok | step_check]).
  rewrite bind_Ok_eq.
  repeat step_block.
  reflexivity.
Qed.

(* ================================================================== *)
(** ** What the rules return *)

Lemma getitem_var_Ok (m : ConcreteModel) (name : string) (i : index) (e : expr) :
  getitem_var m name i = Ok e -> e = VarRef name i.
Proof.
  unfold getitem_var. intro H. apply bind_Ok in H. destruct H as [c [_ H]].
  destruct c; try discriminate.
  destruct (memi i idx); [congruence | discriminate].
Qed.

Lemma getitem_param_param (m : ConcreteModel) (name : string) (i : index) (q : Q) :
  getitem_param m name i = Ok q -> param m name i = q.
Proof. unfold param. intro H. now rewrite H. Qed.

Lemma Capacity_constraint_rule_Ok (m : ConcreteModel) (t disp out : atom)
    (r : option relexpr) :
  Capacity_constraint_rule m t disp out = Ok r ->
  r = Some (LeExpr (Mul (VarRef "P" [t; disp]) (Num (param m "Cmatrix" [out; disp])))
                   (VarRef "Capacity" [disp])).
Proof.
  unfold Capacity_constraint_rule. intro H.
  apply bind_Ok in H. destruct H as [p [Hp H]].
  apply bind_Ok in H. destruct H as [c [Hc H]].
  apply bind_Ok in H. destruct H as [cap [Hcap H]].
  apply getitem_var_Ok in Hp, Hcap. apply getitem_param_param in Hc.
  congruence.
Qed.

Lemma Solar_input_rule_Ok (m : ConcreteModel) (t sol out : atom)
    (r : option relexpr) :
  Solar_input_rule m t sol out = Ok r ->
  r = Some (EqExpr (VarRef "P" [t; sol])
                   (Mul (Num (param m "P_solar" [t; sol])) (VarRef "Capacity" [sol]))).
Proof.
  unfold Solar_input_rule. intro H.
  apply bind_Ok in H. destruct H as [p [Hp H]].
  apply bind_Ok in H. destruct H as [c [Hc H]].
  apply bind_Ok in H. destruct H as [cap [Hcap H]].
  apply getitem_var_Ok in Hp, Hcap. apply getitem_param_param in Hc.
  congruence.
Qed.

Lemma Fixed_cost_constr_rule_Ok (m : ConcreteModel) (inp : atom)
    (r : option relexpr) :
  Fixed_cost_constr_rule m inp = Ok r -> r = None.
Proof.
  unfold Fixed_cost_constr_rule. intro H.
  apply bind_Ok in H. destruct H as [p [Hp H]].
  apply bind_Ok in H. destruct H as [c [Hc H]].
  apply bind_Ok in H. destruct H as [cap [Hcap H]].
  congruence.
Qed.

Lemma Load_balance_items (m : ConcreteModel) (t out : atom)
    (inputs : list atom) (items : list expr) :
  mapM (fun inp =>
          p <- getitem_var m "P" [t; inp] ;;
          c <- getitem_param m "Cmatrix" [out; inp] ;;
          Ok (Mul p (Num c))) inputs = Ok items ->
  items = map (fun inp => Mul (VarRef "P" [t; inp]) (Num (param m "Cmatrix" [out; inp])))
              inputs /\
  forall inp, In inp inputs ->
    getitem_param m "Cmatrix" [out; inp] = Ok (param m "Cmatrix" [out; inp]).
Proof.
  revert items. induction inputs as [|i inputs IH]; simpl; intros items H.
  - inversion H. split; [reflexivity | contradiction].
  - apply bind_Ok in H. destruct H as [e [He H]].
    apply bind_Ok in H. destruct H as [es [Hes H]].
    apply bind_Ok in He. destruct He as [p [Hp He]].
    apply bind_Ok in He. destruct He as [c [Hc He]].
    destruct (IH _ Hes) as [Hitems Hdef].
    apply getitem_var_Ok in Hp. pose proof (getitem_param_param _ _ _ _ Hc) as Hq.
    split.
    + inversion H. inversion He. subst. reflexivity.
    + intros inp [Hin|Hin]; [subst inp; rewrite Hq; exact Hc | now apply Hdef].
Qed.

Lemma Load_balance_rule_Ok (m : ConcreteModel) (t out : atom) (r : option relexpr) :
  Load_balance_rule m t out = Ok r ->
  exists inputs,
    get_set m "Inputs" = Ok inputs /\
    (forall inp, In inp inputs ->
       getitem_param m "Cmatrix" [out; inp] = Ok (param m "Cmatrix" [out; inp])) /\
    getitem_param m "Loads" [t; out] = Ok (param m "Loads" [t; out]) /\
    r = Some (EqExpr
                (Sub (Add (py_sum (map (fun inp => Mul (VarRef "P" [t; inp])
                                              (Num (param m "Cmatrix" [out; inp])))
                                       inputs))
                          (VarRef "Qout" [t; out]))
                     (VarRef "Qin" [t; out]))
                (Add (Num (param m "Loads" [t; out])) (VarRef "P_export" [t; out]))).
Proof.
  unfold Load_balance_rule. intro H.
  apply bind_Ok in H. destruct H as [inputs [Hi H]].
  apply bind_Ok in H. destruct H as [items [Hitems H]].
  apply bind_Ok in H. destruct H as [qout [Hqout H]].
  apply bind_Ok in H. destruct H as [qin [Hqin H]].
  apply bind_Ok in H. destruct H as [loads [Hloads H]].
  apply bind_Ok in H. destruct H as [pexp [Hpexp H]].
  apply Load_balance_items in Hitems. destruct Hitems as [Hitems Hdef].
  apply getitem_var_Ok in Hqout, Hqin, Hpexp.
  pose proof (getitem_param_param _ _ _ _ Hloads) as Hq.
  exists inputs. repeat split; try assumption.
  - now rewrite Hq.
  - inversion H. subst. reflexivity.
Qed.

(* ================================================================== *)
(** ** The installation-linking rule and the default of [BigM] *)

(** C1.  The rule of [Fixed_cost_constr] never returns the inequality
    [Capacity[inp] <= BigM * y[inp]]: whenever it returns, it returns
    [None].  On the sample data the construction therefore either raises
    at that block, or builds a model whose block [Fixed_cost_constr] is
    empty and which has a feasible assignment with [y[grid] = 0] and
    [Capacity[grid] = 10 > 0]. *)
Theorem Fixed_cost_constr_rule_returns_None :
  (forall m inp r, Fixed_cost_constr_rule m inp <> Ok (Some r)) /\
  Fixed_cost_constr_rule (declared Firstscript) grid = Ok None /\
  EnergyHub.__init__ NoneRaises sample_path "Firstscript" 10
    = Raise (ValueError "Fixed_cost_constr") /\
  exists h mdl,
    EnergyHub.__init__ NoneSkips sample_path "Firstscript" 10 = Ok h /\
    h.(m) = Some mdl /\
    getattr mdl "Fixed_cost_constr" = Ok (ConstraintC []) /\
    feasible mdl dispatch /\
    (dispatch "y" [grid] == 0)%Q /\
    (0 < dispatch "Capacity" [grid])%Q.
Proof.
  split; [|split; [|split]].
  - intros m inp r H. apply Fixed_cost_constr_rule_Ok in H. discriminate.
  - vm_compute. reflexivity.
  - vm_compute. reflexivity.
  - eexists. eexists. split; [vm_compute; reflexivity|].
    split; [reflexivity|]. split; [vm_compute; reflexivity|].
    split; [apply feasibleb_feasible; vm_compute; reflexivity|].
    split; vm_compute; reflexivity.
Qed.

(** C6.  The default of [BigM] is [10 xor 5 = 15], not [100000], and
    [15] is the number that reading [BigM] yields in the model built
    from the sample data. *)
Theorem BigM_default_is_15 :
  BigM_default = 15 /\
  BigM_default <> 10 ^ 5 /\
  exists h mdl,
    EnergyHub.__init__ NoneSkips sample_path "Firstscript" 10 = Ok h /\
    h.(m) = Some mdl /\
    getitem_param mdl "BigM" [] = Ok 15%Q.
Proof.
  split; [reflexivity|]. split; [discriminate|].
  eexists. eexists. split; [vm_compute; reflexivity|].
  split; [reflexivity|]. vm_compute. reflexivity.
Qed.

(* ================================================================== *)
(** ** The shape of a built model *)

Lemma require_all_Ok (checks : list (bool * exn)) (u : unit) :
  require_all checks = Ok u -> forall c e, In (c, e) checks -> c = true.
Proof.
  induction checks as [|[c0 e0] checks IH]; simpl; intros H c e Hin.
  - contradiction.
  - destruct c0; simpl in H; [|discriminate].
    destruct Hin as [Hin|Hin]; [congruence | eauto].
Qed.

Lemma getattr_app (m m' : ConcreteModel) (name : string) :
  getattr (m ++ m') name =
  match getattr m name with
  | Ok c => Ok c
  | Raise _ => getattr m' name
  end.
Proof.
  induction m as [|[n c] m IH]; simpl.
  - reflexivity.
  - destruct (String.eqb name n); [reflexivity | assumption].
Qed.

Lemma getattr_app_l (m m' : ConcreteModel) (name : string) (c : component) :
  getattr m name = Ok c -> getattr (m ++ m') name = Ok c.
Proof. intro H. rewrite getattr_app, H. reflexivity. Qed.

Lemma getitem_param_app_l (m m' : ConcreteModel) (name : string) (c : component)
    (i : index) :
  getattr m name = Ok c ->
  getitem_param (m ++ m') name i = getitem_param m name i.
Proof.
  intro H. unfold getitem_param. now rewrite (getattr_app_l _ m' _ _ H), H.
Qed.

Lemma param_app_l (m m' : ConcreteModel) (name : string) (c : component)
    (i : index) :
  getattr m name = Ok c -> param (m ++ m') name i = param m name i.
Proof.
  intro H. unfold param. now rewrite (getitem_param_app_l _ m' _ _ i H).
Qed.

(** The four blocks of a built model, each with the call that built it. *)
Lemma built_inv (on_none : none_rule) (self : EnergyHub) (mdl : ConcreteModel) :
  built on_none self mdl ->
  let d := self.(inp) in
  let T := pe.ordered d.(Time) in
  let I := pe.ordered d.(Inputs) in
  let S := pe.ordered d.(Solar_inputs) in
  let D := pe.ordered d.(Dispatchable_Tech) in
  let O := pe.ordered d.(Outputs) in
  require_all (declaration_checks d) = Ok tt /\
  exists lb cc si fc,
    mdl = declared d ++
          [ ("Load_balance", ConstraintC lb);
            ("Capacity_constraint", ConstraintC cc);
            ("Solar_input", ConstraintC si);
            ("Fixed_cost_constr", ConstraintC fc) ] /\
    pe.build on_none "Load_balance"
      (rule2 "Load_balance" (Load_balance_rule (declared d)))
      (product [T; O]) = Ok lb /\
    pe.build on_none "Capacity_constraint"
      (rule3 "Capacity_constraint"
         (Capacity_constraint_rule (declared d ++ [("Load_balance", ConstraintC lb)])))
      (product [T; D; O]) = Ok cc /\
    pe.build on_none "Solar_input"
      (rule3 "Solar_input"
         (Solar_input_rule ((declared d ++ [("Load_balance", ConstraintC lb)])
                            ++ [("Capacity_constraint", ConstraintC cc)])))
      (product [T; S; O]) = Ok si /\
    pe.build on_none "Fixed_cost_constr"
      (rule1 "Fixed_cost_constr"
         (Fixed_cost_constr_rule (((declared d ++ [("Load_balance", ConstraintC lb)])
                                   ++ [("Capacity_constraint", ConstraintC cc)])
                                  ++ [("Solar_input", ConstraintC si)])))
      (product [I]) = Ok fc.
Proof.
  intros [h [Hh Hm]]. rewrite createModel_closed_eq in Hh.
  unfold createModel_closed in Hh.
  apply bind_Ok in Hh. destruct Hh as [[] [Hchecks Hh]].
  apply bind_Ok in Hh. destruct Hh as [cs [Hcs Hh]].
  inversion Hh; subst h; clear Hh. simpl in Hm. inversion Hm; subst mdl; clear Hm.
  unfold constraint_blocks in Hcs.
  apply bind_Ok in Hcs. destruct Hcs as [lb [Hlb Hcs]].
  apply bind_Ok in Hcs. destruct Hcs as [cc [Hcc Hcs]].
  apply bind_Ok in Hcs. destruct Hcs as [si [Hsi Hcs]].
  apply bind_Ok in Hcs. destruct Hcs as [fc [Hfc Hcs]].
  inversion Hcs; subst cs; clear Hcs.
  split; [assumption|]. exists lb, cc, si, fc. repeat split; assumption.
Qed.

Lemma built_intro (on_none : none_rule) (self : EnergyHub) :
  is_ok (EnergyHub.createModel on_none self) = true ->
  built on_none self (the_model (EnergyHub.createModel on_none self)).
Proof.
  intro H. destruct (EnergyHub.createModel on_none self) as [h|e] eqn:E;
    [|discriminate].
  exists h. split; [exact E|]. simpl.
  rewrite createModel_closed_eq in E. unfold createModel_closed in E.
  apply bind_Ok in E. destruct E as [u [_ E]].
  apply bind_Ok in E. destruct E as [cs [_ E]].
  inversion E. reflexivity.
Qed.

Lemma built_blocks (on_none : none_rule) (self : EnergyHub) (mdl : ConcreteModel) :
  built on_none self mdl <->
  require_all (declaration_checks self.(inp)) = Ok tt /\
  exists cs, constraint_blocks on_none self.(inp) = Ok cs /\
             mdl = declared self.(inp) ++ cs.
Proof.
  unfold built. rewrite createModel_closed_eq. unfold createModel_closed. split.
  - intros [h [H Hm]].
    apply bind_Ok in H. destruct H as [[] [Hc H]].
    apply bind_Ok in H. destruct H as [cs [Hcs H]].
    injection H as <-. cbn in Hm. injection Hm as <-. eauto.
  - intros [Hc [cs [Hcs ->]]]. rewrite Hc, Hcs. cbn [bind]. eexists.
    split; reflexivity.
Qed.

Lemma built_Firstscript :
  built NoneSkips (fresh "Firstscript" Firstscript) Firstscript_model.
Proof. apply built_intro. vm_compute. reflexivity. Qed.

Lemma built_Storage_only :
  built NoneRaises (fresh "Storage_only" Storage_only) Storage_only_model.
Proof. apply built_intro. vm_compute. reflexivity. Qed.

(* ================================================================== *)
(** ** Load balance *)

Lemma eval_fold_Add (a : assignment) (items : list expr) (acc : expr) :
  (eval a (fold_left Add items acc) == eval a acc + sumQ (map (eval a) items))%Q.
Proof.
  revert acc. induction items as [|e items IH]; intro acc; simpl.
  - ring.
  - rewrite IH. simpl. ring.
Qed.

Lemma eval_py_sum (a : assignment) (items : list expr) :
  (eval a (py_sum items) == sumQ (map (eval a) items))%Q.
Proof. unfold py_sum. rewrite eval_fold_Add. simpl. ring. Qed.

Lemma getitem_param_lookup (idx : list index) (dd : dict) (name : string)
    (m : ConcreteModel) (i : index) (q : Q) :
  getattr m name = Ok (ParamC idx dd None) ->
  getitem_param m name i = Ok q -> In i idx /\ lookup i dd = Some q.
Proof.
  intros Hc H. unfold getitem_param in H. rewrite Hc in H. simpl in H.
  destruct (memi i idx) eqn:Hi; [|discriminate].
  apply memi_In in Hi. destruct (lookup i dd); [|discriminate].
  split; [assumption | congruence].
Qed.

(** C2.  In a built model, for every time step [t] and every output [s]
    of the input data, the block [Load_balance] holds at index [(t, s)]
    the equality
    [sum(P[t,inp] * Cmatrix[s,inp] for inp in Inputs) + Qout[t,s] - Qin[t,s]
     == Loads[t,s] + P_export[t,s]],
    with the numbers of [Cmatrix] and [Loads] taken from the input data,
    and every feasible assignment satisfies it exactly. *)
Theorem Load_balance_equality (on_none : none_rule) (self : EnergyHub)
    (mdl : ConcreteModel) (t s : atom) :
  built on_none self mdl ->
  In t self.(inp).(Time) ->
  In s self.(inp).(Outputs) ->
  let inputs := pe.ordered self.(inp).(Inputs) in
  let cm := fun i => param mdl "Cmatrix" [s; i] in
  let loads := param mdl "Loads" [t; s] in
  (exists body,
     getattr mdl "Load_balance" = Ok (ConstraintC body) /\
     In ([t; s],
         EqExpr (Sub (Add (py_sum (map (fun i => Mul (VarRef "P" [t; i]) (Num (cm i)))
                                       inputs))
                          (VarRef "Qout" [t; s]))
                     (VarRef "Qin" [t; s]))
                (Add (Num loads) (VarRef "P_export" [t; s])))
        body) /\
  lookup [t; s] self.(inp).(Loads) = Some loads /\
  (forall i, In i self.(inp).(Inputs) ->
     lookup [s; i] self.(inp).(Cmatrix) = Some (cm i)) /\
  forall a, feasible mdl a ->
    (sumQ (map (fun i => a "P" [t; i] * cm i) inputs)
     + a "Qout" [t; s] - a "Qin" [t; s]
     == loads + a "P_export" [t; s])%Q.
Proof.
  intros Hb Ht Hs inputs cm loads.
  destruct (built_inv _ _ _ Hb) as [_ [lb [cc [si [fc [Hmdl [Hlb _]]]]]]].
  assert (Hidx : In [t; s] (product [pe.ordered self.(inp).(Time);
                                     pe.ordered self.(inp).(Outputs)])).
  { apply In_product2. split; now apply In_ordered. }
  destruct (build_sound _ _ _ _ _ Hlb _ Hidx) as [[r [Hr Hin]]|[Hr _]];
    simpl in Hr; apply Load_balance_rule_Ok in Hr;
    destruct Hr as [inputs' [Hi [Hcm [Hloads Hr]]]]; [|discriminate].
  change (get_set (declared self.(inp)) "Inputs")
    with (@Ok (list atom) (pe.ordered self.(inp).(Inputs))) in Hi.
  inversion Hi; subst inputs'; clear Hi.
  assert (Ecm : forall i, cm i = param (declared self.(inp)) "Cmatrix" [s; i]).
  { intro i. unfold cm. rewrite Hmdl. eapply param_app_l. reflexivity. }
  assert (Eloads : loads = param (declared self.(inp)) "Loads" [t; s]).
  { unfold loads. rewrite Hmdl. eapply param_app_l. reflexivity. }
  assert (Hconstr :
    In ([t; s],
        EqExpr (Sub (Add (py_sum (map (fun i => Mul (VarRef "P" [t; i]) (Num (cm i)))
                                      inputs))
                         (VarRef "Qout" [t; s]))
                    (VarRef "Qin" [t; s]))
               (Add (Num loads) (VarRef "P_export" [t; s]))) lb).
  { inversion Hr; subst r. rewrite Eloads.
    replace (map (fun i => Mul (VarRef "P" [t; i]) (Num (cm i))) inputs)
      with (map (fun i => Mul (VarRef "P" [t; i])
                   (Num (param (declared self.(inp)) "Cmatrix" [s; i]))) inputs).
    - exact Hin.
    - apply map_ext. intro i. now rewrite Ecm. }
  split; [|split; [|split]].
  - exists lb. split; [|exact Hconstr]. rewrite Hmdl. reflexivity.
  - rewrite Eloads.
    apply (getitem_param_lookup _ _ "Loads" (declared self.(inp)) _ _ eq_refl Hloads).
  - intros i Hi. rewrite Ecm.
    apply (getitem_param_lookup _ _ "Cmatrix" (declared self.(inp)) _ _ eq_refl).
    apply Hcm. now apply In_ordered.
  - intros a Ha.
    assert (Hlbin : In ("Load_balance", ConstraintC lb) mdl).
    { rewrite Hmdl. apply in_or_app. right. now left. }
    pose proof (Ha _ _ Hlbin _ _ Hconstr) as Hh. simpl in Hh.
    rewrite eval_py_sum in Hh. rewrite map_map in Hh. simpl in Hh. exact Hh.
Qed.

Lemma Load_balance_equality_witness :
  (forall a, feasible Firstscript_model a ->
     (sumQ (map (fun i => a "P" [Int 1; i] * param Firstscript_model "Cmatrix" [elec; i])
                [grid; pv; boiler])
      + a "Qout" [Int 1; elec] - a "Qin" [Int 1; elec]
      == 10 + a "P_export" [Int 1; elec])%Q) /\
  (forall a, feasible Storage_only_model a ->
     (0 + a "Qout" [Int 2; heat] - a "Qin" [Int 2; heat]
      == 8 + a "P_export" [Int 2; heat])%Q).
Proof.
  split.
  - exact (proj2 (proj2 (proj2
      (Load_balance_equality NoneSkips (fresh "Firstscript" Firstscript)
         Firstscript_model (Int 1) elec built_Firstscript
         (or_introl eq_refl) (or_introl eq_refl))))).
  - exact (proj2 (proj2 (proj2
      (Load_balance_equality NoneRaises (fresh "Storage_only" Storage_only)
         Storage_only_model (Int 2) heat built_Storage_only
         (or_intror (or_introl eq_refl)) (or_introl eq_refl))))).
Defined.

(* ================================================================== *)
(** ** The variables that the constraints mention *)

Lemma rule1_Ok {A : Type} (name : string) (f : atom -> result A)
    (i : index) (r : A) :
  rule1 name f i = Ok r -> exists a, i = [a] /\ f a = Ok r.
Proof.
  destruct i as [|a [|b i]]; simpl; intro H; try discriminate. eauto.
Qed.

Lemma rule2_Ok {A : Type} (name : string) (f : atom -> atom -> result A)
    (i : index) (r : A) :
  rule2 name f i = Ok r -> exists a b, i = [a; b] /\ f a b = Ok r.
Proof.
  destruct i as [|a [|b [|c i]]]; simpl; intro H; try discriminate. eauto.
Qed.

Lemma rule3_Ok {A : Type} (name : string) (f : atom -> atom -> atom -> result A)
    (i : index) (r : A) :
  rule3 name f i = Ok r -> exists a b c, i = [a; b; c] /\ f a b c = Ok r.
Proof.
  destruct i as [|a [|b [|c [|c' i]]]]; simpl; intro H; try discriminate. eauto 6.
Qed.

Lemma expr_vars_fold_Add (f : atom -> expr) (inputs : list atom) (acc : expr)
    (n : string) :
  (forall i, incl (expr_vars (f i)) constrained) ->
  In n (expr_vars (fold_left Add (map f inputs) acc)) ->
  In n (expr_vars acc) \/ In n constrained.
Proof.
  intro Hf. revert acc. induction inputs as [|i inputs IH]; simpl; intros acc H.
  - now left.
  - apply IH in H. destruct H as [H|H]; [|now right].
    simpl in H. apply in_app_or in H. destruct H as [H|H]; [now left|].
    right. now apply (Hf i).
Qed.

Lemma Load_balance_rule_vars (m : ConcreteModel) (t out : atom) (r : relexpr) :
  Load_balance_rule m t out = Ok (Some r) -> incl (relexpr_vars r) constrained.
Proof.
  intro H. apply Load_balance_rule_Ok in H. destruct H as [inputs [_ [_ [_ H]]]].
  inversion H; subst r; clear H. intros n Hn. simpl in Hn.
  apply in_app_or in Hn. destruct Hn as [Hn|Hn].
  - apply in_app_or in Hn. destruct Hn as [Hn|Hn].
    + apply in_app_or in Hn. destruct Hn as [Hn|Hn].
      * unfold py_sum in Hn. apply expr_vars_fold_Add in Hn.
        -- destruct Hn as [[]|Hn]. exact Hn.
        -- intros i k Hk. simpl in Hk. destruct Hk as [Hk|[]]. subst k.
           unfold constrained. simpl. tauto.
      * simpl in Hn. destruct Hn as [Hn|[]]. subst n. unfold constrained. simpl. tauto.
    + simpl in Hn. destruct Hn as [Hn|[]]. subst n. unfold constrained. simpl. tauto.
  - simpl in Hn. destruct Hn as [Hn|[]]. subst n. unfold constrained. simpl. tauto.
Qed.

Lemma Capacity_constraint_rule_vars (m : ConcreteModel) (t disp out : atom)
    (r : relexpr) :
  Capacity_constraint_rule m t disp out = Ok (Some r) ->
  incl (relexpr_vars r) constrained.
Proof.
  intro H. apply Capacity_constraint_rule_Ok in H. inversion H; subst r.
  intros n Hn. unfold constrained. simpl in *. intuition.
Qed.

Lemma Solar_input_rule_vars (m : ConcreteModel) (t sol out : atom) (r : relexpr) :
  Solar_input_rule m t sol out = Ok (Some r) -> incl (relexpr_vars r) constrained.
Proof.
  intro H. apply Solar_input_rule_Ok in H. inversion H; subst r.
  intros n Hn. unfold constrained. simpl in *. intuition.
Qed.

Lemma block_vars (on_none : none_rule) (name : string)
    (rule : index -> result (option relexpr)) (idx : list index)
    (body : list (index * relexpr)) :
  (forall i r, rule i = Ok (Some r) -> incl (relexpr_vars r) constrained) ->
  pe.build on_none name rule idx = Ok body ->
  incl (component_vars (ConstraintC body)) constrained.
Proof.
  intros Hrule Hb n Hn. simpl in Hn. apply in_flat_map in Hn.
  destruct Hn as [[i r] [Hin Hn]].
  destruct (build_complete _ _ _ _ _ Hb _ _ Hin) as [_ Hr].
  exact (Hrule _ _ Hr _ Hn).
Qed.

Lemma constraint_vars_app (m m' : ConcreteModel) :
  constraint_vars (m ++ m') = constraint_vars m ++ constraint_vars m'.
Proof. unfold constraint_vars. apply flat_map_app. Qed.

Lemma Fixed_cost_constr_empty (on_none : none_rule) (m : ConcreteModel)
    (idx : list index) (body : list (index * relexpr)) :
  pe.build on_none "Fixed_cost_constr"
    (rule1 "Fixed_cost_constr" (Fixed_cost_constr_rule m)) idx = Ok body ->
  body = [].
Proof.
  apply build_none. intros i r H. apply rule1_Ok in H.
  destruct H as [a [_ H]]. apply Fixed_cost_constr_rule_Ok in H. discriminate.
Qed.

(** Every variable of a constraint of a built model is one of [P],
    [Qout], [Qin], [P_export] and [Capacity]. *)
Lemma built_constraint_vars (on_none : none_rule) (self : EnergyHub)
    (mdl : ConcreteModel) :
  built on_none self mdl -> incl (constraint_vars mdl) constrained.
Proof.
  intro Hb.
  destruct (built_inv _ _ _ Hb) as [_ [lb [cc [si [fc [Hmdl [Hlb [Hcc [Hsi Hfc]]]]]]]]].
  subst mdl. rewrite constraint_vars_app.
  change (constraint_vars (declared self.(inp))) with (@nil string).
  unfold constraint_vars. cbn [flat_map snd app].
  apply Fixed_cost_constr_empty in Hfc. subst fc.
  intros n Hn. repeat (apply in_app_or in Hn; destruct Hn as [Hn|Hn]).
  - revert n Hn. eapply block_vars; [|exact Hlb].
    intros i r H. apply rule2_Ok in H. destruct H as [a [b [_ H]]].
    now apply Load_balance_rule_vars in H.
  - revert n Hn. eapply block_vars; [|exact Hcc].
    intros i r H. apply rule3_Ok in H. destruct H as [a [b [c [_ H]]]].
    now apply Capacity_constraint_rule_vars in H.
  - revert n Hn. eapply block_vars; [|exact Hsi].
    intros i r H. apply rule3_Ok in H. destruct H as [a [b [c [_ H]]]].
    now apply Solar_input_rule_vars in H.
  - simpl in Hn. contradiction.
  - simpl in Hn. contradiction.
Qed.

Lemma eval_ext (a b : assignment) (e : expr) :
  (forall n i, In n (expr_vars e) -> b n i = a n i) -> eval b e = eval a e.
Proof.
  induction e as [q|n i|x IHx y IHy|x IHx y IHy|x IHx y IHy]; simpl; intro H.
  - reflexivity.
  - apply H. now left.
  - rewrite IHx, IHy; [reflexivity | |]; intros; apply H; apply in_or_app; auto.
  - rewrite IHx, IHy; [reflexivity | |]; intros; apply H; apply in_or_app; auto.
  - rewrite IHx, IHy; [reflexivity | |]; intros; apply H; apply in_or_app; auto.
Qed.

Lemma holds_ext (a b : assignment) (r : relexpr) :
  (forall n i, In n (relexpr_vars r) -> b n i = a n i) -> holds a r -> holds b r.
Proof.
  destruct r as [x y|x y]; simpl; intros H Hh;
    rewrite (eval_ext a b x), (eval_ext a b y); try assumption;
    intros; apply H; apply in_or_app; auto.
Qed.

(** Every variable of the declared model other than [y] ranges over the
    non-negative reals. *)
Lemma declared_domain (d : InputModule) (n : string) (idx : list index) (dom : domain) :
  In (n, VarC idx dom) (declared d) -> n <> "y" -> dom = NonNegativeReals.
Proof.
  intros H Hn. unfold declared in H. cbv zeta in H. simpl in H.
  repeat (destruct H as [H|H]; [inversion H; subst; congruence|]).
  contradiction.
Qed.

Lemma built_In (on_none : none_rule) (self : EnergyHub) (mdl : ConcreteModel)
    (n : string) (idx : list index) (dom : domain) :
  built on_none self mdl ->
  In (n, VarC idx dom) mdl -> In (n, VarC idx dom) (declared self.(inp)).
Proof.
  intros Hb Hin.
  destruct (built_inv _ _ _ Hb) as [_ [lb [cc [si [fc [Hmdl _]]]]]].
  subst mdl. apply in_app_or in Hin. destruct Hin as [Hin|Hin]; [assumption|].
  simpl in Hin. repeat (destruct Hin as [Hin|Hin]; [discriminate|]). contradiction.
Qed.

(** In a built model, the variables outside the constraints are free:
    they may be set to any non-negative numbers. *)
Lemma free_variables (on_none : none_rule) (self : EnergyHub) (mdl : ConcreteModel)
    (names : list string) (a b : assignment) :
  built on_none self mdl ->
  (forall n, In n names -> ~ In n ("y" :: constrained)) ->
  feasible mdl a ->
  (forall n i, ~ In n names -> b n i = a n i) ->
  (forall n i, In n names -> (0 <= b n i)%Q) ->
  feasible mdl b.
Proof.
  intros Hb Hnames Ha Hsame Hpos n c Hin.
  assert (Hstr : forall k : string, In k names \/ ~ In k names).
  { intro k. destruct (in_dec string_dec k names); auto. }
  pose proof (Ha _ _ Hin) as Hc. destruct c as [l|idx vals dflt|idx dom|body]; simpl in *;
    try exact I.
  - intros i Hi. destruct (Hstr n) as [Hn|Hn].
    + apply (built_In _ _ _ _ _ _ Hb) in Hin. apply declared_domain in Hin.
      * subst dom. simpl. now apply Hpos.
      * intro E. subst n. apply (Hnames _ Hn). now left.
    + rewrite Hsame by assumption. now apply Hc.
  - intros i r Hir. apply (holds_ext a b); [|now apply (Hc i)].
    intros k j Hk. apply Hsame. intro Hk'.
    apply (Hnames _ Hk'). right. apply (built_constraint_vars _ _ _ Hb).
    unfold constraint_vars. apply in_flat_map. exists (n, ConstraintC body).
    split; [assumption|]. simpl. apply in_flat_map. exists (i, r). auto.
Qed.

Lemma feasible_domain (mdl : ConcreteModel) (a : assignment) (n : string)
    (idx : list index) (dom : domain) (i : index) :
  feasible mdl a -> In (n, VarC idx dom) mdl -> In i idx -> in_domain dom (a n i).
Proof. intros Ha Hin Hi. exact (Ha _ _ Hin i Hi). Qed.

Lemma built_getattr (on_none : none_rule) (self : EnergyHub)
    (mdl : ConcreteModel) (n : string) (c : component) :
  built on_none self mdl ->
  getattr (declared self.(inp)) n = Ok c -> getattr mdl n = Ok c.
Proof.
  intros Hb H.
  destruct (built_inv _ _ _ Hb) as [_ [lb [cc [si [fc [Hmdl _]]]]]].
  subst mdl. now apply getattr_app_l.
Qed.

(** The block [Fixed_cost_constr] of a built model is empty. *)
Lemma built_Fixed_cost_constr (on_none : none_rule) (self : EnergyHub)
    (mdl : ConcreteModel) :
  built on_none self mdl ->
  getattr mdl "Fixed_cost_constr" = Ok (ConstraintC []).
Proof.
  intro Hb.
  destruct (built_inv _ _ _ Hb) as [_ [lb [cc [si [fc [Hmdl [_ [_ [_ Hfc]]]]]]]]].
  apply Fixed_cost_constr_empty in Hfc. subst fc mdl. reflexivity.
Qed.

(** When a rule that returns [None] is an error, a model is built only
    from input data without any input technology. *)
Lemma built_NoneRaises (self : EnergyHub) (mdl : ConcreteModel) :
  built NoneRaises self mdl -> self.(inp).(Inputs) = [].
Proof.
  intro Hb.
  destruct (built_inv _ _ _ Hb) as [_ [lb [cc [si [fc [_ [_ [_ [_ Hfc]]]]]]]]].
  destruct (Inputs (inp self)) as [|a l] eqn:E; [reflexivity|]. exfalso.
  assert (Hin : In [a] (product [pe.ordered (a :: l)])).
  { apply In_product1. apply In_ordered. now left. }
  destruct (build_sound _ _ _ _ _ Hfc _ Hin) as [[r [Hr _]]|[_ Hn]];
    [|discriminate Hn].
  simpl in Hr. apply Fixed_cost_constr_rule_Ok in Hr. discriminate Hr.
Qed.

Lemma getattr_In (m : ConcreteModel) (n : string) (c : component) :
  getattr m n = Ok c -> In (n, c) m.
Proof.
  induction m as [|[k c'] m IH]; simpl; intro H; [discriminate|].
  destruct (String.eqb_spec n k) as [E|E].
  - left. congruence.
  - right. auto.
Qed.

Lemma built_var (on_none : none_rule) (self : EnergyHub) (mdl : ConcreteModel)
    (a : assignment) (n : string) (idx : list index) (dom : domain) (i : index) :
  built on_none self mdl ->
  getattr (declared self.(inp)) n = Ok (VarC idx dom) ->
  feasible mdl a -> In i idx -> in_domain dom (a n i).
Proof.
  intros Hb Hg Ha Hi. apply (feasible_domain mdl a n idx dom i Ha); [|exact Hi].
  apply getattr_In. now apply (built_getattr _ _ _ _ _ Hb).
Qed.

Lemma feasible_dispatch : feasible Firstscript_model dispatch.
Proof. apply feasibleb_feasible. vm_compute. reflexivity. Qed.

Lemma feasible_discharge : feasible Storage_only_model discharge.
Proof. apply feasibleb_feasible. vm_compute. reflexivity. Qed.

Lemma override_nonneg (a : assignment) (n0 : string) (i0 : index) (v : Q)
    (n : string) (i : index) :
  (0 <= v)%Q -> (0 <= a n i)%Q -> (0 <= override a n0 i0 v n i)%Q.
Proof. intros Hv Ha. unfold override. destruct (_ && _); assumption. Qed.

Lemma override_other (a : assignment) (n0 : string) (i0 : index) (v : Q)
    (n : string) (i : index) :
  n <> n0 -> override a n0 i0 v n i = a n i.
Proof.
  intro H. unfold override. destruct (String.eqb_spec n n0); [contradiction|].
  reflexivity.
Qed.

Lemma dispatch_nonneg (n : string) (i : index) : (0 <= dispatch n i)%Q.
Proof.
  unfold dispatch.
  repeat match goal with
         | |- context [if ?c then _ else _] => destruct c
         end; apply Qle_bool_iff; reflexivity.
Qed.

Lemma discharge_nonneg (n : string) (i : index) : (0 <= discharge n i)%Q.
Proof.
  unfold discharge.
  repeat match goal with
         | |- context [if ?c then _ else _] => destruct c
         end; apply Qle_bool_iff; reflexivity.
Qed.

(** Refutation of a comparison of two numbers by evaluation. *)
Ltac refute :=
  let H := fresh "H" in
  intro H;
  first [ apply Qeq_bool_iff in H | apply Qle_bool_iff in H ];
  vm_compute in H; discriminate H.

(** Proof of a comparison of two numbers by evaluation. *)
Ltac evaluate :=
  first [ apply Qeq_bool_iff | apply Qle_bool_iff ]; vm_compute; reflexivity.

(* ================================================================== *)
(** ** The objective function components *)

(** C3, as the code has it.  In a built model the five scalar variables
    [Operating_cost], [Income_via_exports], [investment_cost],
    [Total_cost] and [Total_carbon] are declared over the non-negative
    reals, so each is non-negative in every feasible assignment; no
    constraint of the model mentions any of them, and they are free:
    a feasible assignment stays feasible when the five are set to any
    non-negative numbers. *)
Theorem objective_components_are_free (on_none : none_rule) (self : EnergyHub)
    (mdl : ConcreteModel) :
  built on_none self mdl ->
  (forall n, In n objective_components ->
     getattr mdl n = Ok (VarC [[]] NonNegativeReals)) /\
  (forall n, In n objective_components -> ~ In n (constraint_vars mdl)) /\
  (forall a, feasible mdl a ->
     forall n, In n objective_components -> (0 <= a n [])%Q) /\
  (forall a b, feasible mdl a ->
     (forall n i, ~ In n objective_components -> b n i = a n i) ->
     (forall n i, In n objective_components -> (0 <= b n i)%Q) ->
     feasible mdl b).
Proof.
  intro Hb.
  assert (Hdecl : forall n, In n objective_components ->
            getattr (declared self.(inp)) n = Ok (VarC [[]] NonNegativeReals)).
  { intros n Hn. unfold objective_components in Hn. simpl in Hn.
    repeat (destruct Hn as [Hn|Hn]; [subst n; reflexivity|]). contradiction. }
  assert (Hout : forall n, In n objective_components -> ~ In n ("y" :: constrained)).
  { intros n Hn Hc. unfold objective_components, constrained in *. simpl in *.
    repeat (destruct Hn as [Hn|Hn]; [subst n; intuition discriminate|]).
    contradiction. }
  split; [|split; [|split]].
  - intros n Hn. apply (built_getattr _ _ _ _ _ Hb). now apply Hdecl.
  - intros n Hn Hc. apply (Hout n Hn). right.
    now apply (built_constraint_vars _ _ _ Hb).
  - intros a Ha n Hn.
    apply (built_var _ _ _ a n [[]] NonNegativeReals [] Hb (Hdecl n Hn) Ha).
    now left.
  - intros a b Ha Hsame Hpos.
    exact (free_variables _ _ _ objective_components a b Hb Hout Ha Hsame Hpos).
Qed.

Lemma objective_components_are_free_witness :
  feasible Firstscript_model (override dispatch "Total_cost" [] 1000%Q) /\
  (0 <= discharge "Operating_cost" [])%Q.
Proof.
  split.
  - apply (proj2 (proj2 (proj2
      (objective_components_are_free NoneSkips (fresh "Firstscript" Firstscript)
         Firstscript_model built_Firstscript))) dispatch).
    + exact feasible_dispatch.
    + intros n i Hn. apply override_other. intro E. apply Hn. subst n.
      unfold objective_components. simpl. tauto.
    + intros n i _. apply override_nonneg; [evaluate | apply dispatch_nonneg].
  - apply (proj1 (proj2 (proj2
      (objective_components_are_free NoneRaises (fresh "Storage_only" Storage_only)
         Storage_only_model built_Storage_only))) discharge feasible_discharge).
    unfold objective_components. simpl. tauto.
Defined.

(** C3 fails as stated: the model built from the sample data has a
    feasible assignment in which [Total_cost = 0] while
    [investment_cost + Operating_cost - Income_via_exports = 11]. *)
Lemma objective_accounting_counterexample :
  (built NoneSkips (fresh "Firstscript" Firstscript) Firstscript_model /\
   feasible Firstscript_model dispatch /\
   ~ (dispatch "Total_cost" []
      == dispatch "investment_cost" [] + dispatch "Operating_cost" []
         - dispatch "Income_via_exports" [])%Q) /\
  (built NoneRaises (fresh "Storage_only" Storage_only) Storage_only_model /\
   feasible Storage_only_model discharge /\
   ~ (discharge "Total_cost" []
      == discharge "investment_cost" [] + discharge "Operating_cost" []
         - discharge "Income_via_exports" [])%Q).
Proof.
  split; (split; [|split]).
  - exact built_Firstscript.
  - exact feasible_dispatch.
  - refute.
  - exact built_Storage_only.
  - exact feasible_discharge.
  - refute.
Qed.

(* ================================================================== *)
(** ** Storage *)

(** C4, as the code has it.  In a built model [E[t,s]] and
    [Storage_cap[s]] are declared over the non-negative reals, for every
    time step and output, so both are non-negative in every feasible
    assignment; no constraint of the model mentions [E] or
    [Storage_cap], and a feasible assignment stays feasible when they
    are set to any non-negative numbers. *)
Theorem state_of_charge_is_free (on_none : none_rule) (self : EnergyHub)
    (mdl : ConcreteModel) :
  built on_none self mdl ->
  (forall a, feasible mdl a ->
     forall t s, In t self.(inp).(Time) -> In s self.(inp).(Outputs) ->
       (0 <= a "E" [t; s])%Q /\ (0 <= a "Storage_cap" [s])%Q) /\
  ~ In "E" (constraint_vars mdl) /\
  ~ In "Storage_cap" (constraint_vars mdl) /\
  (forall a b, feasible mdl a ->
     (forall n i, ~ In n ["E"; "Storage_cap"] -> b n i = a n i) ->
     (forall n i, In n ["E"; "Storage_cap"] -> (0 <= b n i)%Q) ->
     feasible mdl b).
Proof.
  intro Hb.
  assert (Hout : forall n, In n ["E"; "Storage_cap"] -> ~ In n ("y" :: constrained)).
  { intros n Hn Hc. unfold constrained in *. simpl in *.
    repeat (destruct Hn as [Hn|Hn]; [subst n; intuition discriminate|]).
    contradiction. }
  split; [|split; [|split]].
  - intros a Ha t s Ht Hs. split.
    + apply (built_var _ _ _ a "E" _ NonNegativeReals [t; s] Hb eq_refl Ha).
      apply In_product2. split; now apply In_ordered.
    + apply (built_var _ _ _ a "Storage_cap" _ NonNegativeReals [s] Hb eq_refl Ha).
      apply In_product1. now apply In_ordered.
  - intro Hc. apply (Hout "E"); [simpl; tauto|]. right.
    now apply (built_constraint_vars _ _ _ Hb).
  - intro Hc. apply (Hout "Storage_cap"); [simpl; tauto|]. right.
    now apply (built_constraint_vars _ _ _ Hb).
  - intros a b Ha Hsame Hpos.
    exact (free_variables _ _ _ ["E"; "Storage_cap"] a b Hb Hout Ha Hsame Hpos).
Qed.

Lemma state_of_charge_is_free_witness :
  ((0 <= dispatch "E" [Int 2; heat])%Q /\ (0 <= dispatch "Storage_cap" [heat])%Q) /\
  feasible Storage_only_model (override discharge "E" [Int 1; heat] 77%Q).
Proof.
  split.
  - apply (proj1
      (state_of_charge_is_free NoneSkips (fresh "Firstscript" Firstscript)
         Firstscript_model built_Firstscript) dispatch feasible_dispatch).
    + simpl. tauto.
    + simpl. tauto.
  - apply (proj2 (proj2 (proj2
      (state_of_charge_is_free NoneRaises (fresh "Storage_only" Storage_only)
         Storage_only_model built_Storage_only))) discharge).
    + exact feasible_discharge.
    + intros n i Hn. apply override_other. intro E. apply Hn. subst n.
      simpl. tauto.
    + intros n i _. apply override_nonneg; [evaluate | apply discharge_nonneg].
Defined.

(** C4 fails as stated: in the model built from the sample data, at
    time step [2] (not a first hour) and output [heat], a feasible
    assignment has [E[2,heat] = 500] where the continuity equation gives
    [0], and [E[2,heat] = 500 > Storage_cap[heat] = 200 >
    Storage_max_cap[heat] = 100]. *)
Lemma storage_dynamics_counterexample :
  (built NoneSkips (fresh "Firstscript" Firstscript) Firstscript_model /\
   In (Int 2) Firstscript.(Time) /\ ~ In (Int 2) Firstscript.(First_hour) /\
   In heat Firstscript.(Outputs) /\
   feasible Firstscript_model dispatch /\
   ~ (dispatch "E" [Int 2; heat]
      == dispatch "E" [Int 1; heat]
           * (1 - param Firstscript_model "Storage_standing_losses" [heat])
         + dispatch "Qin" [Int 2; heat]
           * param Firstscript_model "Storage_charging_eff" [heat]
         - dispatch "Qout" [Int 2; heat]
           / param Firstscript_model "Storage_discharging_eff" [heat])%Q /\
   ~ (dispatch "E" [Int 2; heat] <= dispatch "Storage_cap" [heat])%Q /\
   ~ (dispatch "Storage_cap" [heat]
      <= param Firstscript_model "Storage_max_cap" [heat])%Q) /\
  (built NoneRaises (fresh "Storage_only" Storage_only) Storage_only_model /\
   feasible Storage_only_model discharge /\
   ~ (discharge "E" [Int 2; heat]
      == discharge "E" [Int 1; heat]
           * (1 - param Storage_only_model "Storage_standing_losses" [heat])
         + discharge "Qin" [Int 2; heat]
           * param Storage_only_model "Storage_charging_eff" [heat]
         - discharge "Qout" [Int 2; heat]
           / param Storage_only_model "Storage_discharging_eff" [heat])%Q /\
   ~ (discharge "E" [Int 2; heat] <= discharge "Storage_cap" [heat])%Q /\
   ~ (discharge "Storage_cap" [heat]
      <= param Storage_only_model "Storage_max_cap" [heat])%Q).
Proof.
  split.
  - split; [exact built_Firstscript|].
    split; [simpl; tauto|].
    split; [simpl; intros [H|[]]; discriminate H|].
    split; [simpl; tauto|].
    split; [exact feasible_dispatch|].
    split; [refute|]. split; refute.
  - split; [exact built_Storage_only|].
    split; [exact feasible_discharge|].
    split; [refute|]. split; refute.
Qed.

(* ================================================================== *)
(** ** Capital recovery factors *)

(** The closed form of the specification has the values the
    specification quotes. *)
Lemma CRF_spec_values :
  (CRF_spec 0 20 == 1 # 20)%Q /\
  (802 # 10000 <= CRF_spec (5 # 100) 20)%Q /\
  (CRF_spec (5 # 100) 20 <= 803 # 10000)%Q.
Proof. split; [|split]; evaluate. Qed.

Lemma keys_ok_revalue (names : list string) (g : string -> index -> Q)
    (n : string) (dd : dict) (sets : list (list atom)) :
  keys_ok (revalue names g n dd) sets = keys_ok dd sets.
Proof.
  unfold revalue. destruct (existsb _ names); [|reflexivity].
  unfold keys_ok. induction dd as [|[k v] dd IH]; simpl.
  - reflexivity.
  - now rewrite IH.
Qed.

Lemma declaration_checks_with_values (names : list string)
    (g : string -> index -> Q) (d : InputModule) :
  declaration_checks (with_values names g d) = declaration_checks d.
Proof.
  unfold declaration_checks. cbv zeta.
  cbn [with_values Time First_hour Inputs Solar_inputs Inputs_wo_grid
       Dispatchable_Tech CHP_Tech Outputs Loads Number_of_days Cmatrix
       Storage_max_charge Storage_max_discharge Storage_standing_losses
       Storage_charging_eff Storage_discharging_eff Storage_max_cap
       Lifetime_tech Lifetime_stor Network_efficiency Network_length
       Operating_costs Linear_inv_costs Fixed_inv_costs Linear_stor_costs
       Fixed_stor_costs FiT P_solar].
  rewrite !keys_ok_revalue. reflexivity.
Qed.

Lemma constraint_blocks_physical (on_none : none_rule)
    (g : string -> index -> Q) (d : InputModule) :
  constraint_blocks on_none (with_values physical_parameters g d)
  = constraint_blocks on_none d.
Proof. reflexivity. Qed.

Lemma constraint_blocks_rate_and_lifetimes (on_none : none_rule)
    (g : string -> index -> Q) (d : InputModule) :
  constraint_blocks on_none (with_values rate_and_lifetimes g d)
  = constraint_blocks on_none d.
Proof. reflexivity. Qed.

Lemma getitem_param_no_value (m : ConcreteModel) (name : string) (idx : list index) :
  getattr m name = Ok (ParamC idx [] None) -> no_value m name.
Proof.
  intro H. exists idx. split; [exact H|]. intro i.
  unfold getitem_param. rewrite H. cbn [bind lookup].
  destruct (memi i idx); reflexivity.
Qed.

Lemma no_value_never_Ok (m : ConcreteModel) (name : string) (i : index) (q : Q) :
  no_value m name -> getitem_param m name i <> Ok q.
Proof. intros [idx [_ H]]. rewrite H. discriminate. Qed.

(** The declarations other than those of the interest rate and the
    lifetimes do not read these four attributes. *)
Lemma declared_rate_and_lifetimes (g : string -> index -> Q) (d : InputModule)
    (n : string) :
  ~ In n rate_and_lifetimes ->
  getattr (declared (with_values rate_and_lifetimes g d)) n = getattr (declared d) n.
Proof.
  intro Hn. unfold declared. cbv zeta. cbn [getattr].
  repeat match goal with
  | |- context [String.eqb n ?s] =>
      destruct (String.eqb_spec n s) as [E|_];
      [ first [ reflexivity
              | exfalso; apply Hn; rewrite E; unfold rate_and_lifetimes; simpl; tauto ]
      | ]
  end.
  reflexivity.
Qed.

(** C5, as the code has it.  In a built model [CRF_tech], [CRF_stor] and
    [CRF_network] are parameters without initial value and without
    default: no capital recovery factor is computed, each of the three
    holds no number, and reading one raises, [ValueError] at an index
    of the parameter (so for the scalar [CRF_network]) and [KeyError]
    elsewhere.  [Interest_rate], [Network_lifetime], [Lifetime_tech] and
    [Lifetime_stor] are stored as parameters with the numbers of the
    input data, and nothing else depends on them: with other numbers
    under the same keys a model is built as well, and every other
    component of it is the same.  The closed form of the specification
    has the values the specification quotes; the program does not
    evaluate it. *)
Theorem CRF_parameters_have_no_value (on_none : none_rule) (self : EnergyHub)
    (mdl : ConcreteModel) :
  built on_none self mdl ->
  let d := self.(inp) in
  (forall n, In n CRF_parameters ->
     no_value mdl n /\ forall i q, getitem_param mdl n i <> Ok q) /\
  getitem_param mdl "CRF_network" [] = Raise (ValueError "CRF_network") /\
  getitem_param mdl "Interest_rate" [] = Ok d.(Interest_rate) /\
  getitem_param mdl "Network_lifetime" [] = Ok d.(Network_lifetime) /\
  getattr mdl "Lifetime_tech"
    = Ok (ParamC (product [pe.ordered d.(Inputs)]) d.(Lifetime_tech) None) /\
  getattr mdl "Lifetime_stor"
    = Ok (ParamC (product [pe.ordered d.(Outputs)]) d.(Lifetime_stor) None) /\
  (forall g : string -> index -> Q,
     exists mdl',
       built on_none (with_inp (with_values rate_and_lifetimes g d) self) mdl' /\
       forall n, ~ In n rate_and_lifetimes -> getattr mdl' n = getattr mdl n) /\
  (CRF_spec 0 20 == 1 # 20)%Q /\
  (802 # 10000 <= CRF_spec (5 # 100) 20)%Q /\
  (CRF_spec (5 # 100) 20 <= 803 # 10000)%Q.
Proof.
  intros Hb d.
  assert (Hno : forall n, In n CRF_parameters -> no_value mdl n).
  { intros n Hn. unfold CRF_parameters in Hn. simpl in Hn.
    destruct Hn as [E|[E|[E|[]]]]; subst n;
      eapply getitem_param_no_value; apply (built_getattr _ _ _ _ _ Hb);
      reflexivity. }
  split; [|split; [|split; [|split; [|split; [|split; [|split]]]]]].
  - intros n Hn. split; [now apply Hno|].
    intros i q. apply no_value_never_Ok. now apply Hno.
  - unfold getitem_param.
    erewrite (built_getattr _ _ _ _ _ Hb) by reflexivity. reflexivity.
  - unfold getitem_param.
    erewrite (built_getattr _ _ _ _ _ Hb) by reflexivity. reflexivity.
  - unfold getitem_param.
    erewrite (built_getattr _ _ _ _ _ Hb) by reflexivity. reflexivity.
  - apply (built_getattr _ _ _ _ _ Hb). reflexivity.
  - apply (built_getattr _ _ _ _ _ Hb). reflexivity.
  - intro g. apply built_blocks in Hb. destruct Hb as [Hc [cs [Hcs ->]]].
    exists (declared (with_values rate_and_lifetimes g d) ++ cs). split.
    + apply built_blocks. cbn [inp with_inp]. fold d.
      rewrite declaration_checks_with_values. split; [exact Hc|].
      exists cs. split; [|reflexivity].
      rewrite constraint_blocks_rate_and_lifetimes. exact Hcs.
    + intros n Hn. rewrite !getattr_app.
      now rewrite declared_rate_and_lifetimes.
  - exact CRF_spec_values.
Qed.

Lemma CRF_parameters_have_no_value_witness :
  getitem_param Storage_only_model "CRF_network" []
    = Raise (ValueError "CRF_network") /\
  getitem_param Storage_only_model "CRF_stor" [heat] <> Ok (CRF_spec (1 # 20) 20) /\
  getitem_param Storage_only_model "Interest_rate" [] = Ok (1 # 20)%Q /\
  getattr Storage_only_model "Lifetime_stor"
    = Ok (ParamC [[heat]] [([heat], 20%Q)] None).
Proof.
  pose proof (CRF_parameters_have_no_value NoneRaises
                (fresh "Storage_only" Storage_only) Storage_only_model
                built_Storage_only) as H.
  cbv zeta in H. destruct H as [H1 [H2 [H3 [_ [_ [H6 _]]]]]].
  split; [exact H2|]. split; [|split; [exact H3 | exact H6]].
  apply (proj2 (H1 "CRF_stor" ltac:(unfold CRF_parameters; simpl; tauto))).
Defined.

(** C5 fails as stated: in the model built from [Storage_only], with
    interest rate [0.05] and lifetimes [40] and [20], the parameters
    [CRF_network] and [CRF_stor[heat]] do not hold the capital recovery
    factor; reading them yields no number. *)
Lemma CRF_counterexample :
  built NoneRaises (fresh "Storage_only" Storage_only) Storage_only_model /\
  getitem_param Storage_only_model "Interest_rate" [] = Ok (1 # 20)%Q /\
  getitem_param Storage_only_model "Network_lifetime" [] = Ok 40%Q /\
  getitem_param Storage_only_model "CRF_network" []
    <> Ok (CRF_spec (1 # 20) 40) /\
  getitem_param Storage_only_model "Lifetime_stor" [heat] = Ok 20%Q /\
  getitem_param Storage_only_model "CRF_stor" [heat]
    <> Ok (CRF_spec (1 # 20) 20).
Proof.
  split; [exact built_Storage_only|].
  split; [vm_compute; reflexivity|]. split; [vm_compute; reflexivity|].
  split; [vm_compute; discriminate|].
  split; [vm_compute; reflexivity|]. vm_compute. discriminate.
Qed.

(* ================================================================== *)
(** ** What construction checks, and what it does not *)

Lemma within_ok_incl (l parent : list atom) :
  within_ok l parent = true <-> incl l parent.
Proof.
  unfold within_ok. rewrite forallb_forall. split.
  - intros H a Ha. apply In_ordered. apply mem_In. now apply H.
  - intros H a Ha. apply mem_In. apply In_ordered. now apply H.
Qed.

Lemma within_ok_false (l parent : list atom) :
  ~ incl l parent -> within_ok l parent = false.
Proof.
  intro H. destruct (within_ok l parent) eqn:E; [|reflexivity].
  exfalso. apply H. now apply within_ok_incl.
Qed.

(** The rules read the sets, [Cmatrix], [Loads], [P_solar], [BigM] and
    the variables, and nothing else of the model. *)
Lemma constraint_blocks_set_Inputs_wo_grid (on_none : none_rule) (s : list atom)
    (d : InputModule) :
  constraint_blocks on_none (set_Inputs_wo_grid s d) = constraint_blocks on_none d.
Proof. reflexivity. Qed.

Lemma outcome_createModel (on_none : none_rule) (self : EnergyHub) :
  outcome (EnergyHub.createModel on_none self) =
  (_ <- require_all (declaration_checks self.(inp)) ;;
   outcome (constraint_blocks on_none self.(inp))).
Proof.
  rewrite createModel_closed_eq. unfold createModel_closed.
  destruct (require_all _) as [[]|e]; [|reflexivity]. simpl.
  destruct (constraint_blocks _ _); reflexivity.
Qed.

Lemma built_within (on_none : none_rule) (self : EnergyHub) (mdl : ConcreteModel) :
  built on_none self mdl ->
  incl self.(inp).(First_hour) self.(inp).(Time) /\
  incl self.(inp).(Solar_inputs) self.(inp).(Inputs) /\
  incl self.(inp).(Dispatchable_Tech) self.(inp).(Inputs) /\
  incl self.(inp).(CHP_Tech) self.(inp).(Inputs).
Proof.
  intro Hb. destruct (built_inv _ _ _ Hb) as [Hc _].
  pose proof (require_all_Ok _ _ Hc) as H. unfold declaration_checks in H.
  cbv zeta in H. repeat split; apply within_ok_incl.
  - apply (H _ (ValueError "First_hour")). simpl. tauto.
  - apply (H _ (ValueError "Solar_inputs")). simpl. tauto.
  - apply (H _ (ValueError "Dispatchable_Tech")). simpl. tauto.
  - apply (H _ (ValueError "CHP_Tech")). simpl. tauto.
Qed.

(** The first membership check that fails decides the exception. *)
Lemma createModel_within (on_none : none_rule) (self : EnergyHub) :
  let d := self.(inp) in
  (~ incl d.(First_hour) d.(Time) ->
   EnergyHub.createModel on_none self = Raise (ValueError "First_hour")) /\
  (incl d.(First_hour) d.(Time) -> ~ incl d.(Solar_inputs) d.(Inputs) ->
   EnergyHub.createModel on_none self = Raise (ValueError "Solar_inputs")) /\
  (incl d.(First_hour) d.(Time) -> incl d.(Solar_inputs) d.(Inputs) ->
   ~ incl d.(Dispatchable_Tech) d.(Inputs) ->
   EnergyHub.createModel on_none self = Raise (ValueError "Dispatchable_Tech")) /\
  (incl d.(First_hour) d.(Time) -> incl d.(Solar_inputs) d.(Inputs) ->
   incl d.(Dispatchable_Tech) d.(Inputs) -> ~ incl d.(CHP_Tech) d.(Inputs) ->
   EnergyHub.createModel on_none self = Raise (ValueError "CHP_Tech")).
Proof.
  intro d. rewrite createModel_closed_eq. unfold createModel_closed.
  unfold declaration_checks. cbv zeta. cbn [require_all]. fold d.
  repeat split.
  - intro H1. rewrite (within_ok_false _ _ H1). reflexivity.
  - intros H1 H2. rewrite (proj2 (within_ok_incl _ _) H1).
    rewrite (within_ok_false _ _ H2). reflexivity.
  - intros H1 H2 H3. rewrite (proj2 (within_ok_incl _ _) H1).
    rewrite (proj2 (within_ok_incl _ _) H2).
    rewrite (within_ok_false _ _ H3). reflexivity.
  - intros H1 H2 H3 H4. rewrite (proj2 (within_ok_incl _ _) H1).
    rewrite (proj2 (within_ok_incl _ _) H2).
    rewrite (proj2 (within_ok_incl _ _) H3).
    rewrite (within_ok_false _ _ H4). reflexivity.
Qed.

Lemma import_module_Ok (path : module_path) (name : string) (md : InputModule) :
  import_module path name = Ok md -> path name = Some md.
Proof.
  unfold import_module. destruct (is_relative name); [discriminate|].
  destruct (String.eqb name ""); [discriminate|].
  destruct (find _ _); [discriminate|].
  destruct (path name); [|discriminate]. congruence.
Qed.

Lemma init_createModel (on_none : none_rule) (path : module_path)
    (input_file : string) (n : Z) (md : InputModule) :
  import_module path input_file = Ok md ->
  EnergyHub.__init__ on_none path input_file n
  = EnergyHub.createModel on_none
      {| InputFile := input_file; inp := md; num_of_pfp := n; m := None |}.
Proof. intro H. unfold EnergyHub.__init__. rewrite H. reflexivity. Qed.


(** C7, as the code has it.  [EnergyHub(input_file, n)] imports the
    data module and builds the model at once, without a validation step
    of its own.  Set membership is checked while the sets are
    constructed: construction stops at the first of [First_hour],
    [Solar_inputs], [Dispatchable_Tech] and [CHP_Tech] that has an
    element outside its parent set, with a [ValueError] that names that
    set.  The numbers of the efficiencies, loss rates, lifetimes and of
    the interest rate are not examined: whatever numbers they are given
    under the same keys, the run ends the same way. *)
Theorem init_checks_membership_not_ranges (on_none : none_rule)
    (path : module_path) (input_file : string) (n : Z) (md : InputModule) :
  import_module path input_file = Ok md ->
  EnergyHub.__init__ on_none path input_file n
    = EnergyHub.createModel on_none
        {| InputFile := input_file; inp := md; num_of_pfp := n; m := None |} /\
  (~ incl md.(First_hour) md.(Time) ->
   EnergyHub.__init__ on_none path input_file n = Raise (ValueError "First_hour")) /\
  (incl md.(First_hour) md.(Time) -> ~ incl md.(Solar_inputs) md.(Inputs) ->
   EnergyHub.__init__ on_none path input_file n = Raise (ValueError "Solar_inputs")) /\
  (incl md.(First_hour) md.(Time) -> incl md.(Solar_inputs) md.(Inputs) ->
   ~ incl md.(Dispatchable_Tech) md.(Inputs) ->
   EnergyHub.__init__ on_none path input_file n
     = Raise (ValueError "Dispatchable_Tech")) /\
  (incl md.(First_hour) md.(Time) -> incl md.(Solar_inputs) md.(Inputs) ->
   incl md.(Dispatchable_Tech) md.(Inputs) -> ~ incl md.(CHP_Tech) md.(Inputs) ->
   EnergyHub.__init__ on_none path input_file n = Raise (ValueError "CHP_Tech")) /\
  (forall (g : string -> index -> Q) (path' : module_path),
     import_module path' input_file
       = Ok (with_values physical_parameters g md) ->
     outcome (EnergyHub.__init__ on_none path' input_file n)
       = outcome (EnergyHub.__init__ on_none path input_file n)).
Proof.
  intro Hp. pose proof (init_createModel on_none _ _ n _ Hp) as Hinit.
  split; [exact Hinit|]. rewrite Hinit.
  destruct (createModel_within on_none
              {| InputFile := input_file; inp := md; num_of_pfp := n; m := None |})
    as [H1 [H2 [H3 H4]]].
  split; [exact H1|]. split; [exact H2|]. split; [exact H3|]. split; [exact H4|].
  intros g path' Hp'. rewrite (init_createModel on_none _ _ n _ Hp').
  rewrite !outcome_createModel. cbn [inp].
  rewrite declaration_checks_with_values, constraint_blocks_physical.
  reflexivity.
Qed.

Lemma init_checks_membership_not_ranges_witness :
  EnergyHub.__init__ NoneRaises sample_path "Misdeclared" 10
    = Raise (ValueError "Solar_inputs") /\
  outcome (EnergyHub.__init__ NoneRaises
             (fun _ => Some (with_values physical_parameters unphysical_numbers
                               Storage_only))
             "Storage_only" 10)
    = outcome (EnergyHub.__init__ NoneRaises sample_path "Storage_only" 10) /\
  lookup [heat]
    (with_values physical_parameters unphysical_numbers Storage_only).(Storage_charging_eff)
    = Some 7%Q /\
  lookup [heat]
    (with_values physical_parameters unphysical_numbers Storage_only).(Lifetime_stor)
    = Some (-3)%Q.
Proof.
  split; [|split; [|split; reflexivity]].
  - refine (proj1 (proj2 (proj2
      (init_checks_membership_not_ranges NoneRaises sample_path "Misdeclared" 10
         Misdeclared eq_refl))) _ _).
    + intros a [Ha|[]]. left. exact Ha.
    + intro H. destruct (H pv (or_introl eq_refl)) as [E|[]]. discriminate E.
  - exact (proj2 (proj2 (proj2 (proj2 (proj2
      (init_checks_membership_not_ranges NoneRaises sample_path "Storage_only" 10
         Storage_only eq_refl)))))
      unphysical_numbers
      (fun _ => Some (with_values physical_parameters unphysical_numbers Storage_only))
      eq_refl).
Defined.

(** C7 fails as stated: with every efficiency, loss rate and lifetime
    and the interest rate at [-3], the instance is constructed and the
    model is built; no exception is raised. *)
Lemma validation_counterexample :
  lookup [heat] Unphysical_storage_only.(Storage_charging_eff) = Some (-3)%Q /\
  lookup [heat] Unphysical_storage_only.(Storage_standing_losses) = Some (-3)%Q /\
  Unphysical_storage_only.(Interest_rate) = (-3)%Q /\
  exists h,
    EnergyHub.__init__ NoneRaises sample_path "Unphysical_storage_only" 10 = Ok h /\
    getitem_param (the_model (Ok h)) "Storage_charging_eff" [heat] = Ok (-3)%Q /\
    getitem_param (the_model (Ok h)) "Interest_rate" [] = Ok (-3)%Q.
Proof.
  split; [reflexivity|]. split; [reflexivity|]. split; [reflexivity|].
  eexists. split; [vm_compute; reflexivity|].
  split; vm_compute; reflexivity.
Qed.

(* ================================================================== *)
(** ** [Inputs_wo_grid] *)

(** C10.  Construction fails when [First_hour] is not within [Time] or
    one of [Solar_inputs], [Dispatchable_Tech], [CHP_Tech] is not
    within [Inputs].  [Inputs_wo_grid] is not restricted: replacing it
    by any set leaves the way the run ends unchanged, and whenever a
    model is built from the data, a model is built with any other
    [Inputs_wo_grid], which then holds the elements of that set. *)
Theorem Inputs_wo_grid_is_unrestricted (on_none : none_rule) (self : EnergyHub) :
  let d := self.(inp) in
  (~ incl d.(First_hour) d.(Time) \/ ~ incl d.(Solar_inputs) d.(Inputs) \/
   ~ incl d.(Dispatchable_Tech) d.(Inputs) \/ ~ incl d.(CHP_Tech) d.(Inputs) ->
   is_ok (EnergyHub.createModel on_none self) = false) /\
  (forall s,
     outcome (EnergyHub.createModel on_none (with_inp (set_Inputs_wo_grid s d) self))
       = outcome (EnergyHub.createModel on_none self)) /\
  (forall s mdl,
     built on_none self mdl ->
     exists mdl',
       built on_none (with_inp (set_Inputs_wo_grid s d) self) mdl' /\
       getattr mdl' "Inputs_wo_grid" = Ok (SetC (pe.ordered s))).
Proof.
  intro d.
  assert (Hout : forall s,
     outcome (EnergyHub.createModel on_none (with_inp (set_Inputs_wo_grid s d) self))
       = outcome (EnergyHub.createModel on_none self)).
  { intro s. rewrite !outcome_createModel. cbn [inp with_inp].
    rewrite constraint_blocks_set_Inputs_wo_grid. reflexivity. }
  split; [|split].
  - intro Hv. destruct (EnergyHub.createModel on_none self) as [h|e] eqn:E;
      [|reflexivity].
    exfalso.
    assert (Hb : built on_none self (the_model (EnergyHub.createModel on_none self))).
    { apply built_intro. now rewrite E. }
    destruct (built_within _ _ _ Hb) as [H1 [H2 [H3 H4]]]. fold d in H1, H2, H3, H4.
    tauto.
  - exact Hout.
  - intros s mdl [h [Hh _]].
    assert (Hok : is_ok (EnergyHub.createModel on_none
                           (with_inp (set_Inputs_wo_grid s d) self)) = true).
    { specialize (Hout s). rewrite Hh in Hout.
      set (r := EnergyHub.createModel on_none
                  (with_inp (set_Inputs_wo_grid s d) self)) in *.
      destruct r; [reflexivity | discriminate Hout]. }
    pose proof (built_intro _ _ Hok) as Hb. eexists. split; [exact Hb|].
    apply (built_getattr _ _ _ _ _ Hb). reflexivity.
Qed.

Lemma Inputs_wo_grid_is_unrestricted_witness :
  (~ incl Misdeclared.(Solar_inputs) Misdeclared.(Inputs) /\
   is_ok (EnergyHub.createModel NoneSkips (fresh "Misdeclared" Misdeclared)) = false) /\
  (~ incl [wind] Firstscript.(Inputs) /\
   exists mdl',
     built NoneSkips
       (with_inp (set_Inputs_wo_grid [wind] Firstscript) (fresh "Firstscript" Firstscript))
       mdl' /\
     getattr mdl' "Inputs_wo_grid" = Ok (SetC (pe.ordered [wind]))) /\
  (~ incl [grid; boiler] Storage_only.(Inputs) /\
   exists mdl',
     built NoneRaises
       (with_inp (set_Inputs_wo_grid [grid; boiler] Storage_only)
          (fresh "Storage_only" Storage_only))
       mdl' /\
     getattr mdl' "Inputs_wo_grid" = Ok (SetC (pe.ordered [grid; boiler]))).
Proof.
  assert (Hmis : ~ incl Misdeclared.(Solar_inputs) Misdeclared.(Inputs)).
  { intro H. destruct (H pv (or_introl eq_refl)) as [E|[]]. discriminate E. }
  split; [|split].
  - split; [exact Hmis|].
    apply (proj1 (Inputs_wo_grid_is_unrestricted NoneSkips
                    (fresh "Misdeclared" Misdeclared))).
    right. left. exact Hmis.
  - split.
    + intro H. destruct (H wind (or_introl eq_refl)) as [E|[E|[E|[]]]]; discriminate E.
    + exact (proj2 (proj2
        (Inputs_wo_grid_is_unrestricted NoneSkips (fresh "Firstscript" Firstscript)))
        [wind] Firstscript_model built_Firstscript).
  - split.
    + intro H. destruct (H grid (or_introl eq_refl)).
    + exact (proj2 (proj2
        (Inputs_wo_grid_is_unrestricted NoneRaises (fresh "Storage_only" Storage_only)))
        [grid; boiler] Storage_only_model built_Storage_only).
Defined.

(* ================================================================== *)
(** ** The size of the model *)

Lemma length_flat_map_const {A B : Type} (f : A -> list B) (l : list A) (k : nat) :
  (forall a, List.length (f a) = k) ->
  List.length (flat_map f l) = (List.length l * k)%nat.
Proof.
  intro H. induction l as [|a l IH]; simpl.
  - reflexivity.
  - rewrite length_app, H, IH. reflexivity.
Qed.

Lemma length_product (sets : list (list atom)) :
  List.length (product sets)
  = fold_right (fun s n => (List.length s * n)%nat) 1%nat sets.
Proof.
  induction sets as [|s sets IH]; simpl.
  - reflexivity.
  - rewrite (length_flat_map_const _ _ (List.length (product sets))).
    + now rewrite IH.
    + intro a. apply length_map.
Qed.

(** A rule that returns an expression at every index fills the block. *)
Lemma build_length (on_none : none_rule) (name : string)
    (rule : index -> result (option relexpr)) (idx : list index)
    (body : list (index * relexpr)) :
  (forall i, rule i <> Ok None) ->
  pe.build on_none name rule idx = Ok body ->
  List.length body = List.length idx.
Proof.
  intro Hrule. revert body. induction idx as [|i idx IH]; simpl; intros body H.
  - inversion H. reflexivity.
  - apply bind_Ok in H. destruct H as [r [Hr H]].
    destruct r as [e|]; [|exfalso; exact (Hrule _ Hr)].
    apply bind_Ok in H. destruct H as [rest [Hrest H]].
    inversion H; subst. simpl. f_equal. now apply IH.
Qed.

Lemma built_size (on_none : none_rule) (self : EnergyHub) (mdl : ConcreteModel) :
  built on_none self mdl ->
  num_variables mdl = expected_variables self.(inp) /\
  num_constraints mdl = expected_constraints self.(inp).
Proof.
  intro Hb.
  destruct (built_inv _ _ _ Hb) as [_ [lb [cc [si [fc [Hmdl [Hlb [Hcc [Hsi Hfc]]]]]]]]].
  apply Fixed_cost_constr_empty in Hfc. subst fc.
  apply build_length in Hlb, Hcc, Hsi.
  - subst mdl. unfold num_variables, num_constraints.
    rewrite !map_app, !list_sum_app.
    unfold declared. cbv zeta.
    cbn [map list_sum snd component_size List.length].
    rewrite Hlb, Hcc, Hsi, !length_product.
    unfold expected_variables, expected_constraints.
    unfold list_sum. cbn [fold_right List.length].
    rewrite !Nat.mul_1_r. split; lia.
  - intros i H. apply rule3_Ok in H. destruct H as [a [b [c [_ H]]]].
    apply Solar_input_rule_Ok in H. discriminate.
  - intros i H. apply rule3_Ok in H. destruct H as [a [b [c [_ H]]]].
    apply Capacity_constraint_rule_Ok in H. discriminate.
  - intros i H. apply rule2_Ok in H. destruct H as [a [b [_ H]]].
    apply Load_balance_rule_Ok in H. destruct H as [? [_ [_ [_ H]]]]. discriminate.
Qed.

(** X15.  A model that the program builds has [4 * T * O + 2 * O + 5]
    variables and [T * O] constraints, for [T] time steps and [O]
    outputs: four variables and one load balance per time step and
    output, two variables per output and the five cost and carbon
    variables. *)
Theorem model_size (self : EnergyHub) (mdl : ConcreteModel) :
  built NoneRaises self mdl ->
  let T := List.length (pe.ordered self.(inp).(Time)) in
  let O := List.length (pe.ordered self.(inp).(Outputs)) in
  num_variables mdl = (4 * T * O + 2 * O + 5)%nat /\
  num_constraints mdl = (T * O)%nat.
Proof.
  intros Hb T O. destruct (built_size _ _ _ Hb) as [Hv Hc].
  pose proof (built_NoneRaises _ _ Hb) as HI.
  destruct (built_within _ _ _ Hb) as [_ [HS [HD _]]].
  rewrite HI in HS, HD.
  assert (ES : self.(inp).(Solar_inputs) = []).
  { destruct (Solar_inputs (inp self)) as [|x l]; [reflexivity|].
    destruct (HS x (or_introl eq_refl)). }
  assert (ED : self.(inp).(Dispatchable_Tech) = []).
  { destruct (Dispatchable_Tech (inp self)) as [|x l]; [reflexivity|].
    destruct (HD x (or_introl eq_refl)). }
  rewrite Hv, Hc. unfold expected_variables, expected_constraints.
  rewrite HI, ES, ED. cbn [pe.ordered fold_left List.length].
  fold T O. split; lia.
Qed.

Lemma model_size_witness :
  num_variables Storage_only_model = 15%nat /\
  num_constraints Storage_only_model = 2%nat.
Proof.
  exact (model_size (fresh "Storage_only" Storage_only) Storage_only_model
           built_Storage_only).
Defined.

(* ================================================================== *)
(** ** Further facts about the blocks *)

Lemma In_product3 (s1 s2 s3 : list atom) (a b c : atom) :
  In [a; b; c] (product [s1; s2; s3]) <-> In a s1 /\ In b s2 /\ In c s3.
Proof.
  rewrite In_product. split.
  - intro H. inversion H as [|? ? ? ? Ha H']; subst.
    inversion H' as [|? ? ? ? Hb H'']; subst.
    inversion H'' as [|? ? ? ? Hc H''']; subst. tauto.
  - intros [Ha [Hb Hc]]. repeat constructor; assumption.
Qed.

(** A rule that returns an expression at every index fills the block
    with one constraint per index, in the order of the index set. *)
Lemma build_indices (on_none : none_rule) (name : string)
    (rule : index -> result (option relexpr)) (idx : list index)
    (body : list (index * relexpr)) :
  (forall i, rule i <> Ok None) ->
  pe.build on_none name rule idx = Ok body ->
  map fst body = idx.
Proof.
  intro Hrule. revert body. induction idx as [|i idx IH]; simpl; intros body H.
  - inversion H. reflexivity.
  - apply bind_Ok in H. destruct H as [r [Hr H]].
    destruct r as [e|]; [|exfalso; exact (Hrule _ Hr)].
    apply bind_Ok in H. destruct H as [rest [Hrest H]].
    inversion H; subst. simpl. f_equal. now apply IH.
Qed.

Lemma Load_balance_never_None (m : ConcreteModel) (i : index) :
  rule2 "Load_balance" (Load_balance_rule m) i <> Ok None.
Proof.
  intro H. apply rule2_Ok in H. destruct H as [a [b [_ H]]].
  apply Load_balance_rule_Ok in H. destruct H as [? [_ [_ [_ H]]]]. discriminate.
Qed.

Lemma Capacity_constraint_never_None (m : ConcreteModel) (i : index) :
  rule3 "Capacity_constraint" (Capacity_constraint_rule m) i <> Ok None.
Proof.
  intro H. apply rule3_Ok in H. destruct H as [a [b [c [_ H]]]].
  apply Capacity_constraint_rule_Ok in H. discriminate.
Qed.

Lemma Solar_input_never_None (m : ConcreteModel) (i : index) :
  rule3 "Solar_input" (Solar_input_rule m) i <> Ok None.
Proof.
  intro H. apply rule3_Ok in H. destruct H as [a [b [c [_ H]]]].
  apply Solar_input_rule_Ok in H. discriminate.
Qed.

Lemma Capacity_constraint_rule_reads (m : ConcreteModel) (t disp out : atom)
    (r : option relexpr) :
  Capacity_constraint_rule m t disp out = Ok r ->
  getitem_param m "Cmatrix" [out; disp] = Ok (param m "Cmatrix" [out; disp]).
Proof.
  unfold Capacity_constraint_rule. intro H.
  apply bind_Ok in H. destruct H as [p [_ H]].
  apply bind_Ok in H. destruct H as [c [Hc _]].
  now rewrite (getitem_param_param _ _ _ _ Hc).
Qed.

Lemma Solar_input_rule_reads (m : ConcreteModel) (t sol out : atom)
    (r : option relexpr) :
  Solar_input_rule m t sol out = Ok r ->
  getitem_param m "P_solar" [t; sol] = Ok (param m "P_solar" [t; sol]).
Proof.
  unfold Solar_input_rule. intro H.
  apply bind_Ok in H. destruct H as [p [_ H]].
  apply bind_Ok in H. destruct H as [c [Hc _]].
  now rewrite (getitem_param_param _ _ _ _ Hc).
Qed.

Lemma Capacity_constraint_rule_Some (m : ConcreteModel) (t disp out : atom)
    (r : relexpr) :
  Capacity_constraint_rule m t disp out = Ok (Some r) ->
  r = LeExpr (Mul (VarRef "P" [t; disp]) (Num (param m "Cmatrix" [out; disp])))
             (VarRef "Capacity" [disp]).
Proof. intro H. apply Capacity_constraint_rule_Ok in H. congruence. Qed.

Lemma Solar_input_rule_Some (m : ConcreteModel) (t sol out : atom) (r : relexpr) :
  Solar_input_rule m t sol out = Ok (Some r) ->
  r = EqExpr (VarRef "P" [t; sol])
             (Mul (Num (param m "P_solar" [t; sol])) (VarRef "Capacity" [sol])).
Proof. intro H. apply Solar_input_rule_Ok in H. congruence. Qed.

(** The first three blocks of the model that construction has attached
    when its last statement begins, each with the call that built it. *)
Lemma before_Fixed_cost_constr_inv (on_none : none_rule) (d : InputModule)
    (m3 : ConcreteModel) :
  before_Fixed_cost_constr on_none d = Ok m3 ->
  let T := pe.ordered d.(Time) in
  let S := pe.ordered d.(Solar_inputs) in
  let D := pe.ordered d.(Dispatchable_Tech) in
  let O := pe.ordered d.(Outputs) in
  require_all (declaration_checks d) = Ok tt /\
  exists lb cc si,
    m3 = declared d ++
         [ ("Load_balance", ConstraintC lb);
           ("Capacity_constraint", ConstraintC cc);
           ("Solar_input", ConstraintC si) ] /\
    pe.build on_none "Load_balance"
      (rule2 "Load_balance" (Load_balance_rule (declared d)))
      (product [T; O]) = Ok lb /\
    pe.build on_none "Capacity_constraint"
      (rule3 "Capacity_constraint"
         (Capacity_constraint_rule (declared d ++ [("Load_balance", ConstraintC lb)])))
      (product [T; D; O]) = Ok cc /\
    pe.build on_none "Solar_input"
      (rule3 "Solar_input"
         (Solar_input_rule ((declared d ++ [("Load_balance", ConstraintC lb)])
                            ++ [("Capacity_constraint", ConstraintC cc)])))
      (product [T; S; O]) = Ok si.
Proof.
  unfold before_Fixed_cost_constr. cbv zeta. intro H.
  apply bind_Ok in H. destruct H as [[] [Hc H]].
  apply bind_Ok in H. destruct H as [lb [Hlb H]].
  apply bind_Ok in H. destruct H as [cc [Hcc H]].
  apply bind_Ok in H. destruct H as [si [Hsi H]].
  injection H as <-.
  split; [assumption|]. exists lb, cc, si. repeat split; assumption.
Qed.

(** [createModel] is that model followed by the statement for
    [Fixed_cost_constr]. *)
Lemma createModel_last_statement (on_none : none_rule) (self : EnergyHub) :
  EnergyHub.createModel on_none self =
  (m3 <- before_Fixed_cost_constr on_none self.(inp) ;;
   m4 <- setattr m3 "Fixed_cost_constr"
           (pe.Constraint on_none m3 "Fixed_cost_constr" ["Inputs"]
              (rule1 "Fixed_cost_constr" (Fixed_cost_constr_rule m3))) ;;
   Ok {| InputFile := self.(InputFile); inp := self.(inp);
         num_of_pfp := self.(num_of_pfp); m := Some m4 |}).
Proof.
  rewrite createModel_closed_eq.
  unfold createModel_closed, before_Fixed_cost_constr, constraint_blocks.
  cbv zeta.
  destruct (require_all _) as [[]|e]; [|reflexivity]. cbn [bind].
  destruct (pe.build on_none "Load_balance" _ _) as [lb|e]; [|reflexivity].
  cbn [bind].
  destruct (pe.build on_none "Capacity_constraint" _ _) as [cc|e]; [|reflexivity].
  cbn [bind].
  destruct (pe.build on_none "Solar_input" _ _) as [si|e]; [|reflexivity].
  cbn [bind].
  unfold setattr, pe.Constraint, index_set. cbn [mapM].
  unfold get_set.
  rewrite (getattr_app_l _ [("Solar_input", ConstraintC si)] "Inputs" _
             (getattr_app_l _ [("Capacity_constraint", ConstraintC cc)] "Inputs" _
                (getattr_app_l (declared self.(inp))
                   [("Load_balance", ConstraintC lb)] "Inputs" _ eq_refl))).
  cbn [bind].
  destruct (pe.build on_none "Fixed_cost_constr" _ _) as [fc|e]; [|reflexivity].
  cbn [bind]. rewrite <- !app_assoc. reflexivity.
Qed.

Lemma before_Firstscript :
  before_Fixed_cost_constr NoneRaises Firstscript = Ok Firstscript_partial.
Proof. vm_compute. reflexivity. Qed.

Lemma feasible_partial_dispatch : feasible Firstscript_partial dispatch.
Proof. apply feasibleb_feasible. vm_compute. reflexivity. Qed.

(** X1.  When construction reaches its last statement, the model holds
    in the block [Capacity_constraint], for every time step [t], every
    dispatchable technology [disp] and every output [out] of the input
    data, at index [(t, disp, out)] the inequality
    [P[t,disp] * Cmatrix[out,disp] <= Capacity[disp]], with the number of
    [Cmatrix] taken from the input data, and every assignment feasible
    for that model satisfies it: the capacity bounds the output of the
    technology to each service separately. *)
Theorem Capacity_constraint_inequality (on_none : none_rule) (d : InputModule)
    (m3 : ConcreteModel) (t disp out : atom) :
  before_Fixed_cost_constr on_none d = Ok m3 ->
  In t d.(Time) ->
  In disp d.(Dispatchable_Tech) ->
  In out d.(Outputs) ->
  let c := param m3 "Cmatrix" [out; disp] in
  (exists body,
     getattr m3 "Capacity_constraint" = Ok (ConstraintC body) /\
     In ([t; disp; out],
         LeExpr (Mul (VarRef "P" [t; disp]) (Num c)) (VarRef "Capacity" [disp]))
        body) /\
  lookup [out; disp] d.(Cmatrix) = Some c /\
  forall a, feasible m3 a ->
    (a "P" [t; disp] * c <= a "Capacity" [disp])%Q.
Proof.
  intros Hb Ht Hd Ho c.
  destruct (before_Fixed_cost_constr_inv _ _ _ Hb)
    as [_ [lb [cc [si [Hmdl [_ [Hcc _]]]]]]].
  assert (Hidx : In [t; disp; out]
            (product [pe.ordered d.(Time);
                      pe.ordered d.(Dispatchable_Tech);
                      pe.ordered d.(Outputs)])).
  { apply In_product3. repeat split; now apply In_ordered. }
  destruct (build_sound _ _ _ _ _ Hcc _ Hidx) as [[r [Hr Hin]]|[Hr _]];
    unfold rule3 in Hr; [|apply Capacity_constraint_rule_Ok in Hr; discriminate].
  pose proof (Capacity_constraint_rule_reads _ _ _ _ _ Hr) as Hread.
  apply Capacity_constraint_rule_Some in Hr. subst r.
  assert (Ec : param (declared d ++ [("Load_balance", ConstraintC lb)])
                 "Cmatrix" [out; disp] = c).
  { unfold c. rewrite Hmdl.
    rewrite (param_app_l (declared d) _ "Cmatrix" _ _ eq_refl).
    now rewrite (param_app_l (declared d) _ "Cmatrix" _ _ eq_refl). }
  rewrite Ec in Hin, Hread.
  split; [|split].
  - exists cc. split; [rewrite Hmdl; reflexivity | exact Hin].
  - exact (proj2 (getitem_param_lookup _ _ "Cmatrix" _ _ _
             (getattr_app_l (declared d) _ "Cmatrix" _ eq_refl) Hread)).
  - intros a Ha.
    assert (Hccin : In ("Capacity_constraint", ConstraintC cc) m3).
    { rewrite Hmdl. apply in_or_app. right. right. now left. }
    exact (Ha _ _ Hccin _ _ Hin).
Qed.

Lemma Capacity_constraint_inequality_witness :
  (dispatch "P" [Int 2; boiler] * (9 # 10) <= dispatch "Capacity" [boiler])%Q /\
  lookup [elec; grid] Firstscript.(Cmatrix)
    = Some (param Firstscript_partial "Cmatrix" [elec; grid]).
Proof.
  split.
  - exact (proj2 (proj2
      (Capacity_constraint_inequality NoneRaises Firstscript
         Firstscript_partial (Int 2) boiler heat before_Firstscript
         (or_intror (or_introl eq_refl)) (or_intror (or_introl eq_refl))
         (or_intror (or_introl eq_refl)))) dispatch feasible_partial_dispatch).
  - exact (proj1 (proj2
      (Capacity_constraint_inequality NoneRaises Firstscript
         Firstscript_partial (Int 1) grid elec before_Firstscript
         (or_introl eq_refl) (or_introl eq_refl) (or_introl eq_refl)))).
Defined.

(** X2.  When construction reaches its last statement, the model holds
    in the block [Solar_input], for every time step [t], every solar
    technology [sol] and every output [out] of the input data, at index
    [(t, sol, out)] the equality
    [P[t,sol] == P_solar[t,sol] * Capacity[sol]], the same for every
    [out], with the number of [P_solar] taken from the input data, and
    every assignment feasible for that model satisfies it exactly. *)
Theorem Solar_input_equality (on_none : none_rule) (d : InputModule)
    (m3 : ConcreteModel) (t sol out : atom) :
  before_Fixed_cost_constr on_none d = Ok m3 ->
  In t d.(Time) ->
  In sol d.(Solar_inputs) ->
  In out d.(Outputs) ->
  let ps := param m3 "P_solar" [t; sol] in
  (exists body,
     getattr m3 "Solar_input" = Ok (ConstraintC body) /\
     In ([t; sol; out],
         EqExpr (VarRef "P" [t; sol]) (Mul (Num ps) (VarRef "Capacity" [sol])))
        body) /\
  lookup [t; sol] d.(P_solar) = Some ps /\
  forall a, feasible m3 a ->
    (a "P" [t; sol] == ps * a "Capacity" [sol])%Q.
Proof.
  intros Hb Ht Hs Ho ps.
  destruct (before_Fixed_cost_constr_inv _ _ _ Hb)
    as [_ [lb [cc [si [Hmdl [_ [_ Hsi]]]]]]].
  assert (Hidx : In [t; sol; out]
            (product [pe.ordered d.(Time);
                      pe.ordered d.(Solar_inputs);
                      pe.ordered d.(Outputs)])).
  { apply In_product3. repeat split; now apply In_ordered. }
  destruct (build_sound _ _ _ _ _ Hsi _ Hidx) as [[r [Hr Hin]]|[Hr _]];
    unfold rule3 in Hr; [|apply Solar_input_rule_Ok in Hr; discriminate].
  pose proof (Solar_input_rule_reads _ _ _ _ _ Hr) as Hread.
  apply Solar_input_rule_Some in Hr. subst r.
  assert (Ec : param ((declared d ++ [("Load_balance", ConstraintC lb)])
                      ++ [("Capacity_constraint", ConstraintC cc)])
                 "P_solar" [t; sol] = ps).
  { unfold ps. rewrite Hmdl.
    rewrite (param_app_l (declared d) _ "P_solar" _ _ eq_refl).
    rewrite <- app_assoc.
    now rewrite (param_app_l (declared d) _ "P_solar" _ _ eq_refl). }
  rewrite Ec in Hin, Hread.
  split; [|split].
  - exists si. split; [rewrite Hmdl; reflexivity | exact Hin].
  - rewrite <- app_assoc in Hread.
    exact (proj2 (getitem_param_lookup _ _ "P_solar" _ _ _
             (getattr_app_l (declared d) _ "P_solar" _ eq_refl) Hread)).
  - intros a Ha.
    assert (Hsiin : In ("Solar_input", ConstraintC si) m3).
    { rewrite Hmdl. apply in_or_app. right. right. right. now left. }
    exact (Ha _ _ Hsiin _ _ Hin).
Qed.

Lemma Solar_input_equality_witness :
  (dispatch "P" [Int 1; pv] == (1 # 2) * dispatch "Capacity" [pv])%Q /\
  lookup [Int 1; pv] Firstscript.(P_solar)
    = Some (param Firstscript_partial "P_solar" [Int 1; pv]).
Proof.
  split.
  - exact (proj2 (proj2
      (Solar_input_equality NoneRaises Firstscript
         Firstscript_partial (Int 1) pv heat before_Firstscript
         (or_introl eq_refl) (or_introl eq_refl) (or_intror (or_introl eq_refl))))
      dispatch feasible_partial_dispatch).
  - exact (proj1 (proj2
      (Solar_input_equality NoneRaises Firstscript
         Firstscript_partial (Int 1) pv elec before_Firstscript
         (or_introl eq_refl) (or_introl eq_refl) (or_introl eq_refl)))).
Defined.

(** X3.  In a built model the block [Load_balance] holds exactly one
    constraint per index of [Time x Outputs], in the order of the index
    set, and none besides. *)
Theorem block_indices (on_none : none_rule) (self : EnergyHub)
    (mdl : ConcreteModel) :
  built on_none self mdl ->
  exists lb,
    getattr mdl "Load_balance" = Ok (ConstraintC lb) /\
    map fst lb = product [pe.ordered self.(inp).(Time);
                          pe.ordered self.(inp).(Outputs)].
Proof.
  intro Hb.
  destruct (built_inv _ _ _ Hb) as [_ [lb [cc [si [fc [Hmdl [Hlb _]]]]]]].
  apply build_indices in Hlb; [|apply Load_balance_never_None].
  exists lb. subst mdl. split; [reflexivity | assumption].
Qed.

Lemma block_indices_witness :
  exists lb,
    getattr Storage_only_model "Load_balance" = Ok (ConstraintC lb) /\
    map fst lb = [[Int 1; heat]; [Int 2; heat]].
Proof.
  exact (block_indices NoneRaises (fresh "Storage_only" Storage_only)
           Storage_only_model built_Storage_only).
Defined.

(* ================================================================== *)
(** ** The data held by a built model *)

Lemma declaration_checks_params (d : InputModule) :
  declaration_checks d =
  [ (within_ok d.(First_hour) d.(Time), ValueError "First_hour");
    (within_ok d.(Solar_inputs) d.(Inputs), ValueError "Solar_inputs");
    (within_ok d.(Dispatchable_Tech) d.(Inputs), ValueError "Dispatchable_Tech");
    (within_ok d.(CHP_Tech) d.(Inputs), ValueError "CHP_Tech") ]
  ++ map (fun p => (keys_ok (snd (snd p)) (fst (snd p)), KeyError (fst p)))
         (dict_params d).
Proof. reflexivity. Qed.

Lemma lookup_Some_key (k : index) (dd : dict) (v : Q) :
  lookup k dd = Some v -> exists kv, In kv dd /\ fst kv = k.
Proof.
  induction dd as [|[k' v'] dd IH]; simpl; intro H; [discriminate|].
  destruct (index_eqb k k') eqn:E.
  - apply index_eqb_eq in E. exists (k', v'). split; [now left | now subst].
  - destruct (IH H) as [kv [Hin Hk]]. exists kv. split; [now right | assumption].
Qed.

Lemma getitem_param_spec (m : ConcreteModel) (name : string) (idx : list index)
    (dd : dict) (k : index) :
  getattr m name = Ok (ParamC idx dd None) ->
  getitem_param m name k =
  if memi k idx then
    match lookup k dd with
    | Some q => Ok q
    | None => Raise (ValueError name)
    end
  else Raise (KeyError name).
Proof. intro H. unfold getitem_param. rewrite H. reflexivity. Qed.

Lemma built_keys_ok (on_none : none_rule) (self : EnergyHub) (mdl : ConcreteModel)
    (name : string) (sets : list (list atom)) (dd : dict) :
  built on_none self mdl ->
  In (name, (sets, dd)) (dict_params self.(inp)) ->
  keys_ok dd sets = true.
Proof.
  intros Hb Hin. destruct (built_inv _ _ _ Hb) as [Hc _].
  apply (require_all_Ok _ _ Hc _ (KeyError name)).
  rewrite declaration_checks_params. apply in_or_app. right.
  apply in_map_iff. exists (name, (sets, dd)). split; [reflexivity | assumption].
Qed.

Lemma built_dict_param (on_none : none_rule) (self : EnergyHub) (mdl : ConcreteModel)
    (name : string) (sets : list (list atom)) (dd : dict) :
  built on_none self mdl ->
  In (name, (sets, dd)) (dict_params self.(inp)) ->
  getattr mdl name = Ok (ParamC (product (map pe.ordered sets)) dd None).
Proof.
  intros Hb Hin. apply (built_getattr _ _ _ _ _ Hb).
  unfold dict_params in Hin. cbv zeta in Hin. simpl in Hin.
  repeat (destruct Hin as [Hin|Hin];
          [injection Hin as <- <- <-; reflexivity|]).
  contradiction.
Qed.

(** X4.  A built model holds every dict parameter of the input data as
    it is: reading a parameter at a key of its dict yields the number
    stored there; at an index of its index set that is not a key of the
    dict it raises [ValueError], and outside its index set [KeyError],
    both naming the parameter.  The four scalar parameters read as the
    numbers of the input data. *)
Theorem parameters_hold_the_input_data (on_none : none_rule) (self : EnergyHub)
    (mdl : ConcreteModel) :
  built on_none self mdl ->
  (forall name sets dd,
     In (name, (sets, dd)) (dict_params self.(inp)) ->
     (forall k v, lookup k dd = Some v -> getitem_param mdl name k = Ok v) /\
     (forall k, In k (product (map pe.ordered sets)) -> lookup k dd = None ->
        getitem_param mdl name k = Raise (ValueError name)) /\
     (forall k, ~ In k (product (map pe.ordered sets)) ->
        getitem_param mdl name k = Raise (KeyError name))) /\
  (forall name q,
     In (name, q) (scalar_params self.(inp)) ->
     getitem_param mdl name [] = Ok q).
Proof.
  intro Hb. split.
  - intros name sets dd Hin.
    pose proof (built_dict_param _ _ _ _ _ _ Hb Hin) as Hg.
    pose proof (built_keys_ok _ _ _ _ _ _ Hb Hin) as Hk.
    split; [|split].
    + intros k v Hl. rewrite (getitem_param_spec _ _ _ _ k Hg), Hl.
      destruct (lookup_Some_key _ _ _ Hl) as [kv [Hkv Hfst]].
      unfold keys_ok in Hk. rewrite forallb_forall in Hk.
      specialize (Hk _ Hkv). rewrite Hfst in Hk. now rewrite Hk.
    + intros k Hi Hl. rewrite (getitem_param_spec _ _ _ _ k Hg), Hl.
      apply memi_In in Hi. now rewrite Hi.
    + intros k Hi. rewrite (getitem_param_spec _ _ _ _ k Hg).
      destruct (memi k _) eqn:E; [|reflexivity].
      apply memi_In in E. contradiction.
  - intros name q Hin. unfold scalar_params in Hin. simpl in Hin.
    unfold getitem_param.
    repeat (destruct Hin as [Hin|Hin];
            [injection Hin as <- <-;
             erewrite (built_getattr _ _ _ _ _ Hb) by reflexivity; reflexivity|]).
    contradiction.
Qed.

Lemma parameters_hold_the_input_data_witness :
  getitem_param Firstscript_model "Operating_costs" [boiler] = Ok (1 # 10)%Q /\
  getitem_param Storage_only_model "Loads" [Int 2; elec] = Raise (KeyError "Loads") /\
  getitem_param Storage_only_model "Interest_rate" [] = Ok (1 # 20)%Q.
Proof.
  split; [|split].
  - apply (proj1 (proj1 (parameters_hold_the_input_data NoneSkips
                           (fresh "Firstscript" Firstscript) Firstscript_model
                           built_Firstscript)
                    "Operating_costs" [Firstscript.(Inputs)]
                    Firstscript.(Operating_costs)
                    ltac:(unfold dict_params; simpl; tauto))).
    reflexivity.
  - apply (proj2 (proj2 (proj1 (parameters_hold_the_input_data NoneRaises
                           (fresh "Storage_only" Storage_only) Storage_only_model
                           built_Storage_only)
                    "Loads" [Storage_only.(Time); Storage_only.(Outputs)]
                    Storage_only.(Loads)
                    ltac:(unfold dict_params; simpl; tauto)))).
    intro H. apply In_product2 in H. destruct H as [_ H].
    apply In_ordered in H. destruct H as [H|[]]. discriminate H.
  - apply (proj2 (parameters_hold_the_input_data NoneRaises
                    (fresh "Storage_only" Storage_only) Storage_only_model
                    built_Storage_only)).
    unfold scalar_params. simpl. tauto.
Defined.




(* ================================================================== *)
(** ** Exceptions raised by construction *)

Lemma require_all_app (a b : list (bool * exn)) :
  require_all (a ++ b) = (_ <- require_all a ;; require_all b).
Proof.
  induction a as [|[c e] a IH]; simpl.
  - reflexivity.
  - destruct c; simpl; [assumption | reflexivity].
Qed.

Lemma require_all_true (checks : list (bool * exn)) :
  (forall c e, In (c, e) checks -> c = true) -> require_all checks = Ok tt.
Proof.
  induction checks as [|[c e] checks IH]; simpl; intro H; [reflexivity|].
  rewrite (H c e (or_introl eq_refl)). simpl. apply IH.
  intros c' e' Hin. apply (H c' e'). now right.
Qed.

Lemma keys_ok_false (dd : dict) (sets : list (list atom)) :
  (exists kv, In kv dd /\ ~ In (fst kv) (product (map pe.ordered sets))) ->
  keys_ok dd sets = false.
Proof.
  intros [kv [Hin Hout]]. destruct (keys_ok dd sets) eqn:E; [|reflexivity].
  exfalso. apply Hout. apply memi_In.
  unfold keys_ok in E. rewrite forallb_forall in E. now apply E.
Qed.

(** X6.  When the four membership restrictions hold, construction
    raises [KeyError] naming the first parameter, in declaration order,
    whose dict has a key outside its index set. *)
Theorem first_stray_key_raises_KeyError (on_none : none_rule) (self : EnergyHub)
    (pre post : list (string * (list (list atom) * dict)))
    (name : string) (sets : list (list atom)) (dd : dict) :
  let d := self.(inp) in
  incl d.(First_hour) d.(Time) ->
  incl d.(Solar_inputs) d.(Inputs) ->
  incl d.(Dispatchable_Tech) d.(Inputs) ->
  incl d.(CHP_Tech) d.(Inputs) ->
  dict_params d = pre ++ (name, (sets, dd)) :: post ->
  (forall n s x, In (n, (s, x)) pre -> keys_ok x s = true) ->
  (exists kv, In kv dd /\ ~ In (fst kv) (product (map pe.ordered sets))) ->
  EnergyHub.createModel on_none self = Raise (KeyError name).
Proof.
  intros d H1 H2 H3 H4 Hsplit Hpre Hbad.
  rewrite createModel_closed_eq. unfold createModel_closed.
  rewrite declaration_checks_params. fold d. rewrite Hsplit.
  rewrite map_app. cbn [map fst snd]. rewrite !require_all_app.
  rewrite require_all_true.
  - rewrite require_all_true.
    + cbn [bind require_all]. rewrite (keys_ok_false _ _ Hbad). reflexivity.
    + intros c e Hin. apply in_map_iff in Hin.
      destruct Hin as [[n [s x]] [E Hin]]. injection E as <- _.
      exact (Hpre _ _ _ Hin).
  - intros c e Hin. simpl in Hin.
    destruct Hin as [E|[E|[E|[E|[]]]]]; injection E as <- _;
      now apply within_ok_incl.
Qed.

Lemma first_stray_key_raises_KeyError_witness :
  EnergyHub.createModel NoneSkips (fresh "Stray_key" Stray_key)
    = Raise (KeyError "Cmatrix").
Proof.
  apply (first_stray_key_raises_KeyError NoneSkips (fresh "Stray_key" Stray_key)
           [ ("Loads", ([Stray_key.(Time); Stray_key.(Outputs)], Stray_key.(Loads)));
             ("Number_of_days", ([Stray_key.(Time)], Stray_key.(Number_of_days))) ]
           (skipn 3 (dict_params Stray_key))
           "Cmatrix" [Stray_key.(Outputs); Stray_key.(Inputs)] Stray_key.(Cmatrix)).
  - intros a [E|[]]. left. exact E.
  - intros a [].
  - intros a [E|[]]. left. exact E.
  - intros a [].
  - reflexivity.
  - intros n s x [E|[E|[]]]; injection E as _ <- <-; reflexivity.
  - exists ([heat; wind], 1%Q). split; [right; left; reflexivity|].
    intro H. apply In_product2 in H. destruct H as [H _].
    apply In_ordered in H. destruct H as [H|[]]. discriminate H.
Defined.

Lemma getitem_var_In (m : ConcreteModel) (name : string) (idx : list index)
    (dom : domain) (i : index) :
  getattr m name = Ok (VarC idx dom) -> In i idx ->
  getitem_var m name i = Ok (VarRef name i).
Proof.
  intros H Hi. unfold getitem_var. rewrite H. cbn [bind].
  apply memi_In in Hi. now rewrite Hi.
Qed.

Lemma getitem_param_In (m : ConcreteModel) (name : string) (idx : list index)
    (dd : dict) (i : index) :
  getattr m name = Ok (ParamC idx dd None) -> In i idx ->
  (exists q, getitem_param m name i = Ok q) \/
  getitem_param m name i = Raise (ValueError name).
Proof.
  intros H Hi. rewrite (getitem_param_spec _ _ _ _ i H).
  apply memi_In in Hi. rewrite Hi. destruct (lookup i dd); eauto.
Qed.

(** The items of the sum of the load balance, where every index is
    valid: they are computed, or a missing entry of [Cmatrix] raises. *)
Lemma Load_balance_items_outcome (m : ConcreteModel) (t out : atom)
    (idxP idxC : list index) (dom : domain) (dd : dict) (inputs : list atom) :
  getattr m "P" = Ok (VarC idxP dom) ->
  getattr m "Cmatrix" = Ok (ParamC idxC dd None) ->
  (forall i, In i inputs -> In [t; i] idxP /\ In [out; i] idxC) ->
  (exists items,
     mapM (fun inp =>
             p <- getitem_var m "P" [t; inp] ;;
             c <- getitem_param m "Cmatrix" [out; inp] ;;
             Ok (Mul p (Num c))) inputs = Ok items) \/
  mapM (fun inp =>
          p <- getitem_var m "P" [t; inp] ;;
          c <- getitem_param m "Cmatrix" [out; inp] ;;
          Ok (Mul p (Num c))) inputs = Raise (ValueError "Cmatrix").
Proof.
  intros HP HC. induction inputs as [|i inputs IH]; intro Hidx.
  - left. exists []. reflexivity.
  - cbn [mapM]. destruct (Hidx i (or_introl eq_refl)) as [Hp Hc].
    rewrite (getitem_var_In _ _ _ _ _ HP Hp). cbn [bind].
    destruct (getitem_param_In _ _ _ _ _ HC Hc) as [[q Hq]|Hq]; rewrite Hq.
    + cbn [bind].
      destruct IH as [[items Hi]|Hi].
      * intros j Hj. apply Hidx. now right.
      * rewrite Hi. left. eexists. reflexivity.
      * rewrite Hi. now right.
    + now right.
Qed.

(** The load-balance rule over the declared model, at an index of
    [Time x Outputs]: an equality, or a missing entry raises. *)
Lemma Load_balance_rule_outcome (d : InputModule) (t out : atom) :
  In t d.(Time) -> In out d.(Outputs) ->
  (exists r, Load_balance_rule (declared d) t out = Ok (Some r)) \/
  Load_balance_rule (declared d) t out = Raise (ValueError "Cmatrix") \/
  Load_balance_rule (declared d) t out = Raise (ValueError "Loads").
Proof.
  intros Ht Ho. unfold Load_balance_rule.
  change (get_set (declared d) "Inputs") with (@Ok (list atom) (pe.ordered d.(Inputs))).
  cbn [bind].
  assert (Hto : In [t; out] (product [pe.ordered d.(Time); pe.ordered d.(Outputs)])).
  { apply In_product2. split; now apply In_ordered. }
  destruct (Load_balance_items_outcome (declared d) t out _ _ _ _
              (pe.ordered d.(Inputs)) eq_refl eq_refl) as [[items Hi]|Hi].
  - intros i Hi. split; apply In_product2; split; try assumption;
      now apply In_ordered.
  - rewrite Hi. cbn [bind].
    rewrite (getitem_var_In (declared d) "Qout" _ _ _ eq_refl Hto). cbn [bind].
    rewrite (getitem_var_In (declared d) "Qin" _ _ _ eq_refl Hto). cbn [bind].
    destruct (getitem_param_In (declared d) "Loads" _ _ _ eq_refl Hto)
      as [[q Hq]|Hq]; rewrite Hq.
    + cbn [bind].
      rewrite (getitem_var_In (declared d) "P_export" _ _ _ eq_refl Hto).
      left. eexists. reflexivity.
    + right. right. reflexivity.
  - rewrite Hi. right. left. reflexivity.
Qed.

Lemma build_two_exceptions (on_none : none_rule) (name : string)
    (rule : index -> result (option relexpr)) (idx : list index) (e1 e2 : exn) :
  (forall i, In i idx ->
     (exists r, rule i = Ok (Some r)) \/ rule i = Raise e1 \/ rule i = Raise e2) ->
  (exists body, pe.build on_none name rule idx = Ok body) \/
  pe.build on_none name rule idx = Raise e1 \/
  pe.build on_none name rule idx = Raise e2.
Proof.
  induction idx as [|i idx IH]; intro H.
  - left. exists []. reflexivity.
  - cbn [pe.build].
    destruct (H i (or_introl eq_refl)) as [[r Hr]|[Hr|Hr]]; rewrite Hr; cbn [bind].
    + destruct IH as [[body Hb]|[Hb|Hb]].
      * intros j Hj. apply H. now right.
      * rewrite Hb. left. eexists. reflexivity.
      * rewrite Hb. right. now left.
      * rewrite Hb. right. now right.
    + right. now left.
    + right. now right.
Qed.

(** X7.  When every declaration succeeds but [Loads] has no entry for
    some time step and output, or [Cmatrix] has no entry for some
    output and input while [Time] is not empty, construction raises
    [ValueError] naming [Loads] or [Cmatrix]: the load balance cannot
    be written. *)
Theorem missing_entry_raises_ValueError (on_none : none_rule) (self : EnergyHub)
    (t s : atom) :
  let d := self.(inp) in
  require_all (declaration_checks d) = Ok tt ->
  In t d.(Time) -> In s d.(Outputs) ->
  (lookup [t; s] d.(Loads) = None \/
   exists i, In i d.(Inputs) /\ lookup [s; i] d.(Cmatrix) = None) ->
  EnergyHub.createModel on_none self = Raise (ValueError "Loads") \/
  EnergyHub.createModel on_none self = Raise (ValueError "Cmatrix").
Proof.
  intros d Hchecks Ht Hs Hmiss.
  rewrite createModel_closed_eq. unfold createModel_closed. fold d.
  rewrite Hchecks. cbn [bind]. unfold constraint_blocks. cbv zeta.
  destruct (build_two_exceptions on_none "Load_balance"
              (rule2 "Load_balance" (Load_balance_rule (declared d)))
              (product [pe.ordered d.(Time); pe.ordered d.(Outputs)])
              (ValueError "Cmatrix") (ValueError "Loads"))
    as [[lb Hlb]|[Hlb|Hlb]].
  - intros i Hi. apply In_product in Hi.
    inversion Hi as [|a ? j ? Ha Hj]; subst.
    inversion Hj as [|b ? k ? Hb Hk]; subst. inversion Hk; subst.
    cbn [rule2]. apply Load_balance_rule_outcome; now apply In_ordered.
  - exfalso.
    assert (Hidx : In [t; s] (product [pe.ordered d.(Time); pe.ordered d.(Outputs)])).
    { apply In_product2. split; now apply In_ordered. }
    destruct (build_sound _ _ _ _ _ Hlb _ Hidx) as [[r [Hr _]]|[Hr _]];
      cbn [rule2] in Hr; apply Load_balance_rule_Ok in Hr;
      destruct Hr as [inputs [Hi [Hcm [Hloads Hr]]]]; [|discriminate].
    change (get_set (declared d) "Inputs")
      with (@Ok (list atom) (pe.ordered d.(Inputs))) in Hi.
    injection Hi as <-.
    destruct Hmiss as [Hl|[i [Hi Hl]]].
    + apply (getitem_param_lookup _ _ "Loads" (declared d) _ _ eq_refl) in Hloads.
      destruct Hloads as [_ Hloads]. congruence.
    + assert (Hin : In i (pe.ordered d.(Inputs))) by now apply In_ordered.
      specialize (Hcm i Hin).
      apply (getitem_param_lookup _ _ "Cmatrix" (declared d) _ _ eq_refl) in Hcm.
      destruct Hcm as [_ Hcm]. congruence.
  - right. rewrite Hlb. reflexivity.
  - left. rewrite Hlb. reflexivity.
Qed.

Lemma missing_entry_raises_ValueError_witness :
  EnergyHub.createModel NoneRaises (fresh "Missing_load" Missing_load)
    = Raise (ValueError "Loads") \/
  EnergyHub.createModel NoneRaises (fresh "Missing_load" Missing_load)
    = Raise (ValueError "Cmatrix").
Proof.
  apply (missing_entry_raises_ValueError NoneRaises
           (fresh "Missing_load" Missing_load) (Int 2) heat).
  - vm_compute. reflexivity.
  - simpl. tauto.
  - simpl. tauto.
  - left. reflexivity.
Defined.

(* ================================================================== *)
(** ** The instance *)

Lemma createModel_Ok_fields (on_none : none_rule) (self h : EnergyHub) :
  EnergyHub.createModel on_none self = Ok h ->
  h.(InputFile) = self.(InputFile) /\ h.(inp) = self.(inp) /\
  h.(num_of_pfp) = self.(num_of_pfp) /\ exists mdl, h.(m) = Some mdl.
Proof.
  rewrite createModel_closed_eq. unfold createModel_closed. intro H.
  apply bind_Ok in H. destruct H as [u [_ H]].
  apply bind_Ok in H. destruct H as [cs [_ H]].
  injection H as <-. cbn. eauto.
Qed.

(** X8.  [EnergyHub(input_file, n)] raises [TypeError] for a relative
    name, one that starts with a dot, [ValueError] for the empty name,
    and otherwise [ModuleNotFoundError] naming the first of the parent
    packages and the module that is not found.  When it returns an
    instance, the instance holds the name in [InputFile], the imported
    module in [inp], [n] in [num_of_pfp], and in [m] the model built
    from that module. *)
Theorem init_returns_configured_instance (on_none : none_rule) (path : module_path)
    (input_file : string) (n : Z) :
  (is_relative input_file = true ->
   EnergyHub.__init__ on_none path input_file n = Raise (TypeError input_file)) /\
  (input_file = "" ->
   EnergyHub.__init__ on_none path input_file n = Raise (ValueError "")) /\
  (forall missing,
     is_relative input_file = false -> input_file <> "" ->
     find (not_found path) (dotted_prefixes "" input_file) = Some missing ->
     EnergyHub.__init__ on_none path input_file n
       = Raise (ModuleNotFoundError missing)) /\
  (forall h,
     EnergyHub.__init__ on_none path input_file n = Ok h ->
     exists md mdl,
       path input_file = Some md /\
       h.(InputFile) = input_file /\ h.(inp) = md /\ h.(num_of_pfp) = n /\
       h.(m) = Some mdl /\
       built on_none
         {| InputFile := input_file; inp := md; num_of_pfp := n; m := None |} mdl).
Proof.
  split; [|split; [|split]].
  - intro H. unfold EnergyHub.__init__, import_module. rewrite H. reflexivity.
  - intros ->. reflexivity.
  - intros missing Hrel Hne Hfind. unfold EnergyHub.__init__, import_module.
    rewrite Hrel. apply String.eqb_neq in Hne. rewrite Hne, Hfind. reflexivity.
  - intros h H. unfold EnergyHub.__init__ in H.
    destruct (import_module path input_file) as [md|e] eqn:E; [|discriminate H].
    cbn [bind] in H. apply import_module_Ok in E.
    destruct (createModel_Ok_fields _ _ _ H) as [H1 [H2 [H3 [mdl H4]]]].
    exists md, mdl. repeat split; try assumption.
    exists h. split; assumption.
Qed.

Lemma init_returns_configured_instance_witness :
  EnergyHub.__init__ NoneRaises sample_path ".Firstscript" 10
    = Raise (TypeError ".Firstscript") /\
  EnergyHub.__init__ NoneRaises sample_path "data.Firstscript" 10
    = Raise (ModuleNotFoundError "data") /\
  exists h,
    EnergyHub.__init__ NoneRaises sample_path "Storage_only" 3 = Ok h /\
    h.(num_of_pfp) = 3 /\ h.(inp) = Storage_only.
Proof.
  split; [|split].
  - apply (proj1 (init_returns_configured_instance NoneRaises sample_path
                    ".Firstscript" 10)).
    reflexivity.
  - apply (proj1 (proj2 (proj2 (init_returns_configured_instance NoneRaises
                                  sample_path "data.Firstscript" 10)))).
    + reflexivity.
    + discriminate.
    + reflexivity.
  - destruct (EnergyHub.__init__ NoneRaises sample_path "Storage_only" 3)
      as [h|e] eqn:E; [|vm_compute in E; discriminate E].
    exists h. split; [reflexivity|].
    destruct (proj2 (proj2 (proj2 (init_returns_configured_instance NoneRaises
                                     sample_path "Storage_only" 3))) h E)
      as [md [mdl [Hp [_ [Hi [Hn _]]]]]].
    split; [exact Hn|]. rewrite Hi. vm_compute in Hp. now injection Hp as <-.
Defined.

(* ================================================================== *)
(** ** Domains of the variables *)

Lemma declared_y (d : InputModule) (idx : list index) (dom : domain) :
  In ("y", VarC idx dom) (declared d) -> dom = Binary.
Proof.
  intro H. unfold declared in H. cbv zeta in H. simpl in H.
  repeat (destruct H as [H|H]; [inversion H; subst; reflexivity|]).
  contradiction.
Qed.

(** X9.  In a feasible assignment of a built model every variable, at
    every index it is declared for, is non-negative. *)
Theorem variables_are_non_negative (on_none : none_rule) (self : EnergyHub)
    (mdl : ConcreteModel) (a : assignment) :
  built on_none self mdl ->
  feasible mdl a ->
  forall n idx dom i,
    In (n, VarC idx dom) mdl -> In i idx -> (0 <= a n i)%Q.
Proof.
  intros Hb Ha n idx dom i Hin Hi.
  pose proof (feasible_domain _ _ _ _ _ _ Ha Hin Hi) as Hd.
  apply (built_In _ _ _ _ _ _ Hb) in Hin.
  destruct (string_dec n "y") as [E|E].
  - subst n. apply declared_y in Hin. subst dom. simpl in Hd.
    destruct Hd as [Hd|Hd]; rewrite Hd; apply Qle_bool_iff; reflexivity.
  - apply declared_domain in Hin; [|assumption]. subst dom. exact Hd.
Qed.

Lemma variables_are_non_negative_witness :
  (0 <= discharge "Qout" [Int 1; heat])%Q /\
  (0 <= discharge "Total_cost" [])%Q.
Proof.
  split.
  - apply (variables_are_non_negative NoneRaises
             (fresh "Storage_only" Storage_only) Storage_only_model discharge
             built_Storage_only feasible_discharge
             "Qout" (product [pe.ordered Storage_only.(Time);
                              pe.ordered Storage_only.(Outputs)])
             NonNegativeReals).
    + apply getattr_In. vm_compute. reflexivity.
    + apply In_product2. simpl. tauto.
  - apply (variables_are_non_negative NoneRaises
             (fresh "Storage_only" Storage_only) Storage_only_model discharge
             built_Storage_only feasible_discharge
             "Total_cost" [[]] NonNegativeReals).
    + apply getattr_In. vm_compute. reflexivity.
    + now left.
Defined.

(* ================================================================== *)
(** ** What the constraints depend on *)

Lemma with_constraint_data_same (d d' : InputModule) :
  same_constraint_data d d' -> with_constraint_data d d' = d'.
Proof.
  unfold same_constraint_data, with_constraint_data.
  intros [H1 [H2 [H3 [H4 [H5 [H6 [H7 H8]]]]]]].
  rewrite H1, H2, H3, H4, H5, H6, H7, H8. destruct d'. reflexivity.
Qed.

Lemma constraint_blocks_with_constraint_data (on_none : none_rule)
    (d d' : InputModule) :
  constraint_blocks on_none (with_constraint_data d d') = constraint_blocks on_none d.
Proof. reflexivity. Qed.

Lemma getattr_block (d : InputModule) (cs : ConcreteModel) (n : string) :
  In n block_names -> getattr (declared d ++ cs) n = getattr cs n.
Proof.
  intro H. rewrite getattr_app. unfold block_names in H. simpl in H.
  repeat (destruct H as [H|H]; [subst n; reflexivity|]). contradiction.
Qed.

(** X10.  The constraints are determined by [Time], [Inputs],
    [Solar_inputs], [Dispatchable_Tech], [Outputs], [Loads], [Cmatrix]
    and [P_solar] alone: when a model is built from some input data,
    other input data that agree with them on these eight attributes and
    whose declarations succeed also build a model, with the same four
    constraint blocks.  Costs, storage parameters, lifetimes, tariffs,
    [First_hour], [CHP_Tech] and [Inputs_wo_grid] do not enter any
    constraint. *)
Theorem constraints_depend_on_eight_attributes (on_none : none_rule)
    (self self' : EnergyHub) (mdl : ConcreteModel) :
  built on_none self mdl ->
  same_constraint_data self.(inp) self'.(inp) ->
  require_all (declaration_checks self'.(inp)) = Ok tt ->
  exists mdl',
    built on_none self' mdl' /\
    forall n, In n block_names -> getattr mdl' n = getattr mdl n.
Proof.
  intros Hb Hsame Hc'. apply built_blocks in Hb.
  destruct Hb as [_ [cs [Hcs ->]]].
  exists (declared self'.(inp) ++ cs). split.
  - apply built_blocks. split; [assumption|]. exists cs. split; [|reflexivity].
    rewrite <- (with_constraint_data_same _ _ Hsame).
    now rewrite constraint_blocks_with_constraint_data.
  - intros n Hn. now rewrite !getattr_block.
Qed.

Lemma constraints_depend_on_eight_attributes_witness :
  exists mdl',
    built NoneRaises (fresh "Unphysical_storage_only" Unphysical_storage_only) mdl' /\
    forall n, In n block_names -> getattr mdl' n = getattr Storage_only_model n.
Proof.
  apply (constraints_depend_on_eight_attributes NoneRaises
           (fresh "Storage_only" Storage_only)
           (fresh "Unphysical_storage_only" Unphysical_storage_only)
           Storage_only_model built_Storage_only).
  - repeat split; reflexivity.
  - vm_compute. reflexivity.
Defined.

(* ================================================================== *)
(** ** Feasibility on the storage alone *)

Lemma Qpos_part_nonneg (q : Q) : (0 <= Qpos_part q)%Q.
Proof.
  unfold Qpos_part. destruct (Qle_bool 0 q) eqn:E.
  - now apply Qle_bool_iff.
  - apply Qle_refl.
Qed.

Lemma Qpos_part_difference (q : Q) : (Qpos_part q - Qpos_part (- q) == q)%Q.
Proof.
  unfold Qpos_part.
  destruct (Qle_bool 0 q) eqn:E1; destruct (Qle_bool 0 (- q)) eqn:E2.
  - apply Qle_bool_iff in E1, E2.
    assert (H : (q <= 0)%Q).
    { setoid_replace q with (- - q)%Q by (symmetry; apply Qopp_involutive).
      setoid_replace 0%Q with (- 0)%Q by reflexivity. now apply Qopp_le_compat. }
    assert (E : (q == 0)%Q) by (apply Qle_antisym; assumption).
    rewrite E. reflexivity.
  - ring.
  - ring.
  - exfalso.
    assert (H1 : ~ (0 <= q)%Q) by (intro H; apply Qle_bool_iff in H; congruence).
    assert (H2 : ~ (0 <= - q)%Q) by (intro H; apply Qle_bool_iff in H; congruence).
    apply Qnot_le_lt in H1. apply H2.
    setoid_replace 0%Q with (- 0)%Q by reflexivity.
    apply Qopp_le_compat. now apply Qlt_le_weak.
Qed.

Lemma storage_serves_all_nonneg (mdl : ConcreteModel) (n : string) (i : index) :
  (0 <= storage_serves_all mdl n i)%Q.
Proof.
  unfold storage_serves_all.
  destruct (String.eqb n "Qout"); [apply Qpos_part_nonneg|].
  destruct (String.eqb n "Qin"); [apply Qpos_part_nonneg | apply Qle_refl].
Qed.

Lemma sumQ_map_zero {A : Type} (f : A -> Q) (l : list A) :
  (forall x, (f x == 0)%Q) -> (sumQ (map f l) == 0)%Q.
Proof.
  intro H. induction l as [|x l IH]; simpl.
  - reflexivity.
  - rewrite H, IH. reflexivity.
Qed.

Lemma declared_no_constraint (d : InputModule) (n : string)
    (body : list (index * relexpr)) :
  ~ In (n, ConstraintC body) (declared d).
Proof.
  intro H. unfold declared in H. cbv zeta in H. simpl in H.
  repeat (destruct H as [H|H]; [discriminate H|]). contradiction.
Qed.

Lemma built_dict_read (on_none : none_rule) (self : EnergyHub) (mdl : ConcreteModel)
    (name : string) (sets : list (list atom)) (dd : dict) (k : index) (v : Q) :
  built on_none self mdl ->
  In (name, (sets, dd)) (dict_params self.(inp)) ->
  lookup k dd = Some v ->
  getitem_param mdl name k = Ok v.
Proof.
  intros Hb Hin Hl.
  pose proof (built_dict_param _ _ _ _ _ _ Hb Hin) as Hg.
  pose proof (built_keys_ok _ _ _ _ _ _ Hb Hin) as Hk.
  rewrite (getitem_param_spec _ _ _ _ k Hg), Hl.
  destruct (lookup_Some_key _ _ _ Hl) as [kv [Hkv Hfst]].
  unfold keys_ok in Hk. rewrite forallb_forall in Hk.
  specialize (Hk _ Hkv). rewrite Hfst in Hk. now rewrite Hk.
Qed.

(** X11.  Every built model has a feasible assignment in which the
    storage alone serves the loads: it discharges each positive load
    and takes up each negative one, so that [Qout - Qin] is the load at
    every time step and output, every other variable is zero, and so
    are the total cost and the total carbon. *)
Theorem storage_alone_is_feasible (on_none : none_rule)
    (self : EnergyHub) (mdl : ConcreteModel) :
  built on_none self mdl ->
  let a := storage_serves_all mdl in
  feasible mdl a /\
  (forall t s q,
     lookup [t; s] self.(inp).(Loads) = Some q ->
     (a "Qout" [t; s] - a "Qin" [t; s] == q)%Q) /\
  a "Total_cost" [] = 0%Q /\ a "Total_carbon" [] = 0%Q.
Proof.
  intros Hb a. split; [|split; [|split; reflexivity]].
  2:{ intros t s q Hq.
      change (a "Qout" [t; s]) with (Qpos_part (param mdl "Loads" [t; s])).
      change (a "Qin" [t; s]) with (Qpos_part (- param mdl "Loads" [t; s])).
      rewrite Qpos_part_difference.
      unfold param.
      rewrite (built_dict_read _ _ _ "Loads"
                 [self.(inp).(Time); self.(inp).(Outputs)] _ _ _ Hb
                 ltac:(unfold dict_params; simpl; tauto) Hq).
      reflexivity. }
  destruct (built_inv _ _ _ Hb) as [_ [lb [cc [si [fc [Hmdl [Hlb [Hcc [Hsi Hfc]]]]]]]]].
  apply Fixed_cost_constr_empty in Hfc. subst fc.
  intros n c Hin. destruct c as [l|idx vals dflt|idx dom|body]; simpl; try exact I.
  - intros i Hi. apply (built_In _ _ _ _ _ _ Hb) in Hin.
    destruct (string_dec n "y") as [E|E].
    + subst n. apply declared_y in Hin. subst dom. left. reflexivity.
    + apply declared_domain in Hin; [|assumption]. subst dom.
      apply storage_serves_all_nonneg.
  - intros i r Hir. rewrite Hmdl in Hin. apply in_app_or in Hin.
    destruct Hin as [Hin|Hin]; [exfalso; exact (declared_no_constraint _ _ _ Hin)|].
    simpl in Hin.
    destruct Hin as [Hin|[Hin|[Hin|[Hin|[]]]]]; injection Hin as <- <-.
    + destruct (build_complete _ _ _ _ _ Hlb _ _ Hir) as [_ Hr].
      apply rule2_Ok in Hr. destruct Hr as [t [s [_ Hr]]].
      apply Load_balance_rule_Ok in Hr. destruct Hr as [inputs [_ [_ [_ Hr]]]].
      injection Hr as ->. cbn [holds eval]. rewrite eval_py_sum, map_map.
      cbn [eval].
      rewrite sumQ_map_zero by (intro x; change (a "P" [t; x]) with 0%Q; ring).
      change (a "P_export" [t; s]) with 0%Q.
      change (a "Qout" [t; s]) with (Qpos_part (param mdl "Loads" [t; s])).
      change (a "Qin" [t; s]) with (Qpos_part (- param mdl "Loads" [t; s])).
      replace (param mdl "Loads" [t; s])
        with (param (declared self.(inp)) "Loads" [t; s])
        by (rewrite Hmdl; symmetry; eapply param_app_l; reflexivity).
      rewrite <- (Qpos_part_difference (param (declared self.(inp)) "Loads" [t; s]))
        at 3.
      ring.
    + destruct (build_complete _ _ _ _ _ Hcc _ _ Hir) as [_ Hr].
      apply rule3_Ok in Hr. destruct Hr as [t [disp [out [_ Hr]]]].
      apply Capacity_constraint_rule_Some in Hr. subst r. cbn [holds eval].
      change (a "P" [t; disp]) with 0%Q. change (a "Capacity" [disp]) with 0%Q.
      rewrite Qmult_0_l. apply Qle_refl.
    + destruct (build_complete _ _ _ _ _ Hsi _ _ Hir) as [_ Hr].
      apply rule3_Ok in Hr. destruct Hr as [t [sol [out [_ Hr]]]].
      apply Solar_input_rule_Some in Hr. subst r. cbn [holds eval].
      change (a "P" [t; sol]) with 0%Q. change (a "Capacity" [sol]) with 0%Q.
      ring.
    + contradiction.
Qed.

Lemma storage_alone_is_feasible_witness :
  feasible Storage_only_model (storage_serves_all Storage_only_model) /\
  (storage_serves_all Storage_only_model "Qout" [Int 2; heat]
   - storage_serves_all Storage_only_model "Qin" [Int 2; heat] == 8)%Q.
Proof.
  pose proof (storage_alone_is_feasible NoneRaises
                (fresh "Storage_only" Storage_only) Storage_only_model
                built_Storage_only) as H.
  cbv zeta in H. destruct H as [H1 [H2 _]].
  split; [exact H1|]. apply (H2 (Int 2) heat). reflexivity.
Defined.

(* ================================================================== *)
(** ** A rule that returns [None] *)

Lemma build_policy (name : string) (rule : index -> result (option relexpr))
    (idx : list index) :
  (forall i, rule i <> Ok None) ->
  pe.build NoneRaises name rule idx = pe.build NoneSkips name rule idx.
Proof.
  intro H. induction idx as [|i idx IH]; cbn [pe.build]; [reflexivity|].
  destruct (rule i) as [[r|]|e] eqn:E; cbn [bind].
  - now rewrite IH.
  - exfalso. exact (H _ E).
  - reflexivity.
Qed.

Lemma fold_add_head (l acc : list atom) (a : atom) :
  exists l', fold_left pe.add l (a :: acc) = a :: l'.
Proof.
  revert acc. induction l as [|b l IH]; intro acc; simpl.
  - eauto.
  - unfold pe.add. destruct (mem b (a :: acc)); apply IH.
Qed.

Lemma constraint_blocks_no_inputs (d : InputModule) :
  d.(Inputs) = [] ->
  constraint_blocks NoneRaises d = constraint_blocks NoneSkips d.
Proof.
  intro E. unfold constraint_blocks. cbv zeta.
  rewrite (build_policy "Load_balance") by apply Load_balance_never_None.
  destruct (pe.build NoneSkips "Load_balance" _ _) as [lb|e]; [|reflexivity].
  cbn [bind].
  rewrite (build_policy "Capacity_constraint")
    by apply Capacity_constraint_never_None.
  destruct (pe.build NoneSkips "Capacity_constraint" _ _) as [cc|e]; [|reflexivity].
  cbn [bind].
  rewrite (build_policy "Solar_input") by apply Solar_input_never_None.
  destruct (pe.build NoneSkips "Solar_input" _ _) as [si|e]; [|reflexivity].
  cbn [bind]. rewrite E. reflexivity.
Qed.

Lemma constraint_blocks_some_input (d : InputModule) (cs : ConcreteModel) :
  d.(Inputs) <> [] ->
  constraint_blocks NoneSkips d = Ok cs ->
  constraint_blocks NoneRaises d = Raise (ValueError "Fixed_cost_constr").
Proof.
  intros Hne H. unfold constraint_blocks in *. cbv zeta in *.
  rewrite (build_policy "Load_balance") by apply Load_balance_never_None.
  apply bind_Ok in H. destruct H as [lb [Hlb H]]. rewrite Hlb. cbn [bind].
  rewrite (build_policy "Capacity_constraint")
    by apply Capacity_constraint_never_None.
  apply bind_Ok in H. destruct H as [cc [Hcc H]]. rewrite Hcc. cbn [bind].
  rewrite (build_policy "Solar_input") by apply Solar_input_never_None.
  apply bind_Ok in H. destruct H as [si [Hsi H]]. rewrite Hsi. cbn [bind].
  apply bind_Ok in H. destruct H as [fc [Hfc _]].
  destruct (Inputs d) as [|a l]; [contradiction|].
  unfold pe.ordered in *. cbn [fold_left] in *.
  change (pe.add [] a) with [a] in *.
  destruct (fold_add_head l [] a) as [l' El]. rewrite El in *.
  cbn [product flat_map map app] in *.
  destruct (build_sound _ _ _ _ _ Hfc [a] (or_introl eq_refl)) as [[r [Hr _]]|[Hr _]].
  - cbn [rule1] in Hr. apply Fixed_cost_constr_rule_Ok in Hr. discriminate Hr.
  - cbn [pe.build]. rewrite Hr. reflexivity.
Qed.

(** X12.  How construction ends when [pe.Constraint] rejects a rule
    that returns [None].  On input data without any input technology
    the rule of [Fixed_cost_constr] is never called and construction
    ends as it does when [None] is skipped.  On input data with an
    input technology, whenever construction succeeds with [None]
    skipped, it raises [ValueError] at [Fixed_cost_constr] with [None]
    rejected; so the script at the end of the file then completes only
    for a module [Firstscript] that declares no input technology. *)
Theorem rejected_None_stops_construction :
  (forall self,
     self.(inp).(Inputs) = [] ->
     EnergyHub.createModel NoneRaises self = EnergyHub.createModel NoneSkips self) /\
  (forall self h,
     self.(inp).(Inputs) <> [] ->
     EnergyHub.createModel NoneSkips self = Ok h ->
     EnergyHub.createModel NoneRaises self = Raise (ValueError "Fixed_cost_constr")) /\
  (forall path h r,
     main NoneRaises path = Ok (h, r) ->
     r = PyNone /\
     exists md, path "Firstscript" = Some md /\ md.(Inputs) = [] /\ h.(inp) = md).
Proof.
  split; [|split].
  - intros self E. rewrite !createModel_closed_eq. unfold createModel_closed.
    now rewrite (constraint_blocks_no_inputs _ E).
  - intros self h Hne H. rewrite createModel_closed_eq in *.
    unfold createModel_closed in *.
    apply bind_Ok in H. destruct H as [[] [Hc H]].
    apply bind_Ok in H. destruct H as [cs [Hcs _]].
    rewrite Hc. cbn [bind].
    now rewrite (constraint_blocks_some_input _ _ Hne Hcs).
  - intros path h r H. unfold main in H.
    apply bind_Ok in H. destruct H as [sp [Hsp H]].
    unfold EnergyHub.solve in H. injection H as <- <-.
    split; [reflexivity|].
    unfold EnergyHub.__init__ in Hsp.
    destruct (import_module path "Firstscript") as [md|e] eqn:E;
      [|discriminate Hsp].
    cbn [bind] in Hsp. exists md. split; [exact (import_module_Ok _ _ _ E)|].
    destruct (createModel_Ok_fields _ _ _ Hsp) as [_ [Hi [_ [mdl Hm]]]].
    split; [|exact Hi].
    apply (built_NoneRaises
             {| InputFile := "Firstscript"; inp := md; num_of_pfp := 10; m := None |}
             mdl).
    exists sp. split; assumption.
Qed.

Lemma rejected_None_stops_construction_witness :
  EnergyHub.createModel NoneRaises (fresh "Storage_only" Storage_only)
    = EnergyHub.createModel NoneSkips (fresh "Storage_only" Storage_only) /\
  EnergyHub.createModel NoneRaises (fresh "Firstscript" Firstscript)
    = Raise (ValueError "Fixed_cost_constr").
Proof.
  split.
  - apply (proj1 rejected_None_stops_construction). reflexivity.
  - destruct built_Firstscript as [h [Hh _]].
    apply (proj1 (proj2 rejected_None_stops_construction) _ h); [|exact Hh].
    discriminate.
Defined.
